(** * psql-cli: the metrics engine ([metrics.py], [g_monitoring_collector.py])

    A shallow embedding of the [TimeSeries] container, of the cumulative and
    distribution decoders of [GMonitoringCollector] and of its fan-out/fan-in
    snapshot assembly, together with the properties the design document
    states about them.

    Conventions of the embedding:
    - a Python [int] is a [Z]; a Python [float] is a primitive IEEE-754
      binary64 [float]; [bool] is [bool]; [str] is [string];
    - a raised exception is the [Raise] branch of [result]; a method that
      mutates [self] returns the outcome together with the new [self];
    - a [dict] is an association list in insertion order, a [set] is a list
      of distinct keys whose iteration order is a parameter. *)

From Stdlib Require Import ZArith List String Bool Lia Floats.
From Stdlib Require Import Sorting.Sorted Sorting.Permutation.
Import ListNotations.
Open Scope string_scope.
Open Scope list_scope.
Open Scope Z_scope.

(* ================================================================== *)
(** * Python runtime: exceptions and the error monad *)
(* ================================================================== *)

Inductive exn : Type :=
| ValueError (msg : string)
| TypeError
| AttributeError
| OverflowError
| ZeroDivisionError
| IndexError
| KeyError
| BackendError (msg : string).

Inductive result (A : Type) : Type :=
| Ok (a : A)
| Raise (e : exn).

Arguments Ok {A} a.
Arguments Raise {A} e.

Definition bind {A B : Type} (m : result A) (k : A -> result B) : result B :=
  match m with
  | Ok a => k a
  | Raise e => Raise e
  end.

Notation "x <- m ;; k" := (bind m (fun x => k))
  (at level 61, m at next level, right associativity).

Definition is_ok {A : Type} (m : result A) : bool :=
  match m with Ok _ => true | Raise _ => false end.

(** A [for] loop whose body may raise: the accumulator is the loop state. *)
Fixpoint for_each {A S : Type} (body : S -> A -> result S) (xs : list A) (s : S)
  : result S :=
  match xs with
  | [] => Ok s
  | x :: rest => s' <- body s x ;; for_each body rest s'
  end.

(* ================================================================== *)
(** * Python numbers: [int], [float], [bool] *)
(* ================================================================== *)

(** The values a [TimeSeries] stores: [Union[float, int, bool]]. *)
Inductive scalar : Type :=
| VInt (z : Z)
| VFloat (f : float)
| VBool (b : bool).

(** [bool] is a subclass of [int]: [True] is 1 and [False] is 0. *)
Definition as_int (b : bool) : Z := if b then 1 else 0.

(** Converting an [int] to a [float] rounds to nearest even and raises
    [OverflowError] when the rounded value would leave the finite range:
    the largest finite double is [2^1024 - 2^971], and every integer of
    magnitude at least [2^1024 - 2^970] rounds to [2^1024]. *)
Definition float_int_limit : Z := 2 ^ 1024 - 2 ^ 970.

Definition int_to_float (z : Z) : result float :=
  if Z.abs z <? float_int_limit
  then Ok (SF2Prim (binary_normalize prec emax z 0 false))
  else Raise OverflowError.

(** [float(value)] *)
Definition py_float (v : scalar) : result float :=
  match v with
  | VFloat f => Ok f
  | VInt z => int_to_float z
  | VBool b => int_to_float (as_int b)
  end.

(** [v1 + v2] on [float | int | bool]: integer addition is exact, a float
    operand converts the other one. *)
Definition py_add (v1 v2 : scalar) : result scalar :=
  match v1, v2 with
  | VFloat x, _ => y <- py_float v2 ;; Ok (VFloat (x + y)%float)
  | _, VFloat y => x <- py_float v1 ;; Ok (VFloat (x + y)%float)
  | VInt a, VInt b => Ok (VInt (a + b))
  | VInt a, VBool b => Ok (VInt (a + as_int b))
  | VBool a, VInt b => Ok (VInt (as_int a + b))
  | VBool a, VBool b => Ok (VInt (as_int a + as_int b))
  end.

(** [z / 2] on integers is true division: the correctly rounded value of
    [z * 2^-1], [OverflowError] when that leaves the finite range. *)
Definition int_truediv_2 (z : Z) : result float :=
  if Z.abs z <? 2 * float_int_limit
  then Ok (SF2Prim (binary_normalize prec emax z (-1) false))
  else Raise OverflowError.

(** [v / 2] *)
Definition py_truediv_2 (v : scalar) : result scalar :=
  match v with
  | VFloat x => Ok (VFloat (x / 2)%float)
  | VInt z => f <- int_truediv_2 z ;; Ok (VFloat f)
  | VBool b => f <- int_truediv_2 (as_int b) ;; Ok (VFloat f)
  end.

(** [x / n] with a float numerator and an [int] denominator. *)
Definition float_div_int (x : float) (n : Z) : result float :=
  if n =? 0 then Raise ZeroDivisionError
  else d <- int_to_float n ;; Ok (x / d)%float.

(** [x * n] and [x + n] with an [int] right operand. *)
Definition float_mul_int (x : float) (n : Z) : result float :=
  d <- int_to_float n ;; Ok (x * d)%float.

Definition float_add_int (x : float) (n : Z) : result float :=
  d <- int_to_float n ;; Ok (x + d)%float.

(* ================================================================== *)
(** * [datetime] *)
(* ================================================================== *)

(** The fields of a [datetime.datetime]; comparison is lexicographic on
    them, as it is for datetimes of one time zone. *)
Record datetime : Type := mk_datetime {
  year : Z;
  month : Z;
  day : Z;
  hour : Z;
  minute : Z;
  second : Z;
  microsecond : Z
}.

Definition dt_fields (d : datetime) : list Z :=
  [year d; month d; day d; hour d; minute d; second d; microsecond d].

Fixpoint lex_compare (a b : list Z) : comparison :=
  match a, b with
  | [], [] => Eq
  | [], _ :: _ => Lt
  | _ :: _, [] => Gt
  | x :: a', y :: b' =>
      match x ?= y with
      | Eq => lex_compare a' b'
      | c => c
      end
  end.

Definition dt_compare (a b : datetime) : comparison :=
  lex_compare (dt_fields a) (dt_fields b).

(** [a == b], [a < b], [a <= b] *)
Definition dt_eqb (a b : datetime) : bool :=
  match dt_compare a b with Eq => true | _ => false end.
Definition dt_ltb (a b : datetime) : bool :=
  match dt_compare a b with Lt => true | _ => false end.
Definition dt_leb (a b : datetime) : bool :=
  match dt_compare a b with Gt => false | _ => true end.

Definition dt_lt (a b : datetime) : Prop := dt_ltb a b = true.
Definition dt_le (a b : datetime) : Prop := dt_leb a b = true.

(** The ranges the [datetime] constructor enforces (days are not checked
    against the month; nothing below depends on them). *)
Definition valid_datetime (d : datetime) : Prop :=
  1 <= year d <= 9999 /\ 1 <= month d <= 12 /\ 1 <= day d <= 31 /\
  0 <= hour d <= 23 /\ 0 <= minute d <= 59 /\ 0 <= second d <= 59 /\
  0 <= microsecond d <= 999999.

(** [ts.replace(minute=m, second=s, microsecond=us)]: the new fields are
    range-checked, a bad one raises [ValueError]. *)
Definition replace_minute_second_microsecond (ts : datetime) (m s us : Z)
  : result datetime :=
  if negb ((0 <=? m) && (m <=? 59)) then
    Raise (ValueError "minute must be in 0..59")
  else if negb ((0 <=? s) && (s <=? 59)) then
    Raise (ValueError "second must be in 0..59")
  else if negb ((0 <=? us) && (us <=? 999999)) then
    Raise (ValueError "microsecond must be in 0..999999")
  else
    Ok (mk_datetime (year ts) (month ts) (day ts) (hour ts) m s us).

(** [dt.replace(second=0, microsecond=0)]: both constants are in range, so
    the call cannot raise. *)
Definition replace_second_microsecond_0 (dt : datetime) : datetime :=
  mk_datetime (year dt) (month dt) (day dt) (hour dt) (minute dt) 0 0.

(* ================================================================== *)
(** * Lists: stable sort by key, dictionaries *)
(* ================================================================== *)

(** [list.sort(key=...)] and [sorted(..., key=...)] are stable: an element
    is placed before the first later element whose key is not smaller. *)
Section StableSort.
Context {A : Type}.
Variable key : A -> datetime.

Fixpoint insert_by (x : A) (l : list A) : list A :=
  match l with
  | [] => [x]
  | y :: l' =>
      if dt_leb (key x) (key y) then x :: y :: l'
      else y :: insert_by x l'
  end.

Fixpoint sort_by (l : list A) : list A :=
  match l with
  | [] => []
  | x :: l' => insert_by x (sort_by l')
  end.
End StableSort.

(** A [dict] keyed by [K], in insertion order. *)
Section Dict.
Context {K V : Type}.
Variable eqb : K -> K -> bool.

Fixpoint dict_get (d : list (K * V)) (k : K) : option V :=
  match d with
  | [] => None
  | (k', v) :: d' => if eqb k' k then Some v else dict_get d' k
  end.

(** [d[k] = v]: overwrite in place, or append a new key. *)
Fixpoint dict_set (d : list (K * V)) (k : K) (v : V) : list (K * V) :=
  match d with
  | [] => [(k, v)]
  | (k', v') :: d' =>
      if eqb k' k then (k', v) :: d' else (k', v') :: dict_set d' k v
  end.

Definition dict_keys (d : list (K * V)) : list K := map fst d.
Definition dict_values (d : list (K * V)) : list V := map snd d.

(** [d[k]] *)
Definition dict_item (d : list (K * V)) (k : K) : result V :=
  match dict_get d k with
  | Some v => Ok v
  | None => Raise KeyError
  end.

(** [{k: v for k, v in items}] *)
Definition dict_of_items (items : list (K * V)) : list (K * V) :=
  fold_left (fun d kv => dict_set d (fst kv) (snd kv)) items [].
End Dict.

(* ================================================================== *)
(** * [metrics.py]: [TimeSeries] *)
(* ================================================================== *)

Record TimeSeries : Type := mk_TimeSeries {
  values : list (datetime * scalar);
  unit : option string
}.

(** [self.values.append((ts, value))] *)
Definition add (self : TimeSeries) (ts : datetime) (value : scalar) : TimeSeries :=
  mk_TimeSeries (values self ++ [(ts, value)]) (unit self).

Definition timestamps (self : TimeSeries) : list datetime :=
  map fst (values self).

Definition data (self : TimeSeries) : list scalar :=
  map snd (values self).

(** [self.values.sort(key=lambda x: x[0])] (ascending) *)
Definition sort (self : TimeSeries) : TimeSeries :=
  mk_TimeSeries (sort_by fst (values self)) (unit self).

(** [get_by_ts]: the first stored value at [ts], the integer 0 when there
    is none. *)
Fixpoint get_by_ts_loop (vs : list (datetime * scalar)) (ts : datetime) : scalar :=
  match vs with
  | [] => VInt 0
  | (t, v) :: rest => if dt_eqb t ts then v else get_by_ts_loop rest ts
  end.

Definition get_by_ts (self : TimeSeries) (ts : datetime) : scalar :=
  get_by_ts_loop (values self) ts.

(** [mode not in ("sum", "avg")] *)
Definition mode_supported (mode : string) : bool :=
  String.eqb mode "sum" || String.eqb mode "avg".

(** ** [TimeSeries.group_by_minutes] *)

(** [sums.get(bucket_ts, 0.0)] and [counts.get(bucket_ts, 0)] *)
Definition get_or {V : Type} (d : list (datetime * V)) (k : datetime) (default : V) : V :=
  match dict_get dt_eqb d k with
  | Some v => v
  | None => default
  end.

(** The bucket of one timestamp:
    [ts.replace(minute=(ts.minute // min) * min, second=0, microsecond=0)]. *)
Definition bucket_of (min : Z) (ts : datetime) : result datetime :=
  let bucket_minute := (minute ts / min) * min in
  replace_minute_second_microsecond ts bucket_minute 0 0.

(** Body of the first loop, over [self.values]. *)
Definition accumulate (min : Z)
    (acc : list (datetime * float) * list (datetime * Z))
    (tv : datetime * scalar)
  : result (list (datetime * float) * list (datetime * Z)) :=
  let '(sums, counts) := acc in
  let '(ts, value) := tv in
  bucket_ts <- bucket_of min ts ;;
  fv <- py_float value ;;
  let sums := dict_set dt_eqb sums bucket_ts (get_or sums bucket_ts 0%float + fv)%float in
  let counts := dict_set dt_eqb counts bucket_ts (get_or counts bucket_ts 0 + 1) in
  Ok (sums, counts).

(** Body of the second loop, over [sorted(sums.keys())]. *)
Definition emit (mode : string)
    (sums : list (datetime * float)) (counts : list (datetime * Z))
    (new_values : list (datetime * scalar)) (ts : datetime)
  : result (list (datetime * scalar)) :=
  agg <- (if String.eqb mode "sum" then dict_item dt_eqb sums ts
          else s <- dict_item dt_eqb sums ts ;;
               c <- dict_item dt_eqb counts ts ;;
               float_div_int s c) ;;
  Ok (new_values ++ [(ts, VFloat agg)]).

(** The method replaces [self.values] in place: it returns the outcome and
    the series as it is after the call. *)
Definition group_by_minutes (self : TimeSeries) (min : Z) (mode : string)
  : result Datatypes.unit * TimeSeries :=
  if min <=? 0 then (Raise (ValueError "min must be > 0"), self)
  else if negb (mode_supported mode) then
    (Raise (ValueError "mode must be 'sum' or 'avg'"), self)
  else
    match
      (acc <- for_each (accumulate min) (values self) ([], []) ;;
       let '(sums, counts) := acc in
       for_each (emit mode sums counts) (sort_by (fun t => t) (dict_keys sums)) [])
    with
    | Raise e => (Raise e, self)
    | Ok new_values => (Ok tt, mk_TimeSeries new_values (unit self))
    end.

(** ** [TimeSeries.combine] *)

Definition dt_eq_dec (a b : datetime) : {a = b} + {a <> b}.
Proof. decide equality; apply Z.eq_dec. Defined.

(** [a or b] on [Optional[str]]: [None] and the empty string are falsy. *)
Definition unit_or (a b : option string) : option string :=
  match a with
  | Some s => if String.eqb s "" then b else a
  | None => b
  end.

(** What iterating over a [set] built from the keys [l] may yield: each
    distinct key once, in an order the language does not fix. *)
Definition set_iteration (iter : list datetime -> list datetime) : Prop :=
  forall l, NoDup (iter l) /\ (forall x, In x (iter l) <-> In x l).

(** The value stored for one timestamp of the union. When both lookups
    miss, Python would store [None]; a timestamp drawn from the union of
    the keys never gets there (lemma [combine_value_defined]). *)
Definition combine_value (mode : string) (v1 v2 : option scalar) : result scalar :=
  match v1, v2 with
  | Some a, Some b =>
      if String.eqb mode "sum" then py_add a b
      else s <- py_add a b ;; py_truediv_2 s
  | Some a, None => Ok a
  | None, Some b => Ok b
  | None, None => Raise TypeError
  end.

Section Combine.
(** The iteration order of [all_timestamps]. *)
Variable set_iter : list datetime -> list datetime.

Definition combine (self other : TimeSeries) (mode : string) : result TimeSeries :=
  if negb (mode_supported mode) then
    Raise (ValueError "mode must be 'sum' or 'avg'")
  else
    let result := mk_TimeSeries [] (unit_or (unit self) (unit other)) in
    let self_map := dict_of_items dt_eqb (values self) in
    let other_map := dict_of_items dt_eqb (values other) in
    let all_timestamps := set_iter (dict_keys self_map ++ dict_keys other_map) in
    result <- for_each
                (fun result ts =>
                   let v1 := dict_get dt_eqb self_map ts in
                   let v2 := dict_get dt_eqb other_map ts in
                   value <- combine_value mode v1 v2 ;;
                   Ok (add result ts value))
                all_timestamps result ;;
    Ok (sort result).
End Combine.

(** One admissible iteration order: first occurrence. *)
Definition first_occurrence_order (l : list datetime) : list datetime :=
  rev (nodup dt_eq_dec (rev l)).

(** The values at shared timestamps can be added (and halved): no
    [OverflowError] from an integer beyond the float range. *)
Definition combine_safe (self other : TimeSeries) (mode : string) : bool :=
  forallb
    (fun tv =>
       match dict_get dt_eqb (dict_of_items dt_eqb (values other)) (fst tv) with
       | Some v2 => is_ok (combine_value mode (Some (snd tv)) (Some v2))
       | None => true
       end)
    (dict_of_items dt_eqb (values self)).

(** Every value converts to [float], and so does the number of values. *)
Definition float_safe (self : TimeSeries) : bool :=
  forallb (fun v => is_ok (py_float v)) (data self)
  && (Z.of_nat (List.length (values self)) <? float_int_limit).

(** ** The metric bundles of [metrics.py] *)

Module PerqueryLockTimeMetric.
Record t : Type := mk {
  querystring : option string;
  query_hash : option string;
  user : option string;
  location : option string;
  database : option string;
  total_wait : option Z;
  perquery_lock_time : TimeSeries
}.
End PerqueryLockTimeMetric.

Module PerqueryLatencyMetric.
Record t : Type := mk {
  querystring : option string;
  query_hash : option string;
  user : option string;
  location : option string;
  database : option string;
  perquery_count : TimeSeries;
  perquery_latency_mean : TimeSeries;
  perquery_latency_pr75 : TimeSeries
}.
End PerqueryLatencyMetric.

Module PerqueryIOTimeMetric.
Record t : Type := mk {
  user : option string;
  querystring : option string;
  io_type : option string;
  query_hash : option string;
  database : option string;
  perquery_IO_time : TimeSeries
}.
End PerqueryIOTimeMetric.

(* ================================================================== *)
(** * The monitoring backend, at its boundary *)
(* ================================================================== *)

(** What [client.list_time_series] returns: series carrying two label maps
    and sample points; a point has an interval and a typed value. An unset
    timestamp of the interval reads as [None]. *)
Record TimeInterval : Type := mk_TimeInterval {
  end_time : option datetime;
  start_time : option datetime
}.

(** [dist.count], [dist.mean], [dist.bucket_options.explicit_buckets.bounds]
    and [dist.bucket_counts]. *)
Record Distribution : Type := mk_Distribution {
  count : Z;
  mean : float;
  explicit_bounds : list float;
  bucket_counts : list Z
}.

Record TypedValue : Type := mk_TypedValue {
  int64_value : Z;
  double_value : float;
  distribution_value : Distribution
}.

Record Point : Type := mk_Point {
  interval : TimeInterval;
  value : TypedValue
}.

Record RawSeries : Type := mk_RawSeries {
  metric_labels : list (string * string);
  resource_labels : list (string * string);
  points : list Point
}.

(** [p.interval.end_time or p.interval.start_time] (a datetime is truthy) *)
Definition interval_time (p : Point) : option datetime :=
  match end_time (interval p) with
  | Some t => Some t
  | None => start_time (interval p)
  end.

Definition is_none {A : Type} (o : option A) : bool :=
  match o with None => true | Some _ => false end.

(** The order [sorted] uses on the points; it is only consulted when every
    key is a datetime. *)
Definition point_leb (a b : Point) : bool :=
  match interval_time a, interval_time b with
  | Some x, Some y => dt_leb x y
  | _, _ => true
  end.

Fixpoint insert_point (x : Point) (l : list Point) : list Point :=
  match l with
  | [] => [x]
  | y :: l' => if point_leb x y then x :: y :: l' else y :: insert_point x l'
  end.

(** [sorted(ts.points, key=lambda p: p.interval.end_time or
    p.interval.start_time)]: stable; with two points or more every key
    takes part in a comparison, and comparing [None] raises [TypeError]. *)
Definition sorted_points (ps : list Point) : result (list Point) :=
  if (2 <=? List.length ps)%nat && existsb (fun p => is_none (interval_time p)) ps
  then Raise TypeError
  else Ok (fold_right insert_point [] ps).

(** [dt = p.interval.end_time or p.interval.start_time] followed by
    [dt = dt.replace(second=0, microsecond=0)]. *)
Definition point_minute (p : Point) : result datetime :=
  match interval_time p with
  | Some dt => Ok (replace_second_microsecond_0 dt)
  | None => Raise AttributeError
  end.

(** [labels.get(name)] and [x or ""] *)
Definition label (labels : list (string * string)) (name : string) : option string :=
  dict_get String.eqb labels name.

Definition or_empty (o : option string) : string :=
  match o with Some s => s | None => "" end.

(** Identity keys are tuples of strings. *)
Fixpoint key_eqb (a b : list string) : bool :=
  match a, b with
  | [], [] => true
  | x :: a', y :: b' => String.eqb x y && key_eqb a' b'
  | _, _ => false
  end.

(** The client: the series it lists for a metric type, or the error of
    the call. *)
Definition MetricServiceClient : Type := string -> result (list RawSeries).

(* ================================================================== *)
(** * [g_monitoring_collector.py]: the decoders *)
(* ================================================================== *)

(** ** [load_perquery_lock_time] *)

(** Body of [for p in points]; the loop state is the series of the bundle
    and [last_p]. *)
Definition lock_time_point (st : TimeSeries * option Z) (p : Point)
  : result (TimeSeries * option Z) :=
  let '(series, last_p) := st in
  dt <- point_minute p ;;
  let cur := int64_value (value p) in
  let delta :=
    match last_p with
    | None => cur
    | Some last => let delta := cur - last in if delta <? 0 then 0 else delta
    end in
  Ok (add series dt (VInt delta), Some cur).

(** Body of [for ts in series_list]. *)
Definition lock_time_series
    (grouped : list (list string * PerqueryLockTimeMetric.t)) (ts : RawSeries)
  : result (list (list string * PerqueryLockTimeMetric.t)) :=
  let mlabels := metric_labels ts in
  let rlabels := resource_labels ts in
  let querystring := label mlabels "querystring" in
  let query_hash := label mlabels "query_hash" in
  let user := label mlabels "user" in
  let location := label rlabels "location" in
  let database := label rlabels "database" in
  let key := [or_empty query_hash; or_empty querystring; or_empty user;
              or_empty location; or_empty database] in
  let metric_obj :=
    match dict_get key_eqb grouped key with
    | Some obj => obj
    | None =>
        PerqueryLockTimeMetric.mk querystring query_hash user location database None
          (mk_TimeSeries [] (Some "us = microseconds (1,000,000 µs = 1 second)"))
    end in
  points <- sorted_points (points ts) ;;
  st <- for_each lock_time_point points
          (PerqueryLockTimeMetric.perquery_lock_time metric_obj, None) ;;
  Ok (dict_set key_eqb grouped key
        (PerqueryLockTimeMetric.mk
           (PerqueryLockTimeMetric.querystring metric_obj)
           (PerqueryLockTimeMetric.query_hash metric_obj)
           (PerqueryLockTimeMetric.user metric_obj)
           (PerqueryLockTimeMetric.location metric_obj)
           (PerqueryLockTimeMetric.database metric_obj)
           (PerqueryLockTimeMetric.total_wait metric_obj)
           (fst st))).

Definition lock_time_metric_type : string :=
  "cloudsql.googleapis.com/database/postgresql/insights/perquery/lock_time".

Definition load_perquery_lock_time (client : MetricServiceClient)
  : result (list PerqueryLockTimeMetric.t) :=
  series_list <- client lock_time_metric_type ;;
  grouped <- for_each lock_time_series series_list [] ;;
  let result := dict_values grouped in
  Ok (map (fun obj =>
             PerqueryLockTimeMetric.mk
               (PerqueryLockTimeMetric.querystring obj)
               (PerqueryLockTimeMetric.query_hash obj)
               (PerqueryLockTimeMetric.user obj)
               (PerqueryLockTimeMetric.location obj)
               (PerqueryLockTimeMetric.database obj)
               (PerqueryLockTimeMetric.total_wait obj)
               (sort (PerqueryLockTimeMetric.perquery_lock_time obj)))
          result).

(** ** [load_perquery_IO_time] *)

Definition io_time_point (series : TimeSeries) (p : Point) : result TimeSeries :=
  dt <- point_minute p ;;
  Ok (add series dt (VInt (int64_value (value p)))).

Definition io_time_series
    (grouped : list (list string * PerqueryIOTimeMetric.t)) (ts : RawSeries)
  : result (list (list string * PerqueryIOTimeMetric.t)) :=
  let mlabels := metric_labels ts in
  let rlabels := resource_labels ts in
  let querystring := label mlabels "querystring" in
  let query_hash := label mlabels "query_hash" in
  let io_type := label mlabels "io_type" in
  let user := label mlabels "user" in
  let database := label rlabels "database" in
  let key := [or_empty query_hash; or_empty io_type; or_empty user;
              or_empty database] in
  let metric_obj :=
    match dict_get key_eqb grouped key with
    | Some obj => obj
    | None =>
        PerqueryIOTimeMetric.mk user querystring io_type query_hash database
          (mk_TimeSeries [] (Some "us = microseconds (1,000,000 µs = 1 second)"))
    end in
  points <- sorted_points (points ts) ;;
  series <- for_each io_time_point points
              (PerqueryIOTimeMetric.perquery_IO_time metric_obj) ;;
  Ok (dict_set key_eqb grouped key
        (PerqueryIOTimeMetric.mk
           (PerqueryIOTimeMetric.user metric_obj)
           (PerqueryIOTimeMetric.querystring metric_obj)
           (PerqueryIOTimeMetric.io_type metric_obj)
           (PerqueryIOTimeMetric.query_hash metric_obj)
           (PerqueryIOTimeMetric.database metric_obj)
           series)).

Definition io_time_metric_type : string :=
  "cloudsql.googleapis.com/database/postgresql/insights/perquery/io_time".

Definition load_perquery_IO_time (client : MetricServiceClient)
  : result (list PerqueryIOTimeMetric.t) :=
  series_list <- client io_time_metric_type ;;
  grouped <- for_each io_time_series series_list [] ;;
  let result := dict_values grouped in
  Ok (map (fun obj =>
             PerqueryIOTimeMetric.mk
               (PerqueryIOTimeMetric.user obj)
               (PerqueryIOTimeMetric.querystring obj)
               (PerqueryIOTimeMetric.io_type obj)
               (PerqueryIOTimeMetric.query_hash obj)
               (PerqueryIOTimeMetric.database obj)
               (sort (PerqueryIOTimeMetric.perquery_IO_time obj)))
          result).

(** ** [load_perquery_latency] *)

(** [float(bounds[-1]) if bounds else 0.0] *)
Definition last_bound_or_zero (bounds : list float) : float :=
  List.last bounds 0%float.

(** [bounds[i]] *)
Definition bound_at (bounds : list float) (i : nat) : result float :=
  match nth_error bounds i with
  | Some b => Ok b
  | None => Raise IndexError
  end.

(** [max(0.0, x)]: the first argument unless the second is greater. *)
Definition max_zero (x : float) : float :=
  if (0 <? x)%float then x else 0%float.

(** The loop [for i, c in enumerate(bucket_counts)] of
    [_percentile_from_explicit_buckets], from index [i] with the running
    [cum]; falling off the end returns the last finite bound. *)
Fixpoint percentile_walk (bounds : list float) (target : float)
    (i : nat) (cum : float) (cs : list Z) : result float :=
  match cs with
  | [] => Ok (last_bound_or_zero bounds)
  | c :: rest =>
      if c <=? 0 then
        cum <- float_add_int cum c ;;
        percentile_walk bounds target (S i) cum rest
      else
        next_cum <- float_add_int cum c ;;
        if (target <=? next_cum)%float then
          within <- (if c =? 0 then Ok 0%float
                     else float_div_int (target - cum)%float c) ;;
          if Nat.eqb i 0 then
            let upper := match bounds with b0 :: _ => b0 | [] => 0%float end in
            Ok (max_zero (within * upper)%float)
          else
            let n := List.length bounds in
            if (n <=? i)%nat then Ok (last_bound_or_zero bounds)
            else
              lower <- bound_at bounds (i - 1) ;;
              upper <- bound_at bounds i ;;
              Ok (lower + within * (upper - lower))%float
        else
          percentile_walk bounds target (S i) next_cum rest
  end.

(** [sum(bucket_counts)] *)
Definition sum_counts (bucket_counts : list Z) : Z :=
  fold_left Z.add bucket_counts 0.

(** The clamp of [q] to [[0, 1]]. *)
Definition clamp_q (q : float) : float :=
  if (q <=? 0)%float then 0%float
  else if (1 <=? q)%float then 1%float
  else q.

Definition _percentile_from_explicit_buckets
    (bounds : list float) (bucket_counts : list Z) (q : float) : result float :=
  let total := sum_counts bucket_counts in
  if total <=? 0 then Ok 0%float
  else
    let q := clamp_q q in
    target <- float_mul_int q total ;;
    percentile_walk bounds target 0%nat 0%float bucket_counts.

(** The four [last_*] variables of the point loop. *)
Record LastPoint : Type := mk_LastPoint {
  last_count : option Z;
  last_sum_us : option float;
  last_bucket_counts : option (list Z);
  last_bounds : option (list float)
}.

(** Truthiness of a list, and of an optional list. *)
Definition nonempty {A : Type} (l : list A) : bool :=
  match l with [] => false | _ :: _ => true end.

Definition opt_nonempty {A : Type} (o : option (list A)) : bool :=
  match o with Some l => nonempty l | None => false end.

Definition opt_length {A : Type} (o : option (list A)) : nat :=
  match o with Some l => List.length l | None => 0%nat end.

(** [last_sum_us or 0.0]: [None] and zero are falsy. *)
Definition float_or_zero (o : option float) : float :=
  match o with
  | Some x => if (x =? 0)%float then 0%float else x
  | None => 0%float
  end.

(** [d if d > 0 else 0] over [zip(buckets, last_bucket_counts)] *)
Definition bucket_deltas (buckets last : list Z) : list Z :=
  map (fun cl => let d := fst cl - snd cl in if 0 <? d then d else 0)
      (List.combine buckets last).

(** The [if last_count is None: ... else: ...] of the point loop: the
    delta count, sum, buckets and bounds of the current point. *)
Definition point_deltas (last : LastPoint) (cur_count : Z) (cur_sum_us : float)
    (buckets : list Z) (bounds : list float)
  : Z * float * list Z * list float :=
  match last_count last with
  | None => (cur_count, cur_sum_us, buckets, bounds)
  | Some last_count =>
      let delta_count := cur_count - last_count in
      let delta_count := if delta_count <? 0 then 0 else delta_count in
      let delta_sum_us := (cur_sum_us - float_or_zero (last_sum_us last))%float in
      let delta_sum_us := if (delta_sum_us <? 0)%float then 0%float else delta_sum_us in
      if nonempty buckets && opt_nonempty (last_bucket_counts last)
         && nonempty bounds && opt_nonempty (last_bounds last)
         && Nat.eqb (List.length bounds) (opt_length (last_bounds last))
         && Nat.eqb (List.length buckets) (opt_length (last_bucket_counts last))
      then
        (delta_count, delta_sum_us,
         bucket_deltas buckets
           (match last_bucket_counts last with Some l => l | None => [] end),
         bounds)
      else (delta_count, delta_sum_us, [], bounds)
  end.

(** Body of [for p in points]: the three sibling series of the bundle get
    one value each, at the same [dt]. *)
Definition latency_point (st : PerqueryLatencyMetric.t * LastPoint) (p : Point)
  : result (PerqueryLatencyMetric.t * LastPoint) :=
  let '(metric_obj, last) := st in
  dt <- point_minute p ;;
  let dist := distribution_value (value p) in
  let cur_count := count dist in
  let cur_mean_us := mean dist in
  cur_sum_us <- float_mul_int cur_mean_us cur_count ;;
  let bounds := explicit_bounds dist in
  let buckets := bucket_counts dist in
  let '(delta_count, delta_sum_us, delta_buckets, delta_bounds) :=
    point_deltas last cur_count cur_sum_us buckets bounds in
  let perquery_count :=
    add (PerqueryLatencyMetric.perquery_count metric_obj) dt (VInt delta_count) in
  mean_us <- (if 0 <? delta_count then float_div_int delta_sum_us delta_count
              else Ok 0%float) ;;
  let perquery_latency_mean :=
    add (PerqueryLatencyMetric.perquery_latency_mean metric_obj) dt (VFloat mean_us) in
  pr75_us <- (if (0 <? delta_count) && nonempty delta_buckets && nonempty delta_bounds
              then _percentile_from_explicit_buckets delta_bounds delta_buckets 0.75%float
              else Ok (if delta_count =? 1 then mean_us else 0%float)) ;;
  let perquery_latency_pr75 :=
    add (PerqueryLatencyMetric.perquery_latency_pr75 metric_obj) dt (VFloat pr75_us) in
  Ok (PerqueryLatencyMetric.mk
        (PerqueryLatencyMetric.querystring metric_obj)
        (PerqueryLatencyMetric.query_hash metric_obj)
        (PerqueryLatencyMetric.user metric_obj)
        (PerqueryLatencyMetric.location metric_obj)
        (PerqueryLatencyMetric.database metric_obj)
        perquery_count perquery_latency_mean perquery_latency_pr75,
      mk_LastPoint (Some cur_count) (Some cur_sum_us) (Some buckets) (Some bounds)).

(** Body of [for ts in series_list]. *)
Definition latency_series
    (grouped : list (list string * PerqueryLatencyMetric.t)) (ts : RawSeries)
  : result (list (list string * PerqueryLatencyMetric.t)) :=
  let mlabels := metric_labels ts in
  let rlabels := resource_labels ts in
  let querystring := label mlabels "querystring" in
  let query_hash := label mlabels "query_hash" in
  let user := label mlabels "user" in
  let location := label rlabels "location" in
  let database := label rlabels "database" in
  let key := [or_empty query_hash; or_empty querystring; or_empty user;
              or_empty location; or_empty database] in
  let metric_obj :=
    match dict_get key_eqb grouped key with
    | Some obj => obj
    | None =>
        PerqueryLatencyMetric.mk querystring query_hash user location database
          (mk_TimeSeries [] (Some "count"))
          (mk_TimeSeries [] (Some "us = microseconds"))
          (mk_TimeSeries [] (Some "us = microseconds"))
    end in
  points <- sorted_points (points ts) ;;
  st <- for_each latency_point points
          (metric_obj, mk_LastPoint None None None None) ;;
  Ok (dict_set key_eqb grouped key (fst st)).

Definition latency_metric_type : string :=
  "cloudsql.googleapis.com/database/postgresql/insights/perquery/latencies".

Definition load_perquery_latency (client : MetricServiceClient)
  : result (list PerqueryLatencyMetric.t) :=
  series_list <- client latency_metric_type ;;
  grouped <- for_each latency_series series_list [] ;;
  let result := dict_values grouped in
  Ok (map (fun obj =>
             PerqueryLatencyMetric.mk
               (PerqueryLatencyMetric.querystring obj)
               (PerqueryLatencyMetric.query_hash obj)
               (PerqueryLatencyMetric.user obj)
               (PerqueryLatencyMetric.location obj)
               (PerqueryLatencyMetric.database obj)
               (sort (PerqueryLatencyMetric.perquery_count obj))
               (sort (PerqueryLatencyMetric.perquery_latency_mean obj))
               (sort (PerqueryLatencyMetric.perquery_latency_pr75 obj)))
          result).

(** The three sibling series of a bundle can be paired by index. *)
Definition aligned (b : PerqueryLatencyMetric.t) : Prop :=
  timestamps (PerqueryLatencyMetric.perquery_count b)
    = timestamps (PerqueryLatencyMetric.perquery_latency_mean b)
  /\ timestamps (PerqueryLatencyMetric.perquery_latency_mean b)
    = timestamps (PerqueryLatencyMetric.perquery_latency_pr75 b)
  /\ List.length (values (PerqueryLatencyMetric.perquery_count b))
    = List.length (values (PerqueryLatencyMetric.perquery_latency_mean b))
  /\ List.length (values (PerqueryLatencyMetric.perquery_latency_mean b))
    = List.length (values (PerqueryLatencyMetric.perquery_latency_pr75 b)).

(* ================================================================== *)
(** * [generate_cloudsql_metrics]: fan-out and fan-in *)
(* ================================================================== *)

(** What a fetch task returns, by category: a list of bundles, a WAL
    bundle (database id, region, series), the backends-by-state bundles
    (state, database, region, series), one series, or series by name. *)
Inductive fetch_result : Type :=
| LockTimeMetrics (l : list PerqueryLockTimeMetric.t)
| LatencyMetrics (l : list PerqueryLatencyMetric.t)
| IOTimeMetrics (l : list PerqueryIOTimeMetric.t)
| WALMetric (database_id region : option string) (series : TimeSeries)
| BackendsByState
    (l : list (option string * option string * option string * TimeSeries))
| Series (s : TimeSeries)
| SeriesByName (d : list (string * TimeSeries)).

(** The collector: its client, and the outcome of each loader that is not
    embedded above. *)
Record GMonitoringCollector : Type := mk_GMonitoringCollector {
  _monitoring_client : MetricServiceClient;
  load_wal_flushed_bytes_count : result fetch_result;
  load_wal_inserted_bytes_count : result fetch_result;
  load_psql_num_backends_by_state : result fetch_result;
  load_cpu_usage_time : result fetch_result;
  load_cpu_utilization : result fetch_result;
  load_disk_quota : result fetch_result;
  load_disk_utilization : result fetch_result;
  load_disk_write_bytes : result fetch_result;
  load_disk_bytes_used_by_type : result fetch_result;
  load_memory_quota : result fetch_result;
  load_memory_components : result fetch_result
}.

Definition fmap {A B : Type} (f : A -> B) (m : result A) : result B :=
  x <- m ;; Ok (f x).

(** The registry: attribute name, and what running the task yields. *)
Definition fetch_map (self : GMonitoringCollector)
  : list (string * result fetch_result) :=
  [ ("perquery_lock_time_metrics",
       fmap LockTimeMetrics (load_perquery_lock_time (_monitoring_client self)));
    ("perquery_latency_metrics",
       fmap LatencyMetrics (load_perquery_latency (_monitoring_client self)));
    ("perquery_IO_time_metrics",
       fmap IOTimeMetrics (load_perquery_IO_time (_monitoring_client self)));
    ("wal_flushed_bytes_metrics", load_wal_flushed_bytes_count self);
    ("wal_inserted_bytes_metrics", load_wal_inserted_bytes_count self);
    ("psql_num_backends_by_state_metrics", load_psql_num_backends_by_state self);
    ("cpu_usage_time", load_cpu_usage_time self);
    ("cpu_utilization", load_cpu_utilization self);
    ("disk_quota", load_disk_quota self);
    ("disk_utilization", load_disk_utilization self);
    ("disk_read_bytes", load_disk_write_bytes self);
    ("disk_bytes_used_by_type", load_disk_bytes_used_by_type self);
    ("memory_quota", load_memory_quota self);
    ("memory_components", load_memory_components self) ].

(** The fields of the [CloudSQLMetrics] dataclass. *)
Definition CloudSQLMetrics_fields : list string :=
  [ "perquery_lock_time_metrics"; "perquery_latency_metrics";
    "perquery_IO_time_metrics"; "wal_flushed_bytes_metrics";
    "wal_inserted_bytes_metrics"; "psql_num_backends_by_state_metrics";
    "cpu_usage_time"; "cpu_utilization"; "cpu_reserved_cores";
    "disk_quota"; "disk_utilization"; "disk_read_bytes"; "disk_read_ops";
    "disk_write_bytes"; "disk_write_ops"; "disk_bytes_used";
    "disk_bytes_used_by_type"; "memory_quota"; "memory_components";
    "pg_stat_statements_top_queries"; "pg_stat_statements_heavy_wal" ].

(** A snapshot: the fields that were passed; the others keep their
    defaults. *)
Record CloudSQLMetrics : Type := mk_CloudSQLMetrics {
  populated : list (string * fetch_result)
}.

(** The constructor call with [data] as keyword arguments: an unknown
    keyword is a [TypeError]. *)
Definition CloudSQLMetrics_init (data : list (string * fetch_result))
  : result CloudSQLMetrics :=
  if forallb (fun k => existsb (String.eqb k) CloudSQLMetrics_fields)
             (dict_keys data)
  then Ok (mk_CloudSQLMetrics data)
  else Raise TypeError.

(** A future holds the outcome of its task; [as_completed] yields the
    futures in the order the tasks finish. *)
Definition completion_order
    (as_completed : list (result fetch_result * string)
                    -> list (result fetch_result * string)) : Prop :=
  forall futures, Permutation (as_completed futures) futures.

Section FanIn.
Variable as_completed :
  list (result fetch_result * string) -> list (result fetch_result * string).

(** Body of [for fut in as_completed(future_to_attr)]: [fut.result()]
    re-raises what the task raised. *)
Definition collect (data : list (string * fetch_result))
    (fut_attr : result fetch_result * string)
  : result (list (string * fetch_result)) :=
  let '(fut, attr) := fut_attr in
  r <- fut ;;
  Ok (dict_set String.eqb data attr r).

(** The assembly over a registry. *)
Definition assemble (fetch_map : list (string * result fetch_result))
  : result CloudSQLMetrics :=
  let future_to_attr := map (fun af => (snd af, fst af)) fetch_map in
  data <- for_each collect (as_completed future_to_attr) [] ;;
  CloudSQLMetrics_init data.

Definition generate_cloudsql_metrics (self : GMonitoringCollector)
  : result CloudSQLMetrics :=
  assemble (fetch_map self).
End FanIn.

(* ================================================================== *)
(** * The design document's own wording of the delta series *)
(* ================================================================== *)

(** "For each subsequent sample, delta = max(0, raw_value - last_value)". *)
Fixpoint deltas_after (last_value : Z) (raw : list Z) : list Z :=
  match raw with
  | [] => []
  | raw_value :: rest => Z.max 0 (raw_value - last_value) :: deltas_after raw_value rest
  end.

(** "For the first sample, emit delta = raw_value". *)
Definition spec_deltas (raw : list Z) : list Z :=
  match raw with
  | [] => []
  | raw_value :: rest => raw_value :: deltas_after raw_value rest
  end.

(** The raw readings of a series, in the order of its points. *)
Definition raw_readings (ts : RawSeries) : list Z :=
  map (fun p => int64_value (value p)) (points ts).

(** The bucket boundary of the design document:
    [floor(minute / m) * m], seconds and microseconds zero. *)
Definition bucket_boundary (m : Z) (t : datetime) : datetime :=
  mk_datetime (year t) (month t) (day t) (hour t) ((minute t / m) * m) 0 0.

(* ================================================================== *)
(** * Loop invariants and sample data *)
(* ================================================================== *)

(** The loop state of the first loop: both dicts have the same keys, each
    once, and no count is below 1 or above the number [n] of values seen. *)
Definition accumulated (n : Z)
    (acc : list (datetime * float) * list (datetime * Z)) : Prop :=
  0 <= n
  /\ dict_keys (fst acc) = dict_keys (snd acc)
  /\ NoDup (dict_keys (fst acc))
  /\ (forall k c, dict_get dt_eqb (snd acc) k = Some c -> 1 <= c <= n).

(** The deltas the point loop appends, from its [last_p]. *)
Definition loop_deltas (last_p : option Z) (raw : list Z) : list Z :=
  match last_p with
  | None => spec_deltas raw
  | Some last => deltas_after last raw
  end.

(** The three sibling series of a bundle hold the same timestamps in the
    same order: the invariant of the point loop, before the final sort. *)
Definition same_timestamps (b : PerqueryLatencyMetric.t) : Prop :=
  timestamps (PerqueryLatencyMetric.perquery_count b)
    = timestamps (PerqueryLatencyMetric.perquery_latency_mean b)
  /\ timestamps (PerqueryLatencyMetric.perquery_latency_mean b)
    = timestamps (PerqueryLatencyMetric.perquery_latency_pr75 b).

(** Four cumulative readings one minute apart, the last one after a
    counter reset. *)
Definition sample_time (m s us : Z) : datetime := mk_datetime 2024 5 17 12 m s us.

Definition cumulative_point (t : datetime) (raw : Z) : Point :=
  mk_Point (mk_TimeInterval (Some t) None)
           (mk_TypedValue raw 0%float (mk_Distribution 0 0%float [] [])).

Definition sample_times : list datetime :=
  [sample_time 0 30 500; sample_time 1 30 0; sample_time 2 31 250;
   sample_time 3 29 0].

Definition sample_cumulative_series : RawSeries :=
  mk_RawSeries
    [("query_hash", "9f3a"); ("querystring", "SELECT 1"); ("user", "app");
     ("io_type", "read")]
    [("database", "orders"); ("location", "europe-west1")]
    (map (fun tr => cumulative_point (fst tr) (snd tr))
         (List.combine sample_times [0; 100; 250; 200])).

Definition sample_cumulative_client : MetricServiceClient :=
  fun _ => Ok [sample_cumulative_series].

(** Three distribution samples of one query, the histogram growing. *)
Definition distribution_point (t : datetime) (n : Z) (mean_us : float)
    (buckets : list Z) : Point :=
  mk_Point (mk_TimeInterval (Some t) None)
           (mk_TypedValue 0 0%float
              (mk_Distribution n mean_us [10; 20; 30]%float buckets)).

Definition sample_distribution_series : RawSeries :=
  mk_RawSeries
    [("query_hash", "9f3a"); ("querystring", "SELECT 1"); ("user", "app")]
    [("database", "orders"); ("location", "europe-west1")]
    [ distribution_point (sample_time 2 31 250) 22 18%float [4; 6; 10; 2];
      distribution_point (sample_time 0 30 500) 10 21%float [2; 3; 5; 0];
      distribution_point (sample_time 1 30 0) 12 20%float [2; 4; 6; 0] ].

Definition sample_distribution_client : MetricServiceClient :=
  fun _ => Ok [sample_distribution_series; sample_distribution_series].

(** Series with integer, float and boolean values. *)
Definition sample_mixed : TimeSeries :=
  mk_TimeSeries
    [ (sample_time 7 30 0, VInt 3); (sample_time 2 10 500, VFloat 1.5);
      (sample_time 8 0 0, VBool true); (sample_time 2 59 0, VInt 4) ]
    (Some "count").

Definition sample_flags : TimeSeries :=
  mk_TimeSeries
    [ (sample_time 2 10 500, VBool true); (sample_time 9 0 0, VBool false) ]
    None.

(** Two series that differ in their units only. *)
Definition empty_unit : TimeSeries := mk_TimeSeries [] (Some "").
Definition bytes_unit : TimeSeries := mk_TimeSeries [] (Some "bytes").

(** A collector whose disk-quota task fails and whose other tasks
    succeed. *)
Definition sample_collector : GMonitoringCollector :=
  mk_GMonitoringCollector
    sample_cumulative_client
    (Ok (WALMetric (Some "p:i") None (mk_TimeSeries [] (Some "bytes"))))
    (Ok (WALMetric (Some "p:i") None (mk_TimeSeries [] (Some "bytes"))))
    (Ok (BackendsByState []))
    (Ok (Series sample_mixed))
    (Ok (Series sample_mixed))
    (Raise (BackendError "quota exceeded"))
    (Ok (Series sample_mixed))
    (Ok (Series sample_mixed))
    (Ok (SeriesByName []))
    (Ok (Series sample_mixed))
    (Ok (SeriesByName [])).

(* ================================================================== *)
(** * [metrics.py]: the remaining methods of [TimeSeries] *)
(* ================================================================== *)

(** [sort(ascending)]: [list.sort(key=..., reverse=not ascending)]. A
    reversed sort stays stable: the list is reversed, sorted ascending and
    reversed again. *)
Definition sort_with (self : TimeSeries) (ascending : bool) : TimeSeries :=
  if ascending then sort self
  else mk_TimeSeries (rev (sort_by fst (rev (values self)))) (unit self).

(** [self.values.extend(timeseries.values)] *)
Definition extend (self timeseries : TimeSeries) : TimeSeries :=
  mk_TimeSeries (values self ++ values timeseries) (unit self).

(** The value a [dict] built from the pairs of a series holds for [ts]:
    the last one stored for it. *)
Definition last_value_at (self : TimeSeries) (ts : datetime) : option scalar :=
  dict_get dt_eqb (rev (values self)) ts.

(** The float sum of the values whose bucket is [k], in storage order,
    starting from [acc]; and the number of such values. *)
Fixpoint bucket_sum (m : Z) (k : datetime) (vs : list (datetime * scalar))
    (acc : float) : result float :=
  match vs with
  | [] => Ok acc
  | (t, v) :: rest =>
      if dt_eqb (bucket_boundary m t) k then
        f <- py_float v ;; bucket_sum m k rest (acc + f)%float
      else bucket_sum m k rest acc
  end.

Definition bucket_count (m : Z) (k : datetime) (vs : list (datetime * scalar)) : Z :=
  Z.of_nat (List.length (filter (fun tv => dt_eqb (bucket_boundary m (fst tv)) k) vs)).


(* ================================================================== *)
(** * Notions used to state further properties of the decoders *)
(* ================================================================== *)

(** The identity key of a lock-time bundle, as the decoder forms it from
    the labels. *)
Definition lock_time_identity (b : PerqueryLockTimeMetric.t) : list string :=
  [or_empty (PerqueryLockTimeMetric.query_hash b);
   or_empty (PerqueryLockTimeMetric.querystring b);
   or_empty (PerqueryLockTimeMetric.user b);
   or_empty (PerqueryLockTimeMetric.location b);
   or_empty (PerqueryLockTimeMetric.database b)].

(** The key the lock-time and latency decoders give a listed series. *)
Definition series_identity (ts : RawSeries) : list string :=
  [or_empty (label (metric_labels ts) "query_hash");
   or_empty (label (metric_labels ts) "querystring");
   or_empty (label (metric_labels ts) "user");
   or_empty (label (resource_labels ts) "location");
   or_empty (label (resource_labels ts) "database")].

(** Two listings of the same series that differ in the order of the
    points only. *)
Definition same_up_to_point_order (ts ts' : RawSeries) : Prop :=
  metric_labels ts = metric_labels ts'
  /\ resource_labels ts = resource_labels ts'
  /\ Permutation (points ts) (points ts').

(** Every point of the series has a time, and no two points share one. *)
Definition distinct_times (ts : RawSeries) : Prop :=
  Forall (fun p => interval_time p <> None) (points ts)
  /\ NoDup (map interval_time (points ts)).

(** The pairs the point loop appends for a time-ordered run of readings:
    truncated timestamps with the deltas; or with the raw readings. *)
Definition delta_pairs (times : list datetime) (raw : list Z)
  : list (datetime * scalar) :=
  List.combine (map replace_second_microsecond_0 times) (map VInt (spec_deltas raw)).

Definition raw_pairs (times : list datetime) (raw : list Z)
  : list (datetime * scalar) :=
  List.combine (map replace_second_microsecond_0 times) (map VInt raw).

(** The sum of a list of integers. *)
Definition total (l : list Z) : Z := fold_right Z.add 0 l.

(** The counts of the distribution samples of a series, in the order of
    its points. *)
Definition raw_counts (ts : RawSeries) : list Z :=
  map (fun p => count (distribution_value (value p))) (points ts).


(* ================================================================== *)
(** * [g_monitoring_collector.py]: the other loaders *)
(* ================================================================== *)

Module PSQLNumBackendsByStateMetric.
Record t : Type := mk {
  state : option string;
  database : option string;
  region : option string;
  psql_num_backends_by_state : TimeSeries
}.
End PSQLNumBackendsByStateMetric.

(** The loaders are methods of the collector; here each takes the client
    it reads from. *)
Module Loader.

(** Body of [for p in points] in the loaders that append every point to
    one series: [results.add(dt, p.value.<field>)]. *)
Definition append_point (field : TypedValue -> scalar)
    (results : TimeSeries) (p : Point) : result TimeSeries :=
  dt <- point_minute p ;;
  Ok (add results dt (field (value p))).

(** Body of [for ts in series_list] in the same loaders. *)
Definition append_series (field : TypedValue -> scalar)
    (results : TimeSeries) (ts : RawSeries) : result TimeSeries :=
  points <- sorted_points (points ts) ;;
  for_each (append_point field) points results.

(** The six loaders of one series share one text, up to the metric type,
    the unit and the value field they read. *)
Definition load_series (client : MetricServiceClient) (metric_type unit : string)
    (field : TypedValue -> scalar) : result TimeSeries :=
  series_list <- client metric_type ;;
  match series_list with
  | [] => Ok (mk_TimeSeries [] (Some unit))
  | _ :: _ =>
      let results := mk_TimeSeries [] (Some unit) in
      for_each (append_series field) series_list results
  end.

Definition double_field (v : TypedValue) : scalar := VFloat (double_value v).
Definition int64_field (v : TypedValue) : scalar := VInt (int64_value v).

Definition load_cpu_usage_time (client : MetricServiceClient) : result TimeSeries :=
  load_series client "cloudsql.googleapis.com/database/cpu/usage_time"
    "CPU-seconds" double_field.

Definition load_cpu_utilization (client : MetricServiceClient) : result TimeSeries :=
  load_series client "cloudsql.googleapis.com/database/cpu/utilization"
    "%" double_field.

Definition load_disk_quota (client : MetricServiceClient) : result TimeSeries :=
  load_series client "cloudsql.googleapis.com/database/disk/quota"
    "bytes" int64_field.

Definition load_disk_utilization (client : MetricServiceClient) : result TimeSeries :=
  load_series client "cloudsql.googleapis.com/database/disk/utilization"
    "%" int64_field.

Definition load_disk_write_bytes (client : MetricServiceClient) : result TimeSeries :=
  load_series client "cloudsql.googleapis.com/database/disk/write_bytes_count"
    "%" int64_field.

Definition load_memory_quota (client : MetricServiceClient) : result TimeSeries :=
  load_series client "cloudsql.googleapis.com/database/memory/quota"
    "bytes" int64_field.

(** Body of [for ts in series_list] in the two loaders that return a dict
    of series by a label. [mlabels[name]] raises [KeyError] when the label
    is missing; [datas] is the series stored for the label, or a fresh
    one; it is stored back, with all its points, only if the loop over
    the points runs at least once. *)
Definition by_label_series (name : string) (field : TypedValue -> scalar)
    (results : list (string * TimeSeries)) (ts : RawSeries)
  : result (list (string * TimeSeries)) :=
  let mlabels := metric_labels ts in
  data_type <- dict_item String.eqb mlabels name ;;
  points <- sorted_points (points ts) ;;
  let datas :=
    match dict_get String.eqb results data_type with
    | Some datas => datas
    | None => mk_TimeSeries [] (Some "bytes")
    end in
  datas <- for_each (append_point field) points datas ;;
  Ok (match points with
      | [] => results
      | _ :: _ => dict_set String.eqb results data_type datas
      end).

Definition load_by_label (client : MetricServiceClient) (metric_type name : string)
    (field : TypedValue -> scalar) : result (list (string * TimeSeries)) :=
  series_list <- client metric_type ;;
  match series_list with
  | [] => Ok [("Not Available", mk_TimeSeries [] (Some "bytes"))]
  | _ :: _ => for_each (by_label_series name field) series_list []
  end.

Definition load_disk_bytes_used_by_type (client : MetricServiceClient)
  : result (list (string * TimeSeries)) :=
  load_by_label client
    "cloudsql.googleapis.com/database/disk/bytes_used_by_data_type"
    "data_type" int64_field.

Definition load_memory_components (client : MetricServiceClient)
  : result (list (string * TimeSeries)) :=
  load_by_label client "cloudsql.googleapis.com/database/memory/components"
    "component" double_field.

(** Body of [for ts in series_list] of [load_psql_num_backends_by_state]. *)
Definition backends_series
    (grouped : list (list string * PSQLNumBackendsByStateMetric.t)) (ts : RawSeries)
  : result (list (list string * PSQLNumBackendsByStateMetric.t)) :=
  let mlabels := metric_labels ts in
  let rlabels := resource_labels ts in
  let state := label mlabels "state" in
  let database := label mlabels "database" in
  let region := label rlabels "region" in
  let key := [or_empty state; or_empty database; or_empty region] in
  let metric_obj :=
    match dict_get key_eqb grouped key with
    | Some obj => obj
    | None =>
        PSQLNumBackendsByStateMetric.mk state database region
          (mk_TimeSeries [] (Some "counts"))
    end in
  points <- sorted_points (points ts) ;;
  series <- for_each (append_point int64_field) points
              (PSQLNumBackendsByStateMetric.psql_num_backends_by_state metric_obj) ;;
  Ok (dict_set key_eqb grouped key
        (PSQLNumBackendsByStateMetric.mk
           (PSQLNumBackendsByStateMetric.state metric_obj)
           (PSQLNumBackendsByStateMetric.database metric_obj)
           (PSQLNumBackendsByStateMetric.region metric_obj)
           series)).

Definition load_psql_num_backends_by_state (client : MetricServiceClient)
  : result (list PSQLNumBackendsByStateMetric.t) :=
  series_list <- client "cloudsql.googleapis.com/database/postgresql/num_backends_by_state" ;;
  match series_list with
  | [] =>
      Ok [PSQLNumBackendsByStateMetric.mk (Some "No Data") (Some "No Data")
            (Some "No Data") (mk_TimeSeries [] (Some "counts"))]
  | _ :: _ =>
      grouped <- for_each backends_series series_list [] ;;
      Ok (dict_values grouped)
  end.

End Loader.

(** The number of points of a listing. *)
Definition point_count (listing : list RawSeries) : nat :=
  List.length (List.concat (map points listing)).

(* ================================================================== *)
(** * [figure_logic]: data preparation of the figures *)
(* ================================================================== *)

(** [[float(v) for _, v in vals]] *)
Fixpoint floats_of (vs : list scalar) : result (list float) :=
  match vs with
  | [] => Ok []
  | v :: rest => f <- py_float v ;; fs <- floats_of rest ;; Ok (f :: fs)
  end.

(** [disk_related._safe_xy]: the pairs sorted by time, as two lists; any
    exception gives two empty lists. *)
Definition _safe_xy (ts : TimeSeries) : list datetime * list float :=
  let vals := values ts in
  match vals with
  | [] => ([], [])
  | _ :: _ =>
      let vals := sort_by fst vals in
      let x := map fst vals in
      match floats_of (map snd vals) with
      | Ok y => (x, y)
      | Raise _ => ([], [])
      end
  end.

(** [network_related.network_overview], first figure: the series of one
    item laid out on the common time axis [x_ts]; a timestamp the item
    lacks reads 0. *)
Definition on_axis (x_ts : list datetime) (item : TimeSeries) : TimeSeries :=
  fold_left
    (fun y_values ts =>
       if negb (existsb (dt_eqb ts) (timestamps item))
       then add y_values ts (VInt 0)
       else add y_values ts (get_by_ts item ts))
    x_ts (mk_TimeSeries [] (Some "counts")).


(** Equality on the states of the items, which key [grouped_state]. *)
Definition state_eqb (a b : option string) : bool :=
  match a, b with
  | Some x, Some y => String.eqb x y
  | None, None => true
  | _, _ => false
  end.

Section NetworkOverview.
(** The iteration order of the sets involved. *)
Variable set_iter : list datetime -> list datetime.

(** [x_ts = sorted(x_set)], the set holding the timestamps of all items. *)
Definition common_axis (items : list PSQLNumBackendsByStateMetric.t) : list datetime :=
  let x_set :=
    List.concat
      (map (fun item =>
              timestamps (PSQLNumBackendsByStateMetric.psql_num_backends_by_state item))
           items) in
  sort_by (fun t => t) (set_iter x_set).

(** Body of the loop that fills [grouped_state]: the item's series on the
    axis is stored for its state, or combined in "sum" mode with the
    series already stored (an instance of [TimeSeries] is always truthy). *)
Definition grouped_state_item (x_ts : list datetime)
    (grouped_state : list (option string * TimeSeries))
    (item : PSQLNumBackendsByStateMetric.t)
  : result (list (option string * TimeSeries)) :=
  let y_values :=
    on_axis x_ts (PSQLNumBackendsByStateMetric.psql_num_backends_by_state item) in
  let state := PSQLNumBackendsByStateMetric.state item in
  match dict_get state_eqb grouped_state state with
  | Some stored =>
      combined <- combine set_iter stored y_values "sum" ;;
      Ok (dict_set state_eqb grouped_state state combined)
  | None => Ok (dict_set state_eqb grouped_state state y_values)
  end.

Definition grouped_state_of (items : list PSQLNumBackendsByStateMetric.t)
  : result (list (option string * TimeSeries)) :=
  let x_ts := common_axis items in
  for_each (grouped_state_item x_ts) items [].
End NetworkOverview.

(** The integer an item contributes at a timestamp, and the sum of the
    contributions of the items of one state. *)
Definition int_at (s : TimeSeries) (t : datetime) : Z :=
  match get_by_ts s t with
  | VInt z => z
  | VBool b => as_int b
  | VFloat _ => 0
  end.

Definition state_total (items : list PSQLNumBackendsByStateMetric.t)
    (state : option string) (t : datetime) : Z :=
  total (map (fun item =>
                int_at (PSQLNumBackendsByStateMetric.psql_num_backends_by_state item) t)
             (filter (fun item => state_eqb (PSQLNumBackendsByStateMetric.state item) state)
                     items)).

(** The state of [grouped_state] after the items [seen]: one series per
    state seen, on the axis, holding the totals of the state. *)
Definition grouped_state_invariant (x_ts : list datetime)
    (seen : list PSQLNumBackendsByStateMetric.t)
    (g : list (option string * TimeSeries)) : Prop :=
  NoDup (dict_keys g)
  /\ (forall state, In state (dict_keys g)
        <-> exists item, In item seen /\ PSQLNumBackendsByStateMetric.state item = state)
  /\ (forall state s, In (state, s) g ->
        timestamps s = x_ts
        /\ forall t, In t x_ts -> In (t, VInt (state_total seen state t)) (values s)).

(** All the stored values are integers, as the loader stores them. *)
Definition integer_valued (s : TimeSeries) : Prop :=
  Forall (fun v => exists z, v = VInt z) (data s).


(* ================================================================== *)
(** * More sample data *)
(* ================================================================== *)

(** A series that stores one timestamp twice. *)
Definition sample_repeated : TimeSeries :=
  mk_TimeSeries
    [ (sample_time 1 0 0, VInt 1); (sample_time 2 0 0, VInt 2);
      (sample_time 1 0 0, VInt 3) ]
    (Some "count").

(** A series whose timestamps strictly ascend. *)
Definition sample_ascending : TimeSeries :=
  mk_TimeSeries
    [ (sample_time 2 10 500, VFloat 1.5); (sample_time 2 59 0, VInt 4);
      (sample_time 7 30 0, VInt 3); (sample_time 8 0 0, VBool true) ]
    (Some "count").

(** The sample cumulative series as the backend lists it newest first. *)
Definition sample_newest_first_series : RawSeries :=
  mk_RawSeries (metric_labels sample_cumulative_series)
    (resource_labels sample_cumulative_series)
    (rev (points sample_cumulative_series)).

Definition sample_newest_first_client : MetricServiceClient :=
  fun _ => Ok [sample_newest_first_series].

(** A second listing of the same identity, after the first. *)
Definition sample_later_times : list datetime :=
  [sample_time 3 40 0; sample_time 4 30 0; sample_time 5 30 0].

Definition sample_later_series : RawSeries :=
  mk_RawSeries (metric_labels sample_cumulative_series)
    (resource_labels sample_cumulative_series)
    (map (fun tr => cumulative_point (fst tr) (snd tr))
         (List.combine sample_later_times [40; 70; 75])).

Definition sample_two_listings_client : MetricServiceClient :=
  fun _ => Ok [sample_cumulative_series; sample_later_series].

(** The distribution samples in time order. *)
Definition sample_distribution_times : list datetime :=
  [sample_time 0 30 500; sample_time 1 30 0; sample_time 2 31 250].

Definition sample_distribution_ordered : RawSeries :=
  mk_RawSeries
    [("query_hash", "9f3a"); ("querystring", "SELECT 1"); ("user", "app")]
    [("database", "orders"); ("location", "europe-west1")]
    [ distribution_point (sample_time 0 30 500) 10 21%float [2; 3; 5; 0];
      distribution_point (sample_time 1 30 0) 12 20%float [2; 4; 6; 0];
      distribution_point (sample_time 2 31 250) 22 18%float [4; 6; 10; 2] ].

Definition sample_distribution_ordered_client : MetricServiceClient :=
  fun _ => Ok [sample_distribution_ordered].

(** Disk usage by data type: two listings of "data", and one of "wal"
    that has no points. *)
Definition sample_by_type_listing : list RawSeries :=
  [ mk_RawSeries [("data_type", "data")] []
      [cumulative_point (sample_time 1 30 0) 100;
       cumulative_point (sample_time 0 30 0) 90];
    mk_RawSeries [("data_type", "wal")] [] [];
    mk_RawSeries [("data_type", "data")] []
      [cumulative_point (sample_time 2 30 0) 110] ].

Definition sample_by_type_client : MetricServiceClient :=
  fun _ => Ok sample_by_type_listing.

(** A collector all of whose tasks succeed. *)
Definition sample_healthy_collector : GMonitoringCollector :=
  mk_GMonitoringCollector
    sample_cumulative_client
    (Ok (WALMetric (Some "p:i") None (mk_TimeSeries [] (Some "bytes"))))
    (Ok (WALMetric (Some "p:i") None (mk_TimeSeries [] (Some "bytes"))))
    (Ok (BackendsByState []))
    (Ok (Series sample_mixed))
    (Ok (Series sample_ascending))
    (Ok (Series sample_flags))
    (Ok (Series sample_mixed))
    (Ok (Series sample_repeated))
    (Ok (SeriesByName []))
    (Ok (Series sample_mixed))
    (Ok (SeriesByName [])).

(** Backends by state: two items of the state "active", one "idle". *)
Definition sample_backends : list PSQLNumBackendsByStateMetric.t :=
  [ PSQLNumBackendsByStateMetric.mk (Some "active") (Some "orders") (Some "eu")
      (mk_TimeSeries [(sample_time 1 0 0, VInt 3); (sample_time 2 0 0, VInt 5)]
         (Some "counts"));
    PSQLNumBackendsByStateMetric.mk (Some "idle") (Some "orders") (Some "eu")
      (mk_TimeSeries [(sample_time 2 0 0, VInt 7)] (Some "counts"));
    PSQLNumBackendsByStateMetric.mk (Some "active") (Some "billing") (Some "eu")
      (mk_TimeSeries [(sample_time 2 0 0, VInt 1); (sample_time 3 0 0, VInt 2)]
         (Some "counts")) ].


(* ================================================================== *)
(** * Listed series in time order *)
(* ================================================================== *)

(** [sorted(ts.points, key=...)] where it returns: the points of a listed
    series in the order the decoders read them. *)
Definition time_ordered_points (ts : RawSeries) : list Point :=
  fold_right insert_point [] (points ts).

(** The times of the points that have one, and the cumulative readings. *)
Definition times_of (ps : list Point) : list datetime :=
  flat_map (fun p => match interval_time p with Some t => [t] | None => [] end) ps.

Definition readings_of (ps : list Point) : list Z :=
  map (fun p => int64_value (value p)) ps.

(** The delta pairs of one listed series: its points taken in time order,
    each at its minute-truncated time, with the design document's deltas
    of the readings in that order. *)
Definition series_delta_pairs (ts : RawSeries) : list (datetime * scalar) :=
  delta_pairs (times_of (time_ordered_points ts))
    (readings_of (time_ordered_points ts)).

(** The series the backend lists under an identity key. *)
Definition listed_as (key : list string) (listing : list RawSeries) : list RawSeries :=
  filter (fun ts => key_eqb (series_identity ts) key) listing.

Definition every_point_timed (listing : list RawSeries) : Prop :=
  Forall (fun ts => Forall (fun p => interval_time p <> None) (points ts)) listing.

(** All the readings the backend lists under an identity key, in time
    order: "a time-ordered sequence of raw cumulative readings for one
    identity". *)
Definition identity_readings (key : list string) (listing : list RawSeries) : list Z :=
  readings_of
    (fold_right insert_point [] (List.concat (map points (listed_as key listing)))).

(** The state of [grouped] in the lock-time decoder after the listed
    series [seen]: one bundle per identity seen, holding the delta pairs
    of the series listed under it, one series after the other. *)
Definition lock_time_invariant (seen : list RawSeries)
    (grouped : list (list string * PerqueryLockTimeMetric.t)) : Prop :=
  NoDup (dict_keys grouped)
  /\ (forall k, In k (dict_keys grouped)
        <-> exists ts, In ts seen /\ series_identity ts = k)
  /\ (forall k obj, In (k, obj) grouped ->
        lock_time_identity obj = k
        /\ values (PerqueryLockTimeMetric.perquery_lock_time obj)
           = List.concat (map series_delta_pairs (listed_as k seen))).

(** What a single-series loader stores for a point: the value it reads,
    at the time of the point truncated to the minute. *)
Definition stored_for (field : TypedValue -> scalar) (p : Point)
    (tv : datetime * scalar) : Prop :=
  exists t, interval_time p = Some t
            /\ tv = (replace_second_microsecond_0 t, field (value p)).

(** A series of another identity, listed newest first. *)
Definition sample_other_series : RawSeries :=
  mk_RawSeries
    [("query_hash", "77c0"); ("querystring", "SELECT 2"); ("user", "batch")]
    [("database", "orders"); ("location", "europe-west1")]
    [ cumulative_point (sample_time 2 5 0) 9;
      cumulative_point (sample_time 1 5 0) 12;
      cumulative_point (sample_time 0 5 0) 7 ].

Definition sample_two_identities : list RawSeries :=
  [sample_newest_first_series; sample_other_series].

Definition sample_two_identities_client : MetricServiceClient :=
  fun _ => Ok sample_two_identities.


(* ================================================================== *)
(** * Facts about the runtime model *)
(* ================================================================== *)

Lemma bind_ok {A B : Type} (m : result A) (k : A -> result B) (b : B) :
  bind m k = Ok b -> exists a, m = Ok a /\ k a = Ok b.
Proof.
  destruct m as [a|e]; simpl; intros H; [exists a; auto | discriminate].
Qed.

Ltac inv_bind H :=
  let a := fresh "a" in
  let Ha := fresh "Ha" in
  apply bind_ok in H; destruct H as [a [Ha H]].

Lemma for_each_cons {A S : Type} (body : S -> A -> result S) (x : A) (xs : list A) (s : S) :
  for_each body (x :: xs) s = (s' <- body s x ;; for_each body xs s').
Proof. reflexivity. Qed.

Lemma for_each_app {A S : Type} (body : S -> A -> result S) (xs ys : list A) (s : S) :
  for_each body (xs ++ ys) s = (s' <- for_each body xs s ;; for_each body ys s').
Proof.
  revert s; induction xs as [|x xs IH]; intros s; simpl; [reflexivity|].
  destruct (body s x); simpl; auto.
Qed.

(** An invariant of the loop state holds after a loop that did not raise. *)
Lemma for_each_invariant {A S : Type} (P : S -> Prop) (body : S -> A -> result S) :
  (forall s x s', P s -> body s x = Ok s' -> P s') ->
  forall xs s s', P s -> for_each body xs s = Ok s' -> P s'.
Proof.
  intros Hstep xs; induction xs as [|x xs IH]; intros s s' Hs H; simpl in H.
  - inversion H; subst; exact Hs.
  - inv_bind H. eapply IH; [eapply Hstep; eauto | exact H].
Qed.

(** ** The order on datetimes *)

Lemma lex_compare_refl (a : list Z) : lex_compare a a = Eq.
Proof. induction a; simpl; [|rewrite Z.compare_refl]; auto. Qed.

Lemma lex_compare_eq (a b : list Z) : lex_compare a b = Eq -> a = b.
Proof.
  revert b; induction a as [|x a IH]; intros [|y b]; simpl; try discriminate; auto.
  destruct (Z.compare_spec x y) as [Hxy|Hxy|Hxy]; try discriminate.
  intros Hc; f_equal; auto.
Qed.

Lemma lex_compare_antisym (a b : list Z) :
  lex_compare b a = CompOpp (lex_compare a b).
Proof.
  revert b; induction a as [|x a IH]; intros [|y b]; simpl; auto.
  rewrite (Z.compare_antisym x y).
  destruct (x ?= y); simpl; auto.
Qed.

Lemma lex_compare_lt_trans (a b c : list Z) :
  lex_compare a b = Lt -> lex_compare b c = Lt -> lex_compare a c = Lt.
Proof.
  revert b c; induction a as [|x a IH]; intros [|y b] [|z c]; simpl;
    try discriminate; auto.
  destruct (Z.compare_spec x y) as [Hxy|Hxy|Hxy],
           (Z.compare_spec y z) as [Hyz|Hyz|Hyz]; try discriminate;
    subst; intros H1 H2.
  - rewrite Z.compare_refl; eauto.
  - apply Z.compare_lt_iff in Hyz; rewrite Hyz; reflexivity.
  - apply Z.compare_lt_iff in Hxy; rewrite Hxy; reflexivity.
  - assert (Hxz : x < z) by lia.
    apply Z.compare_lt_iff in Hxz; rewrite Hxz; reflexivity.
Qed.

Lemma dt_fields_inj (a b : datetime) : dt_fields a = dt_fields b -> a = b.
Proof.
  destruct a, b; unfold dt_fields; simpl; intros H; inversion H; reflexivity.
Qed.

Lemma dt_compare_eq (a b : datetime) : dt_compare a b = Eq <-> a = b.
Proof.
  unfold dt_compare; split.
  - intros H; apply dt_fields_inj, lex_compare_eq, H.
  - intros ->; apply lex_compare_refl.
Qed.

Lemma dt_eqb_eq (a b : datetime) : dt_eqb a b = true <-> a = b.
Proof.
  unfold dt_eqb; rewrite <- dt_compare_eq.
  destruct (dt_compare a b); split; congruence.
Qed.

Lemma dt_eqb_refl (a : datetime) : dt_eqb a a = true.
Proof. apply dt_eqb_eq; reflexivity. Qed.

Lemma dt_eqb_neq (a b : datetime) : dt_eqb a b = false <-> a <> b.
Proof.
  rewrite <- dt_eqb_eq; destruct (dt_eqb a b); split; congruence.
Qed.

Lemma dt_leb_refl (a : datetime) : dt_leb a a = true.
Proof.
  unfold dt_leb; replace (dt_compare a a) with Eq; auto.
  symmetry; apply dt_compare_eq; reflexivity.
Qed.

Lemma dt_leb_total (a b : datetime) : dt_leb a b = false -> dt_ltb b a = true.
Proof.
  unfold dt_leb, dt_ltb, dt_compare.
  rewrite (lex_compare_antisym (dt_fields a) (dt_fields b)).
  destruct (lex_compare (dt_fields a) (dt_fields b)); simpl; congruence.
Qed.

Lemma dt_ltb_leb (a b : datetime) : dt_ltb a b = true -> dt_leb a b = true.
Proof. unfold dt_ltb, dt_leb; destruct (dt_compare a b); congruence. Qed.

Lemma dt_leb_ltb (a b : datetime) : dt_leb a b = true -> a <> b -> dt_ltb a b = true.
Proof.
  unfold dt_ltb, dt_leb; intros H Hne.
  destruct (dt_compare a b) eqn:E; try congruence.
  apply dt_compare_eq in E; contradiction.
Qed.

Lemma dt_lt_irrefl (a : datetime) : ~ dt_lt a a.
Proof.
  unfold dt_lt, dt_ltb; replace (dt_compare a a) with Eq; [discriminate|].
  symmetry; apply dt_compare_eq; reflexivity.
Qed.

Lemma dt_lt_trans (a b c : datetime) : dt_lt a b -> dt_lt b c -> dt_lt a c.
Proof.
  unfold dt_lt, dt_ltb, dt_compare; intros H1 H2.
  destruct (lex_compare (dt_fields a) (dt_fields b)) eqn:E1; try discriminate.
  destruct (lex_compare (dt_fields b) (dt_fields c)) eqn:E2; try discriminate.
  rewrite (lex_compare_lt_trans _ _ _ E1 E2); reflexivity.
Qed.

(** Truncation to the minute is monotone. *)
Lemma replace_second_microsecond_0_mono (a b : datetime) :
  dt_le a b ->
  dt_le (replace_second_microsecond_0 a) (replace_second_microsecond_0 b).
Proof.
  unfold dt_le, dt_leb, dt_compare, replace_second_microsecond_0, dt_fields.
  destruct a as [y1 mo1 d1 h1 mi1 s1 u1], b as [y2 mo2 d2 h2 mi2 s2 u2]; simpl.
  destruct (y1 ?= y2); auto.
  destruct (mo1 ?= mo2); auto.
  destruct (d1 ?= d2); auto.
  destruct (h1 ?= h2); auto.
  destruct (mi1 ?= mi2); auto.
Qed.

Lemma replace_second_microsecond_0_fields (a : datetime) :
  second (replace_second_microsecond_0 a) = 0
  /\ microsecond (replace_second_microsecond_0 a) = 0.
Proof. split; reflexivity. Qed.

(** ** The stable sort *)

Section SortFacts.
Context {A : Type}.
Variable key : A -> datetime.

Lemma insert_by_perm (x : A) (l : list A) :
  Permutation (insert_by key x l) (x :: l).
Proof.
  induction l as [|y l IH]; simpl; auto.
  destruct (dt_leb (key x) (key y)); auto.
  rewrite IH; apply perm_swap.
Qed.

Lemma sort_by_perm (l : list A) : Permutation (sort_by key l) l.
Proof.
  induction l as [|x l IH]; simpl; auto.
  rewrite insert_by_perm; auto.
Qed.

Lemma sort_by_In (l : list A) (x : A) : In x (sort_by key l) <-> In x l.
Proof.
  split; apply Permutation_in; [|symmetry]; apply sort_by_perm.
Qed.

(** Sorting commutes with taking the keys. *)
Lemma map_insert_by (x : A) (l : list A) :
  map key (insert_by key x l) = insert_by (fun t => t) (key x) (map key l).
Proof.
  induction l as [|y l IH]; simpl; auto.
  destruct (dt_leb (key x) (key y)); simpl; congruence.
Qed.

Lemma map_sort_by (l : list A) :
  map key (sort_by key l) = sort_by (fun t => t) (map key l).
Proof.
  induction l as [|x l IH]; simpl; auto.
  rewrite map_insert_by, IH; reflexivity.
Qed.

(** A list whose keys already ascend is left as it is. *)
Lemma sort_by_sorted_id (l : list A) :
  Sorted dt_le (map key l) -> sort_by key l = l.
Proof.
  induction l as [|x l IH]; simpl; auto.
  intros H; inversion H as [|? ? Hs Hhd]; subst.
  rewrite (IH Hs).
  destruct l as [|y l']; simpl in *; auto.
  inversion Hhd as [|? ? Hxy]; subst.
  unfold dt_le in Hxy; rewrite Hxy; reflexivity.
Qed.
End SortFacts.

Lemma insert_strongly_sorted (x : datetime) (l : list datetime) :
  StronglySorted dt_lt l -> ~ In x l ->
  StronglySorted dt_lt (insert_by (fun t => t) x l).
Proof.
  induction l as [|y l IH]; simpl; intros Hs Hn.
  - repeat constructor.
  - inversion Hs as [|? ? Hs' Hall]; subst.
    destruct (dt_leb x y) eqn:E.
    + assert (Hxy : dt_lt x y) by (apply dt_leb_ltb; auto).
      constructor; auto. constructor; auto.
      eapply Forall_impl; [|exact Hall].
      intros z Hz; eapply dt_lt_trans; eauto.
    + apply dt_leb_total in E.
      constructor; [apply IH; auto|].
      rewrite Forall_forall; intros z Hz.
      apply (Permutation_in _ (insert_by_perm (fun t => t) x l)) in Hz.
      destruct Hz as [<-|Hz]; auto.
      rewrite Forall_forall in Hall; auto.
Qed.

(** Sorting distinct timestamps yields a strictly ascending list. *)
Lemma sort_strongly_sorted (l : list datetime) :
  NoDup l -> StronglySorted dt_lt (sort_by (fun t => t) l).
Proof.
  induction l as [|x l IH]; simpl; intros Hnd; [constructor|].
  inversion Hnd; subst.
  apply insert_strongly_sorted; auto.
  rewrite sort_by_In; auto.
Qed.

Lemma strongly_sorted_NoDup (l : list datetime) :
  StronglySorted dt_lt l -> NoDup l.
Proof.
  induction 1 as [|x l Hs IH Hall]; constructor; auto.
  intros Hin; rewrite Forall_forall in Hall.
  exact (dt_lt_irrefl x (Hall _ Hin)).
Qed.

(** ** Dictionaries *)

Section DictFacts.
Context {K V : Type}.
Variable eqb : K -> K -> bool.
Hypothesis eqb_eq : forall a b, eqb a b = true <-> a = b.

Lemma eqb_refl' (a : K) : eqb a a = true.
Proof. apply eqb_eq; reflexivity. Qed.

Lemma dict_get_set (d : list (K * V)) (k k' : K) (v : V) :
  dict_get eqb (dict_set eqb d k v) k'
  = if eqb k k' then Some v else dict_get eqb d k'.
Proof.
  induction d as [|[k0 v0] d IH]; simpl.
  - reflexivity.
  - destruct (eqb k0 k) eqn:E; simpl.
    + apply eqb_eq in E; subst k0.
      destruct (eqb k k'); reflexivity.
    + rewrite IH. destruct (eqb k0 k') eqn:E'; auto.
      apply eqb_eq in E'; subst k0.
      destruct (eqb k k') eqn:E''; auto.
      apply eqb_eq in E''; subst; rewrite eqb_refl' in E; discriminate.
Qed.

Lemma dict_get_In (d : list (K * V)) (k : K) (v : V) :
  dict_get eqb d k = Some v -> In (k, v) d.
Proof.
  induction d as [|[k0 v0] d IH]; simpl; [discriminate|].
  destruct (eqb k0 k) eqn:E; intros H.
  - apply eqb_eq in E; inversion H; subst; auto.
  - auto.
Qed.

Lemma dict_get_None (d : list (K * V)) (k : K) :
  dict_get eqb d k = None <-> ~ In k (dict_keys d).
Proof.
  induction d as [|[k0 v0] d IH]; simpl; [tauto|].
  destruct (eqb k0 k) eqn:E.
  - apply eqb_eq in E; split; [discriminate | intros H; exfalso; auto].
  - rewrite IH; split; [|tauto].
    intros Hn [Hk|Hk]; auto.
    subst; rewrite eqb_refl' in E; discriminate.
Qed.

(** Setting a key keeps the keys in place; a new key goes last. *)
Lemma dict_keys_set (d : list (K * V)) (k : K) (v : V) :
  dict_keys (dict_set eqb d k v)
  = if existsb (fun k' => eqb k' k) (dict_keys d) then dict_keys d
    else dict_keys d ++ [k].
Proof.
  induction d as [|[k0 v0] d IH]; simpl; auto.
  destruct (eqb k0 k) eqn:E; simpl; auto.
  unfold dict_keys in *; rewrite IH.
  destruct (existsb _ (map fst d)); reflexivity.
Qed.

Lemma existsb_eqb_In (l : list K) (k : K) :
  existsb (fun k' => eqb k' k) l = true <-> In k l.
Proof.
  rewrite existsb_exists; split.
  - intros [x [Hx E]]; apply eqb_eq in E; subst; auto.
  - intros H; exists k; split; auto; apply eqb_refl'.
Qed.

Lemma dict_keys_set_In (d : list (K * V)) (k : K) (v : V) (x : K) :
  In x (dict_keys (dict_set eqb d k v)) <-> x = k \/ In x (dict_keys d).
Proof.
  rewrite dict_keys_set.
  destruct (existsb _ _) eqn:E.
  - apply existsb_eqb_In in E; split; [tauto|].
    intros [->|H]; auto.
  - rewrite in_app_iff; simpl; split; intros H; [|destruct H]; try tauto.
    + destruct H as [H|[H|[]]]; auto.
    + auto.
Qed.

Lemma dict_keys_set_NoDup (d : list (K * V)) (k : K) (v : V) :
  NoDup (dict_keys d) -> NoDup (dict_keys (dict_set eqb d k v)).
Proof.
  intros Hnd; rewrite dict_keys_set.
  destruct (existsb _ _) eqn:E; auto.
  apply NoDup_app; auto.
  - repeat constructor; auto.
  - intros x Hx [<-|[]].
    apply existsb_eqb_In in Hx; congruence.
Qed.

(** The dict built from a list of items: its keys are the items' keys,
    each once, and a key maps to the last value listed for it. *)
Lemma fold_dict_set_keys (items d : list (K * V)) (x : K) :
  In x (dict_keys (fold_left (fun d kv => dict_set eqb d (fst kv) (snd kv)) items d))
  <-> In x (map fst items) \/ In x (dict_keys d).
Proof.
  revert d; induction items as [|[k v] items IH]; intros d; simpl; [tauto|].
  rewrite IH, dict_keys_set_In; simpl; intuition congruence.
Qed.

Lemma fold_dict_set_NoDup (items d : list (K * V)) :
  NoDup (dict_keys d) ->
  NoDup (dict_keys (fold_left (fun d kv => dict_set eqb d (fst kv) (snd kv)) items d)).
Proof.
  revert d; induction items as [|[k v] items IH]; intros d Hd; simpl; auto.
  apply IH, dict_keys_set_NoDup, Hd.
Qed.

Lemma fold_dict_set_In (items d : list (K * V)) (k : K) (v : V) :
  In (k, v) (fold_left (fun d kv => dict_set eqb d (fst kv) (snd kv)) items d) ->
  In (k, v) items \/ In (k, v) d.
Proof.
  revert d; induction items as [|[k0 v0] items IH]; intros d; simpl; auto.
  intros H; apply IH in H; destruct H as [H|H]; auto.
  clear IH; induction d as [|[k1 v1] d IHd]; simpl in *.
  - destruct H as [H|[]]; auto.
  - destruct (eqb k1 k0) eqn:E; simpl in H.
    + apply eqb_eq in E; subst.
      destruct H as [H|H]; auto.
    + destruct H as [H|H]; auto.
      apply IHd in H; tauto.
Qed.

Lemma dict_of_items_keys (items : list (K * V)) (x : K) :
  In x (dict_keys (dict_of_items eqb items)) <-> In x (map fst items).
Proof.
  unfold dict_of_items; rewrite fold_dict_set_keys; simpl; tauto.
Qed.

Lemma dict_of_items_NoDup (items : list (K * V)) :
  NoDup (dict_keys (dict_of_items eqb items)).
Proof. apply fold_dict_set_NoDup; constructor. Qed.

Lemma dict_of_items_In (items : list (K * V)) (k : K) (v : V) :
  In (k, v) (dict_of_items eqb items) -> In (k, v) items.
Proof.
  intros H; apply fold_dict_set_In in H; destruct H as [H|[]]; auto.
Qed.
End DictFacts.

(** ** [combine] *)

Lemma first_occurrence_order_iteration : set_iteration first_occurrence_order.
Proof.
  intros l; unfold first_occurrence_order; split.
  - apply NoDup_rev, NoDup_nodup.
  - intros x; rewrite <- in_rev, nodup_In, <- in_rev; tauto.
Qed.

Lemma timestamps_add (s : TimeSeries) (t : datetime) (v : scalar) :
  timestamps (add s t v) = timestamps s ++ [t].
Proof. unfold timestamps, add; simpl; rewrite map_app; reflexivity. Qed.

Lemma timestamps_sort (s : TimeSeries) :
  timestamps (sort s) = sort_by (fun t => t) (timestamps s).
Proof. unfold timestamps, sort; simpl; apply map_sort_by. Qed.

Section CombineFacts.
Variable set_iter : list datetime -> list datetime.
Hypothesis Hiter : set_iteration set_iter.
Variables self other : TimeSeries.
Variable mode : string.

Let self_map := dict_of_items dt_eqb (values self).
Let other_map := dict_of_items dt_eqb (values other).
Let body := fun (result : TimeSeries) (ts : datetime) =>
  value <- combine_value mode (dict_get dt_eqb self_map ts)
                              (dict_get dt_eqb other_map ts) ;;
  Ok (add result ts value).

Lemma combine_unfold :
  mode_supported mode = true ->
  combine set_iter self other mode
  = (result <- for_each body
                 (set_iter (dict_keys self_map ++ dict_keys other_map))
                 (mk_TimeSeries [] (unit_or (unit self) (unit other))) ;;
     Ok (sort result)).
Proof. intros H; unfold combine; rewrite H; reflexivity. Qed.

(** What the loop has appended when it ends without raising. *)
Lemma combine_loop_ok (tss : list datetime) (r0 r : TimeSeries) :
  for_each body tss r0 = Ok r ->
  timestamps r = timestamps r0 ++ tss
  /\ unit r = unit r0
  /\ (forall t v, In (t, v) (values r) ->
        In (t, v) (values r0)
        \/ combine_value mode (dict_get dt_eqb self_map t)
                              (dict_get dt_eqb other_map t) = Ok v).
Proof.
  revert r0; induction tss as [|t tss IH]; intros r0 H; simpl in H.
  - inversion H; subst; rewrite app_nil_r; auto.
  - inv_bind H. unfold body in Ha. inv_bind Ha. inversion Ha; subst a.
    destruct (IH _ H) as [Hts [Hu Hv]].
    rewrite Hts, timestamps_add, <- app_assoc; simpl.
    repeat split; auto.
    intros t' v Hin; destruct (Hv _ _ Hin) as [Hin'|Hc]; auto.
    unfold add in Hin'; simpl in Hin'.
    apply in_app_or in Hin'; destruct Hin' as [Hin'|[Heq|[]]]; auto.
    inversion Heq; subst; auto.
Qed.

Lemma combine_loop_total (tss : list datetime) (r0 : TimeSeries) :
  (forall t, In t tss ->
     is_ok (combine_value mode (dict_get dt_eqb self_map t)
                               (dict_get dt_eqb other_map t)) = true) ->
  exists r, for_each body tss r0 = Ok r.
Proof.
  revert r0; induction tss as [|t tss IH]; intros r0 Hsafe; simpl.
  - eauto.
  - unfold body at 1.
    destruct (combine_value mode _ _) as [v|e] eqn:E.
    + simpl; apply IH; intros; apply Hsafe; simpl; auto.
    + specialize (Hsafe t (or_introl eq_refl)); rewrite E in Hsafe; discriminate.
Qed.

(** A timestamp of the union is found in one of the two maps. *)
Lemma combine_value_defined (t : datetime) :
  In t (set_iter (dict_keys self_map ++ dict_keys other_map)) ->
  dict_get dt_eqb self_map t <> None \/ dict_get dt_eqb other_map t <> None.
Proof.
  intros H; apply (proj1 (proj2 (Hiter _) t)) in H; apply in_app_or in H.
  destruct H as [H|H]; [left|right]; intros Hn;
    apply (dict_get_None dt_eqb dt_eqb_eq) in Hn; contradiction.
Qed.

Lemma combine_returns :
  mode_supported mode = true ->
  combine_safe self other mode = true ->
  exists r, combine set_iter self other mode = Ok r.
Proof.
  intros Hmode Hsafe; rewrite (combine_unfold Hmode).
  destruct (combine_loop_total
              (set_iter (dict_keys self_map ++ dict_keys other_map))
              (mk_TimeSeries [] (unit_or (unit self) (unit other)))) as [r Hr].
  - intros t Ht.
    destruct (dict_get dt_eqb self_map t) as [a|] eqn:E1;
      destruct (dict_get dt_eqb other_map t) as [b|] eqn:E2; auto.
    + unfold combine_safe in Hsafe; rewrite forallb_forall in Hsafe.
      apply (dict_get_In dt_eqb dt_eqb_eq) in E1.
      specialize (Hsafe _ E1); simpl in Hsafe.
      fold other_map in Hsafe; rewrite E2 in Hsafe; exact Hsafe.
    + destruct (combine_value_defined t Ht); congruence.
  - rewrite Hr; simpl; eauto.
Qed.

(** The timestamps of the result: the iteration of the union, sorted. *)
Lemma combine_timestamps (r : TimeSeries) :
  combine set_iter self other mode = Ok r ->
  timestamps r
  = sort_by (fun t => t) (set_iter (dict_keys self_map ++ dict_keys other_map))
  /\ unit r = unit_or (unit self) (unit other).
Proof.
  intros H.
  destruct (mode_supported mode) eqn:Hmode;
    [|unfold combine in H; rewrite Hmode in H; discriminate].
  rewrite (combine_unfold Hmode) in H. inv_bind H. inversion H; subst r.
  destruct (combine_loop_ok _ _ _ Ha) as [Hts [Hu _]].
  rewrite timestamps_sort, Hts; simpl; auto.
Qed.

Lemma combine_In_timestamps (r : TimeSeries) (t : datetime) :
  combine set_iter self other mode = Ok r ->
  (In t (timestamps r) <-> In t (timestamps self) \/ In t (timestamps other)).
Proof.
  intros H; destruct (combine_timestamps r H) as [Hts _].
  rewrite Hts, sort_by_In, (proj2 (Hiter _)), in_app_iff.
  unfold self_map, other_map.
  rewrite !(dict_of_items_keys dt_eqb dt_eqb_eq); reflexivity.
Qed.

Lemma combine_strongly_sorted (r : TimeSeries) :
  combine set_iter self other mode = Ok r ->
  StronglySorted dt_lt (timestamps r).
Proof.
  intros H; destruct (combine_timestamps r H) as [Hts _].
  rewrite Hts; apply sort_strongly_sorted, (proj1 (Hiter _)).
Qed.

(** A value of the result is the combination of the two lookups. *)
Lemma combine_values (r : TimeSeries) (t : datetime) (v : scalar) :
  combine set_iter self other mode = Ok r ->
  In (t, v) (values r) ->
  combine_value mode (dict_get dt_eqb self_map t) (dict_get dt_eqb other_map t)
  = Ok v.
Proof.
  intros H Hin.
  destruct (mode_supported mode) eqn:Hmode;
    [|unfold combine in H; rewrite Hmode in H; discriminate].
  rewrite (combine_unfold Hmode) in H. inv_bind H. inversion H; subst r.
  destruct (combine_loop_ok _ _ _ Ha) as [_ [_ Hv]].
  unfold sort in Hin; simpl in Hin; apply sort_by_In in Hin.
  destruct (Hv _ _ Hin) as [[]|Hc]; exact Hc.
Qed.
End CombineFacts.

(** A value at a timestamp that only one input has is a value that input
    stores there. *)
Lemma combine_copies_left set_iter (A B r : TimeSeries) mode t v :
  combine set_iter A B mode = Ok r ->
  In (t, v) (values r) -> ~ In t (timestamps B) -> In (t, v) (values A).
Proof.
  intros H Hin Hn.
  pose proof (combine_values _ _ _ _ _ _ _ H Hin) as Hc.
  assert (E : dict_get dt_eqb (dict_of_items dt_eqb (values B)) t = None).
  { apply (dict_get_None dt_eqb dt_eqb_eq).
    rewrite (dict_of_items_keys dt_eqb dt_eqb_eq); exact Hn. }
  rewrite E in Hc.
  destruct (dict_get dt_eqb (dict_of_items dt_eqb (values A)) t) as [a|] eqn:EA;
    simpl in Hc; [|discriminate].
  inversion Hc; subst.
  apply (dict_of_items_In dt_eqb dt_eqb_eq), (dict_get_In dt_eqb dt_eqb_eq), EA.
Qed.

Lemma combine_copies_right set_iter (A B r : TimeSeries) mode t v :
  combine set_iter A B mode = Ok r ->
  In (t, v) (values r) -> ~ In t (timestamps A) -> In (t, v) (values B).
Proof.
  intros H Hin Hn.
  pose proof (combine_values _ _ _ _ _ _ _ H Hin) as Hc.
  assert (E : dict_get dt_eqb (dict_of_items dt_eqb (values A)) t = None).
  { apply (dict_get_None dt_eqb dt_eqb_eq).
    rewrite (dict_of_items_keys dt_eqb dt_eqb_eq); exact Hn. }
  rewrite E in Hc.
  destruct (dict_get dt_eqb (dict_of_items dt_eqb (values B)) t) as [b|] eqn:EB;
    simpl in Hc; [|discriminate].
  inversion Hc; subst.
  apply (dict_of_items_In dt_eqb dt_eqb_eq), (dict_get_In dt_eqb dt_eqb_eq), EB.
Qed.

(** ** [group_by_minutes] *)

Lemma mode_supported_iff (mode : string) :
  mode_supported mode = true <-> mode = "sum" \/ mode = "avg".
Proof.
  unfold mode_supported; rewrite orb_true_iff, !String.eqb_eq; reflexivity.
Qed.

Lemma for_each_raise {A S : Type} (body : S -> A -> result S) (xs : list A) (s : S) e :
  for_each body xs s = Raise e ->
  exists s0 x, In x xs /\ body s0 x = Raise e.
Proof.
  revert s; induction xs as [|x xs IH]; intros s H; simpl in H; [discriminate|].
  destruct (body s x) as [s'|e'] eqn:E; simpl in H.
  - destruct (IH _ H) as [s0 [y [Hy Hb]]]; exists s0, y; simpl; auto.
  - inversion H; subst; exists s, x; simpl; auto.
Qed.

Lemma bucket_of_valid (m : Z) (t : datetime) :
  0 < m -> 0 <= minute t <= 59 -> bucket_of m t = Ok (bucket_boundary m t).
Proof.
  intros Hm Ht; unfold bucket_of, replace_minute_second_microsecond, bucket_boundary.
  assert (H1 : 0 <= minute t / m) by (apply Z.div_pos; lia).
  assert (H2 : m * (minute t / m) <= minute t) by (apply Z.mul_div_le; lia).
  assert (H3 : 0 <= minute t / m * m <= 59) by nia.
  destruct H3 as [H3 H4].
  apply Z.leb_le in H3, H4; rewrite H3, H4; reflexivity.
Qed.

Lemma bucket_of_inv (m : Z) (t k : datetime) :
  bucket_of m t = Ok k -> k = bucket_boundary m t.
Proof.
  unfold bucket_of, replace_minute_second_microsecond, bucket_boundary.
  destruct (negb _); [discriminate|]; simpl.
  intros H; inversion H; reflexivity.
Qed.

Lemma int_to_float_ok (z : Z) :
  Z.abs z < float_int_limit -> exists f, int_to_float z = Ok f.
Proof.
  intros H; unfold int_to_float.
  apply Z.ltb_lt in H; rewrite H; eauto.
Qed.

Lemma int_to_float_raise (z : Z) e : int_to_float z = Raise e -> e = OverflowError.
Proof.
  unfold int_to_float; destruct (_ <? _); intros H; inversion H; reflexivity.
Qed.

Lemma py_float_raise (v : scalar) e : py_float v = Raise e -> e = OverflowError.
Proof.
  destruct v; simpl; try discriminate; apply int_to_float_raise.
Qed.

Lemma accumulate_accumulated (m n : Z) acc tv acc' :
  accumulated n acc -> accumulate m acc tv = Ok acc' -> accumulated (n + 1) acc'.
Proof.
  destruct acc as [sums counts], tv as [ts value].
  intros [Hn [Hk [Hnd Hc]]] H; simpl in *.
  inv_bind H. inv_bind H. inversion H; subst acc'; clear H.
  unfold accumulated; simpl; split; [lia|]; split; [|split].
  - rewrite !(dict_keys_set dt_eqb), Hk; reflexivity.
  - apply (dict_keys_set_NoDup dt_eqb dt_eqb_eq); exact Hnd.
  - intros k c H.
    rewrite (dict_get_set dt_eqb dt_eqb_eq) in H.
    destruct (dt_eqb a k).
    + inversion H; subst c. unfold get_or.
      destruct (dict_get dt_eqb counts a) as [c0|] eqn:E; [|lia].
      apply Hc in E; lia.
    + apply Hc in H; lia.
Qed.

Lemma accumulate_keys (m : Z) acc tv acc' (k : datetime) :
  accumulate m acc tv = Ok acc' ->
  (In k (dict_keys (fst acc'))
   <-> bucket_of m (fst tv) = Ok k \/ In k (dict_keys (fst acc))).
Proof.
  destruct acc as [sums counts], tv as [ts value]; intros H; simpl in *.
  inv_bind H. inv_bind H. inversion H; subst acc'; clear H; simpl.
  rewrite (dict_keys_set_In dt_eqb dt_eqb_eq), Ha.
  split; intros [H|H]; auto; left; congruence.
Qed.

(** After the first loop the keys of [sums] are the buckets of the stored
    timestamps. *)
Lemma accumulate_loop (m : Z) (vs : list (datetime * scalar)) :
  forall n acc acc',
    accumulated n acc ->
    for_each (accumulate m) vs acc = Ok acc' ->
    accumulated (n + Z.of_nat (List.length vs)) acc'
    /\ (forall k, In k (dict_keys (fst acc'))
          <-> (exists t, In t (map fst vs) /\ bucket_of m t = Ok k)
              \/ In k (dict_keys (fst acc))).
Proof.
  induction vs as [|tv vs IH]; intros n acc acc' Hacc H; simpl in H.
  - inversion H; subst; simpl; rewrite Z.add_0_r; split; auto.
    intros k; split; auto. intros [[t [[] _]]|Hk]; auto.
  - inv_bind H.
    destruct (IH _ _ _ (accumulate_accumulated _ _ _ _ _ Hacc Ha) H) as [Hinv Hkeys].
    split.
    + replace (n + Z.of_nat (List.length (tv :: vs)))
        with (n + 1 + Z.of_nat (List.length vs)) by (simpl List.length; lia).
      exact Hinv.
    + intros k; rewrite Hkeys, (accumulate_keys _ _ _ _ k Ha); simpl.
      split.
      * intros [[t [Ht Hb]]|[Hb|Hk]]; eauto.
      * intros [[t [[<-|Ht] Hb]]|Hk]; eauto.
Qed.

Lemma accumulate_loop_total (m : Z) (vs : list (datetime * scalar)) :
  0 < m ->
  Forall valid_datetime (map fst vs) ->
  forallb (fun v => is_ok (py_float v)) (map snd vs) = true ->
  forall acc, exists acc', for_each (accumulate m) vs acc = Ok acc'.
Proof.
  intros Hm; induction vs as [|[ts value] vs IH]; intros Hv Hf acc; simpl.
  - eauto.
  - inversion Hv as [|? ? Hts Hv']; subst.
    simpl in Hf; apply andb_true_iff in Hf; destruct Hf as [Hf Hf'].
    destruct acc as [sums counts]; simpl.
    rewrite (bucket_of_valid m ts Hm); [|apply Hts]; simpl.
    destruct (py_float value); [|discriminate]; simpl.
    apply IH; auto.
Qed.

(** A raise out of the first loop is an [OverflowError] of [float(value)];
    [replace] has valid arguments. *)
Lemma accumulate_loop_raise (m : Z) (vs : list (datetime * scalar)) acc e :
  0 < m ->
  Forall valid_datetime (map fst vs) ->
  for_each (accumulate m) vs acc = Raise e -> e = OverflowError.
Proof.
  intros Hm Hv H.
  destruct (for_each_raise _ _ _ _ H) as [[sums counts] [[ts value] [Hin Hb]]].
  rewrite Forall_forall in Hv.
  assert (Hts : valid_datetime ts) by (apply Hv, (in_map fst _ _ Hin)).
  simpl in Hb; rewrite (bucket_of_valid m ts Hm) in Hb; [|apply Hts]; simpl in Hb.
  destruct (py_float value) eqn:E; [discriminate|].
  simpl in Hb; inversion Hb; subst; eapply py_float_raise; eauto.
Qed.

(** The second loop appends one pair per key, in order. *)
Lemma emit_loop (mode : string) sums counts (ks : list datetime) :
  forall nv nv',
    for_each (emit mode sums counts) ks nv = Ok nv' ->
    map fst nv' = map fst nv ++ ks.
Proof.
  induction ks as [|k ks IH]; intros nv nv' H; simpl in H.
  - inversion H; subst; rewrite app_nil_r; reflexivity.
  - inv_bind H. unfold emit in Ha. inv_bind Ha. inversion Ha; subst a.
    rewrite (IH _ _ H), map_app, <- app_assoc; reflexivity.
Qed.

Lemma emit_loop_raise (mode : string) sums counts (ks : list datetime) nv e :
  for_each (emit mode sums counts) ks nv = Raise e ->
  e = KeyError \/ e = ZeroDivisionError \/ e = OverflowError.
Proof.
  intros H; destruct (for_each_raise _ _ _ _ H) as [nv0 [k [_ Hb]]].
  unfold emit, dict_item, float_div_int in Hb.
  destruct (String.eqb mode "sum").
  - destruct (dict_get dt_eqb sums k); simpl in Hb; inversion Hb; auto.
  - destruct (dict_get dt_eqb sums k); simpl in Hb; [|inversion Hb; auto].
    destruct (dict_get dt_eqb counts k) as [c|]; simpl in Hb; [|inversion Hb; auto].
    destruct (c =? 0); [inversion Hb; auto|].
    destruct (int_to_float c) eqn:E; simpl in Hb; inversion Hb; subst.
    right; right; eapply int_to_float_raise; eauto.
Qed.

Lemma emit_loop_total (mode : string) sums counts (ks : list datetime) (n : Z) :
  accumulated n (sums, counts) ->
  n < float_int_limit ->
  (forall k, In k ks -> In k (dict_keys sums)) ->
  forall nv, exists nv', for_each (emit mode sums counts) ks nv = Ok nv'.
Proof.
  intros [Hn [Hk [Hnd Hc]]] Hlim; simpl in *.
  induction ks as [|k ks IH]; intros Hin nv; simpl; [eauto|].
  assert (Hks : In k (dict_keys sums)) by (apply Hin; simpl; auto).
  destruct (dict_get dt_eqb sums k) as [s|] eqn:Es;
    [|apply (dict_get_None dt_eqb dt_eqb_eq) in Es; contradiction].
  destruct (dict_get dt_eqb counts k) as [c|] eqn:Ec;
    [|apply (dict_get_None dt_eqb dt_eqb_eq) in Ec; rewrite <- Hk in Ec; contradiction].
  pose proof (Hc _ _ Ec) as Hcb.
  destruct (int_to_float_ok c) as [f Hf]; [lia|].
  assert (Hc0 : (c =? 0) = false) by (apply Z.eqb_neq; lia).
  unfold emit at 1, dict_item, float_div_int; rewrite Es, Ec.
  destruct (String.eqb mode "sum"); simpl; rewrite ?Hc0, ?Hf; simpl;
    apply IH; intros; apply Hin; simpl; auto.
Qed.

Lemma accumulated_empty : accumulated 0 ([], []).
Proof.
  unfold accumulated; simpl; repeat split; try lia; try constructor;
    discriminate.
Qed.

(** The two argument checks passed: the rest of the method. *)
Lemma group_by_minutes_unfold (s : TimeSeries) (m : Z) (mode : string) :
  0 < m -> mode_supported mode = true ->
  group_by_minutes s m mode
  = match
      (acc <- for_each (accumulate m) (values s) ([], []) ;;
       let '(sums, counts) := acc in
       for_each (emit mode sums counts) (sort_by (fun t => t) (dict_keys sums)) [])
    with
    | Raise e => (Raise e, s)
    | Ok new_values => (Ok tt, mk_TimeSeries new_values (unit s))
    end.
Proof.
  intros Hm Hmode; unfold group_by_minutes.
  replace (m <=? 0) with false by (symmetry; apply Z.leb_gt; exact Hm).
  rewrite Hmode; reflexivity.
Qed.

Lemma group_by_minutes_ok_inv (s s' : TimeSeries) (m : Z) (mode : string) :
  group_by_minutes s m mode = (Ok tt, s') ->
  exists sums counts,
    for_each (accumulate m) (values s) ([], []) = Ok (sums, counts)
    /\ timestamps s' = sort_by (fun t => t) (dict_keys sums)
    /\ unit s' = unit s.
Proof.
  unfold group_by_minutes.
  destruct (m <=? 0); [discriminate|].
  destruct (negb (mode_supported mode)); [discriminate|].
  destruct (for_each (accumulate m) (values s) ([], [])) as [[sums counts]|e] eqn:E;
    simpl; [|discriminate].
  destruct (for_each (emit mode sums counts) _ []) as [nv|e] eqn:E2; [|discriminate].
  intros H; inversion H; subst s'; clear H.
  exists sums, counts; repeat split.
  unfold timestamps; simpl; rewrite (emit_loop _ _ _ _ _ _ E2); reflexivity.
Qed.

Lemma group_by_minutes_returns (s : TimeSeries) (m : Z) (mode : string) :
  0 < m -> mode_supported mode = true ->
  Forall valid_datetime (timestamps s) ->
  float_safe s = true ->
  exists s', group_by_minutes s m mode = (Ok tt, s').
Proof.
  intros Hm Hmode Hv Hsafe.
  unfold float_safe in Hsafe; apply andb_true_iff in Hsafe.
  destruct Hsafe as [Hf Hlen]; apply Z.ltb_lt in Hlen.
  rewrite (group_by_minutes_unfold s m mode Hm Hmode).
  destruct (accumulate_loop_total m (values s) Hm Hv Hf ([], []))
    as [[sums counts] Hacc].
  rewrite Hacc; simpl.
  destruct (accumulate_loop m (values s) 0 _ _ accumulated_empty Hacc) as [Hinv _].
  destruct (emit_loop_total mode sums counts
              (sort_by (fun t => t) (dict_keys sums)) _ Hinv) with (nv := @nil (datetime * scalar))
    as [nv Hnv].
  - simpl; exact Hlen.
  - intros k Hk; apply sort_by_In in Hk; exact Hk.
  - rewrite Hnv; eauto.
Qed.

(** The timestamps after a completed call. *)
Lemma group_by_minutes_timestamps (s s' : TimeSeries) (m : Z) (mode : string) :
  0 < m ->
  Forall valid_datetime (timestamps s) ->
  group_by_minutes s m mode = (Ok tt, s') ->
  StronglySorted dt_lt (timestamps s')
  /\ (forall t, In t (timestamps s')
        <-> exists t0, In t0 (timestamps s) /\ t = bucket_boundary m t0).
Proof.
  intros Hm Hv H.
  destruct (group_by_minutes_ok_inv _ _ _ _ H) as [sums [counts [Hacc [Hts _]]]].
  destruct (accumulate_loop m (values s) 0 _ _ accumulated_empty Hacc)
    as [[_ [_ [Hnd _]]] Hkeys].
  simpl in *; rewrite Hts; split.
  - apply sort_strongly_sorted, Hnd.
  - intros t; rewrite sort_by_In, Hkeys; simpl.
    rewrite Forall_forall in Hv.
    split.
    + intros [[t0 [Hin Hb]]|[]]; exists t0; split; auto.
      apply bucket_of_inv; exact Hb.
    + intros [t0 [Hin ->]]; left; exists t0; split; auto.
      apply bucket_of_valid; auto; apply (Hv _ Hin).
Qed.

(* ================================================================== *)
(** * The stated properties of [TimeSeries] *)
(* ================================================================== *)

(** C8. [get_by_ts] on a timestamp that the series does not store returns
    exactly the integer 0, whatever the type of the stored values
    (numbers or booleans); it never raises. *)
Theorem get_by_ts_absent (s : TimeSeries) (t : datetime) :
  ~ In t (timestamps s) -> get_by_ts s t = VInt 0.
Proof.
  unfold get_by_ts, timestamps.
  induction (values s) as [|[t0 v0] vs IH]; simpl; intros Hn; [reflexivity|].
  destruct (dt_eqb t0 t) eqn:E.
  - apply dt_eqb_eq in E; subst; exfalso; auto.
  - apply IH; auto.
Qed.

(** C6. For a bucket size [m > 0] and a recognized mode, a completed
    [group_by_minutes(m, mode)] leaves timestamps that are strictly
    ascending (hence sorted and pairwise distinct); they are exactly the
    bucket boundaries of the original timestamps, the minute being
    [floor(minute / m) * m] and seconds and microseconds zero. The call
    completes whenever the stored values convert to [float]. *)
Theorem group_by_minutes_invariant (s : TimeSeries) (m : Z) (mode : string) :
  0 < m ->
  mode = "sum" \/ mode = "avg" ->
  Forall valid_datetime (timestamps s) ->
  (float_safe s = true -> exists s', group_by_minutes s m mode = (Ok tt, s'))
  /\ (forall s', group_by_minutes s m mode = (Ok tt, s') ->
        StronglySorted dt_lt (timestamps s')
        /\ NoDup (timestamps s')
        /\ (forall t, In t (timestamps s')
              <-> exists t0, In t0 (timestamps s)
                    /\ t = mk_datetime (year t0) (month t0) (day t0) (hour t0)
                                       ((minute t0 / m) * m) 0 0)).
Proof.
  intros Hm Hmode Hv; apply mode_supported_iff in Hmode; split.
  - intros Hsafe; apply group_by_minutes_returns; auto.
  - intros s' H.
    destruct (group_by_minutes_timestamps s s' m mode Hm Hv H) as [Hs Hin].
    repeat split; auto.
    + apply strongly_sorted_NoDup, Hs.
    + apply Hin.
    + apply Hin.
Qed.

(** C9. [group_by_minutes] raises a [ValueError] (the validation error of
    the design document) exactly when the bucket size is not positive or
    the mode is neither "sum" nor "avg"; whenever the call raises, the
    stored values are what they were before the call. *)
Theorem group_by_minutes_validation (s : TimeSeries) (m : Z) (mode : string) :
  Forall valid_datetime (timestamps s) ->
  ((exists msg, fst (group_by_minutes s m mode) = Raise (ValueError msg))
   <-> (m <= 0 \/ ~ (mode = "sum" \/ mode = "avg")))
  /\ (forall e, fst (group_by_minutes s m mode) = Raise e ->
        snd (group_by_minutes s m mode) = s).
Proof.
  intros Hv.
  destruct (Z.leb_spec m 0) as [Hm|Hm].
  { unfold group_by_minutes.
    replace (m <=? 0) with true by (symmetry; apply Z.leb_le; exact Hm); simpl.
    split; [split; eauto|reflexivity]. }
  destruct (mode_supported mode) eqn:Hmode.
  - rewrite (group_by_minutes_unfold s m mode Hm Hmode).
    destruct (for_each (accumulate m) (values s) ([], [])) as [[sums counts]|e] eqn:E;
      simpl.
    + destruct (for_each (emit mode sums counts) _ []) as [nv|e] eqn:E2; simpl.
      * split; [|discriminate].
        split; [intros [msg Hr]; discriminate|].
        intros [Hle|Hn]; [lia|]. exfalso; apply Hn, mode_supported_iff, Hmode.
      * split; [|reflexivity].
        split.
        -- intros [msg Hr]; inversion Hr; subst.
           destruct (emit_loop_raise _ _ _ _ _ _ E2) as [H|[H|H]]; discriminate.
        -- intros [Hle|Hn]; [lia|]. exfalso; apply Hn, mode_supported_iff, Hmode.
    + split; [|reflexivity].
      split.
      * intros [msg Hr]; inversion Hr; subst.
        apply accumulate_loop_raise in E; auto; discriminate.
      * intros [Hle|Hn]; [lia|]. exfalso; apply Hn, mode_supported_iff, Hmode.
  - unfold group_by_minutes.
    replace (m <=? 0) with false by (symmetry; apply Z.leb_gt; exact Hm).
    rewrite Hmode; simpl.
    split; [split; eauto|reflexivity].
    intros _; right; intros Hn; apply mode_supported_iff in Hn; congruence.
Qed.

(** C10. Whatever order the union of the timestamps is iterated in, the
    series [combine] returns is strictly ascending by timestamp, hence
    sorted with no timestamp twice; and [combine] returns for a supported
    mode whenever the values at shared timestamps can be added. *)
Theorem combine_sorted_distinct
    (set_iter : list datetime -> list datetime) (A B : TimeSeries) (mode : string) :
  set_iteration set_iter ->
  mode = "sum" \/ mode = "avg" ->
  (combine_safe A B mode = true -> exists r, combine set_iter A B mode = Ok r)
  /\ (forall r, combine set_iter A B mode = Ok r ->
        StronglySorted dt_lt (timestamps r) /\ NoDup (timestamps r)).
Proof.
  intros Hiter Hmode; apply mode_supported_iff in Hmode; split.
  - apply combine_returns; auto.
  - intros r H.
    pose proof (combine_strongly_sorted set_iter Hiter A B mode r H) as Hs.
    split; [exact Hs | apply strongly_sorted_NoDup, Hs].
Qed.

(** C5 (amended). For a supported mode the series [combine] returns has as
    its timestamps exactly the union of the timestamps of [A] and of [B],
    each once, so as many as the union has; at a timestamp that only one
    input has, the value is one that input stores there, copied as it is;
    and the unit of the result is [A]'s unit when that is neither [None]
    nor the empty string, otherwise [B]'s unit. [combine] returns whenever
    the values at shared timestamps can be added. *)
Theorem combine_union
    (set_iter : list datetime -> list datetime) (A B : TimeSeries) (mode : string) :
  set_iteration set_iter ->
  mode = "sum" \/ mode = "avg" ->
  (combine_safe A B mode = true -> exists r, combine set_iter A B mode = Ok r)
  /\ (forall r, combine set_iter A B mode = Ok r ->
        (forall t, In t (timestamps r) <-> In t (timestamps A) \/ In t (timestamps B))
        /\ NoDup (timestamps r)
        /\ List.length (timestamps r)
           = List.length (nodup dt_eq_dec (timestamps A ++ timestamps B))
        /\ (forall t v, In (t, v) (values r) -> ~ In t (timestamps B) ->
              In (t, v) (values A))
        /\ (forall t v, In (t, v) (values r) -> ~ In t (timestamps A) ->
              In (t, v) (values B))
        /\ (forall u, unit A = Some u -> u <> "" -> unit r = Some u)
        /\ (unit A = None \/ unit A = Some "" -> unit r = unit B)).
Proof.
  intros Hiter Hmode; apply mode_supported_iff in Hmode; split.
  - apply combine_returns; auto.
  - intros r H.
    pose proof (combine_strongly_sorted set_iter Hiter A B mode r H) as Hs.
    apply strongly_sorted_NoDup in Hs.
    assert (Hin : forall t, In t (timestamps r)
                            <-> In t (timestamps A) \/ In t (timestamps B))
      by (intros t; apply (combine_In_timestamps set_iter Hiter A B mode r t H)).
    destruct (combine_timestamps set_iter A B mode r H) as [_ Hu].
    repeat split; try (apply Hin); auto.
    + apply Permutation_length, NoDup_Permutation; auto.
      * apply NoDup_nodup.
      * intros t; rewrite Hin, nodup_In, in_app_iff; reflexivity.
    + intros t v; apply (combine_copies_left set_iter A B r mode t v H).
    + intros t v; apply (combine_copies_right set_iter A B r mode t v H).
    + intros u HA Hne; rewrite Hu, HA; simpl.
      destruct (String.eqb u "") eqn:E; auto.
      apply String.eqb_eq in E; contradiction.
    + intros [HA|HA]; rewrite Hu, HA; reflexivity.
Qed.

(* ================================================================== *)
(** * Facts about the decoders *)
(* ================================================================== *)

(** Points whose times ascend are left in their order by [sorted]. *)
Lemma insert_points_sorted (ps : list Point) : forall times,
  map interval_time ps = map Some times ->
  Sorted dt_le times ->
  fold_right insert_point [] ps = ps.
Proof.
  induction ps as [|p ps IH]; intros times Hm Hs; simpl; auto.
  destruct times as [|t times]; [discriminate|].
  simpl in Hm; injection Hm as Hp Hps.
  inversion Hs as [|? ? Hs' Hhd]; subst.
  rewrite (IH _ Hps Hs').
  destruct ps as [|q ps']; simpl; auto.
  destruct times as [|t' times']; [discriminate|].
  simpl in Hps; injection Hps as Hq _.
  inversion Hhd as [|? ? Htt']; subst.
  unfold point_leb; rewrite Hp, Hq, Htt'; reflexivity.
Qed.

Lemma sorted_points_sorted (ps : list Point) (times : list datetime) :
  map interval_time ps = map Some times ->
  Sorted dt_le times ->
  sorted_points ps = Ok ps.
Proof.
  intros Hm Hs; unfold sorted_points.
  replace (existsb (fun p => is_none (interval_time p)) ps) with false.
  - rewrite andb_false_r, (insert_points_sorted ps times Hm Hs); reflexivity.
  - symmetry; clear Hs; revert times Hm.
    induction ps as [|p ps IH]; intros [|t times] Hm; simpl in *;
      try discriminate; auto.
    injection Hm as Hp Hps; rewrite Hp; simpl; eauto.
Qed.

Lemma clamp_is_max (d : Z) : (if d <? 0 then 0 else d) = Z.max 0 d.
Proof. destruct (Z.ltb_spec d 0); lia. Qed.

Lemma lock_time_point_step (series : TimeSeries) (last_p : option Z)
    (p : Point) (t : datetime) :
  interval_time p = Some t ->
  lock_time_point (series, last_p) p
  = Ok (add series (replace_second_microsecond_0 t)
          (VInt match last_p with
                | None => int64_value (value p)
                | Some last => Z.max 0 (int64_value (value p) - last)
                end),
        Some (int64_value (value p))).
Proof.
  intros Hp; unfold lock_time_point, point_minute; rewrite Hp; simpl.
  destruct last_p; rewrite ?clamp_is_max; reflexivity.
Qed.

Lemma lock_time_loop (ps : list Point) : forall times series last_p,
  map interval_time ps = map Some times ->
  exists last_p',
    for_each lock_time_point ps (series, last_p)
    = Ok (mk_TimeSeries
            (values series
             ++ List.combine (map replace_second_microsecond_0 times)
                  (map VInt (loop_deltas last_p
                               (map (fun p => int64_value (value p)) ps))))
            (unit series),
          last_p').
Proof.
  induction ps as [|p ps IH]; intros times series last_p Hm.
  - destruct times; [|discriminate]; simpl.
    exists last_p; destruct series, last_p; simpl; rewrite app_nil_r; reflexivity.
  - destruct times as [|t times]; [discriminate|].
    simpl in Hm; injection Hm as Hp Hps.
    rewrite for_each_cons, (lock_time_point_step series last_p p t Hp).
    unfold bind at 1.
    edestruct IH as [last' Hl]; [exact Hps|].
    exists last'; rewrite Hl; unfold add; simpl; rewrite <- app_assoc; simpl.
    destruct last_p; reflexivity.
Qed.

Lemma map_fst_combine {A B : Type} (l : list A) (l' : list B) :
  List.length l = List.length l' -> map fst (List.combine l l') = l.
Proof.
  revert l'; induction l as [|x l IH]; intros [|y l'] H; simpl in *;
    try discriminate; auto.
  f_equal; auto.
Qed.

Lemma map_snd_combine {A B : Type} (l : list A) (l' : list B) :
  List.length l = List.length l' -> map snd (List.combine l l') = l'.
Proof.
  revert l'; induction l as [|x l IH]; intros [|y l'] H; simpl in *;
    try discriminate; auto.
  f_equal; auto.
Qed.

Lemma deltas_after_length (last : Z) (raw : list Z) :
  List.length (deltas_after last raw) = List.length raw.
Proof. revert last; induction raw; intros; simpl; auto. Qed.

Lemma spec_deltas_length (raw : list Z) :
  List.length (spec_deltas raw) = List.length raw.
Proof. destruct raw; simpl; auto using deltas_after_length. Qed.

Lemma sorted_truncated (times : list datetime) :
  Sorted dt_le times -> Sorted dt_le (map replace_second_microsecond_0 times).
Proof.
  induction 1 as [|t times Hs IH Hhd]; simpl; constructor; auto.
  destruct Hhd; simpl; constructor.
  apply replace_second_microsecond_0_mono; assumption.
Qed.

(* ================================================================== *)
(** * The stated properties of the decoders *)
(* ================================================================== *)

(** ** The latency bundles *)

Lemma latency_point_same_timestamps st p st' :
  same_timestamps (fst st) ->
  latency_point st p = Ok st' ->
  same_timestamps (fst st').
Proof.
  destruct st as [obj last]; intros [H1 H2] H; simpl in H1, H2.
  unfold latency_point in H.
  inv_bind H. inv_bind H.
  destruct (point_deltas _ _ _ _ _)
    as [[[delta_count delta_sum_us] delta_buckets] delta_bounds].
  inv_bind H. inv_bind H. inversion H; subst st'; clear H.
  unfold same_timestamps; simpl.
  rewrite !timestamps_add, H1, H2; split; reflexivity.
Qed.

Lemma dict_get_In_values {K V : Type} (eqb : K -> K -> bool)
    (d : list (K * V)) (k : K) (v : V) :
  dict_get eqb d k = Some v -> In v (dict_values d).
Proof.
  induction d as [|[k0 v0] d IH]; simpl; [discriminate|].
  destruct (eqb k0 k); intros H; [inversion H; auto | auto].
Qed.

Lemma dict_set_Forall {K V : Type} (eqb : K -> K -> bool) (P : V -> Prop)
    (d : list (K * V)) (k : K) (v : V) :
  Forall P (dict_values d) -> P v -> Forall P (dict_values (dict_set eqb d k v)).
Proof.
  intros Hd Hv; induction d as [|[k0 v0] d IH]; simpl.
  - repeat constructor; exact Hv.
  - inversion Hd; subst.
    destruct (eqb k0 k); simpl; constructor; auto.
Qed.

Lemma latency_series_same_timestamps grouped ts grouped' :
  Forall same_timestamps (dict_values grouped) ->
  latency_series grouped ts = Ok grouped' ->
  Forall same_timestamps (dict_values grouped').
Proof.
  intros Hg H; unfold latency_series in H.
  inv_bind H. inv_bind H. inversion H; subst grouped'; clear H.
  apply dict_set_Forall; auto.
  eapply (for_each_invariant (fun st => same_timestamps (fst st))); [| |exact Ha0].
  - intros s x s' Hs Hb; eapply latency_point_same_timestamps; eauto.
  - simpl.
    destruct (dict_get key_eqb grouped _) as [obj|] eqn:E.
    + apply dict_get_In_values in E.
      rewrite Forall_forall in Hg; auto.
    + split; reflexivity.
Qed.

Lemma timestamps_length (s s' : TimeSeries) :
  timestamps s = timestamps s' ->
  List.length (values s) = List.length (values s').
Proof.
  unfold timestamps; intros H.
  rewrite <- (length_map fst (values s)), H, length_map; reflexivity.
Qed.

(** C7. Every bundle the latency decoder returns has its three sibling
    series (count, mean, 75th percentile) aligned: the same timestamps in
    the same order, and so the same length, which makes pairing by index
    well defined. *)
Theorem latency_bundles_aligned (client : MetricServiceClient)
    (bundles : list PerqueryLatencyMetric.t) :
  load_perquery_latency client = Ok bundles ->
  Forall aligned bundles.
Proof.
  unfold load_perquery_latency; intros H.
  inv_bind H. inv_bind H. inversion H; subst bundles; clear H.
  assert (Hg : Forall same_timestamps (dict_values a0)).
  { eapply (for_each_invariant
              (fun g : list (list string * PerqueryLatencyMetric.t) =>
                 Forall same_timestamps (dict_values g))); [| |exact Ha0].
    - intros s x s' Hs Hb; eapply latency_series_same_timestamps; eauto.
    - constructor. }
  rewrite Forall_forall in *; intros b Hb.
  apply in_map_iff in Hb; destruct Hb as [obj [<- Hobj]].
  destruct (Hg _ Hobj) as [H1 H2].
  assert (E1 : timestamps (sort (PerqueryLatencyMetric.perquery_count obj))
               = timestamps (sort (PerqueryLatencyMetric.perquery_latency_mean obj)))
    by (rewrite !timestamps_sort, H1; reflexivity).
  assert (E2 : timestamps (sort (PerqueryLatencyMetric.perquery_latency_mean obj))
               = timestamps (sort (PerqueryLatencyMetric.perquery_latency_pr75 obj)))
    by (rewrite !timestamps_sort, H2; reflexivity).
  unfold aligned; cbn [PerqueryLatencyMetric.perquery_count
                       PerqueryLatencyMetric.perquery_latency_mean
                       PerqueryLatencyMetric.perquery_latency_pr75];
    repeat split; auto using timestamps_length.
Qed.

(** C2. For bounds [10, 20, 30] and delta bucket counts [2, 3, 5] the
    estimator at p = 0.75 has total 10 and target rank 7.5; the walk
    passes the cumulative counts 2 and 5 and stops in the third bucket,
    whose cumulative count is 10 and whose bounds are 20 and 30; the
    fraction inside the bucket is (7.5 - 5) / 5 = 0.5 and the estimate is
    exactly 25.0. *)
Theorem percentile_p75_example :
  sum_counts [2; 3; 5] = 10
  /\ float_mul_int (clamp_q 0.75) 10 = Ok 7.5%float
  /\ percentile_walk [10; 20; 30]%float 7.5 0 0 [2; 3; 5]
     = percentile_walk [10; 20; 30]%float 7.5 1 2 [3; 5]
  /\ percentile_walk [10; 20; 30]%float 7.5 1 2 [3; 5]
     = percentile_walk [10; 20; 30]%float 7.5 2 5 [5]
  /\ float_add_int 5 5 = Ok 10%float
  /\ (7.5 <=? 10)%float = true
  /\ float_div_int (7.5 - 5) 5 = Ok 0.5%float
  /\ bound_at [10; 20; 30]%float 1 = Ok 20%float
  /\ bound_at [10; 20; 30]%float 2 = Ok 30%float
  /\ _percentile_from_explicit_buckets [10; 20; 30]%float [2; 3; 5] 0.75
     = Ok 25%float.
Proof.
  repeat split; vm_compute; reflexivity.
Qed.

(** C4. The IO-time decoder on the cumulative readings [0, 100, 250, 200]
    of one identity: the series it returns holds the raw readings as they
    are, whereas the delta series of the design document (first the raw
    value, then [max(0, current - previous)]) is [0, 100, 150, 0]. The
    lock-time decoder computes these deltas; the IO-time loop does not. *)
Theorem io_time_values_are_raw :
  exists bundle,
    load_perquery_IO_time sample_cumulative_client = Ok [bundle]
    /\ raw_readings sample_cumulative_series = [0; 100; 250; 200]
    /\ data (PerqueryIOTimeMetric.perquery_IO_time bundle)
       = [VInt 0; VInt 100; VInt 250; VInt 200]
    /\ map VInt (spec_deltas (raw_readings sample_cumulative_series))
       = [VInt 0; VInt 100; VInt 150; VInt 0]
    /\ data (PerqueryIOTimeMetric.perquery_IO_time bundle)
       <> map VInt (spec_deltas (raw_readings sample_cumulative_series)).
Proof.
  eexists; split; [vm_compute; reflexivity|].
  repeat split; try reflexivity.
  vm_compute; discriminate.
Qed.

(* ================================================================== *)
(** * Snapshot assembly *)
(* ================================================================== *)

(** As soon as one future of the list holds an error, the fan-in loop
    ends with the error of a future of the list. *)
Lemma collect_loop_raises (futures : list (result fetch_result * string)) :
  forall data,
    (exists attr e, In (Raise e, attr) futures) ->
    exists attr' e',
      In (Raise e', attr') futures /\ for_each collect futures data = Raise e'.
Proof.
  induction futures as [|[fut attr0] futures IH]; intros data [attr [e Hin]].
  - destruct Hin.
  - rewrite for_each_cons; destruct fut as [r|e0]; simpl.
    + destruct Hin as [Hin|Hin]; [discriminate|].
      destruct (IH (dict_set String.eqb data attr0 r)) as [attr' [e' [Hin' Hr]]];
        [eauto|].
      exists attr', e'; auto.
    + exists attr0, e0; auto.
Qed.

(** C3. If one of the registered fetch tasks raises, then in whatever order
    the tasks complete the assembly ends with the error of a failed task
    and returns no snapshot at all; when the failed tasks all raise the
    same error (in particular when a single task fails), the assembly
    raises exactly that error. *)
Theorem generate_cloudsql_metrics_fail_fast
    (as_completed : list (result fetch_result * string)
                    -> list (result fetch_result * string))
    (self : GMonitoringCollector) (attr : string) (e : exn) :
  completion_order as_completed ->
  In (attr, Raise e) (fetch_map self) ->
  (exists attr' e',
     In (attr', Raise e') (fetch_map self)
     /\ generate_cloudsql_metrics as_completed self = Raise e')
  /\ (forall snapshot, generate_cloudsql_metrics as_completed self <> Ok snapshot)
  /\ ((forall attr' e', In (attr', Raise e') (fetch_map self) -> e' = e) ->
      generate_cloudsql_metrics as_completed self = Raise e).
Proof.
  intros Horder Hin.
  assert (Hfail : exists attr' e',
             In (attr', Raise e') (fetch_map self)
             /\ generate_cloudsql_metrics as_completed self = Raise e').
  { unfold generate_cloudsql_metrics, assemble.
    destruct (collect_loop_raises
                (as_completed (map (fun af => (snd af, fst af)) (fetch_map self))) [])
      as [attr' [e' [Hin' Hr]]].
    - exists attr, e.
      apply (Permutation_in _ (Permutation_sym (Horder _))).
      apply in_map_iff; exists (attr, Raise e); auto.
    - exists attr', e'; split; [|rewrite Hr; reflexivity].
      apply (Permutation_in _ (Horder _)) in Hin'.
      apply in_map_iff in Hin'; destruct Hin' as [[a r] [Heq Hin']].
      simpl in Heq; inversion Heq; subst; exact Hin'. }
  destruct Hfail as [attr' [e' [Hin' Hr]]].
  split; [eauto|split].
  - intros snapshot; rewrite Hr; discriminate.
  - intros Hsame; rewrite Hr, (Hsame _ _ Hin'); reflexivity.
Qed.

(* ================================================================== *)
(** * The properties at sample inputs *)
(* ================================================================== *)

Lemma sample_mixed_valid : Forall valid_datetime (timestamps sample_mixed).
Proof. repeat constructor; simpl; lia. Defined.

Lemma reverse_completion_order : completion_order (@rev _).
Proof. intros futures; symmetry; apply Permutation_rev. Defined.

(** The latency decoder on two listings of the sample distribution
    series, which share one identity. *)
Lemma latency_bundles_aligned_witness :
  exists bundles,
    load_perquery_latency sample_distribution_client = Ok bundles
    /\ Forall aligned bundles.
Proof.
  eexists; split.
  - vm_compute; reflexivity.
  - apply (latency_bundles_aligned sample_distribution_client).
    vm_compute; reflexivity.
Defined.

(** A series of booleans asked for a minute it does not store. *)
Lemma get_by_ts_absent_witness :
  ~ In (sample_time 3 0 0) (timestamps sample_flags)
  /\ get_by_ts sample_flags (sample_time 3 0 0) = VInt 0.
Proof.
  assert (H : ~ In (sample_time 3 0 0) (timestamps sample_flags))
    by (simpl; intros [H|[H|[]]]; discriminate H).
  split; [exact H | apply (get_by_ts_absent sample_flags (sample_time 3 0 0) H)].
Defined.

(** Five-minute averages of the mixed sample series. *)
Lemma group_by_minutes_invariant_witness :
  float_safe sample_mixed = true
  /\ (exists s', group_by_minutes sample_mixed 5 "avg" = (Ok tt, s'))
  /\ (forall s', group_by_minutes sample_mixed 5 "avg" = (Ok tt, s') ->
        StronglySorted dt_lt (timestamps s')
        /\ NoDup (timestamps s')
        /\ (forall t, In t (timestamps s')
              <-> exists t0, In t0 (timestamps sample_mixed)
                    /\ t = mk_datetime (year t0) (month t0) (day t0) (hour t0)
                                       ((minute t0 / 5) * 5) 0 0)).
Proof.
  destruct (group_by_minutes_invariant sample_mixed 5 "avg")
    as [Hreturns Hafter].
  - lia.
  - right; reflexivity.
  - exact sample_mixed_valid.
  - split; [vm_compute; reflexivity|].
    split; [apply Hreturns; vm_compute; reflexivity | exact Hafter].
Defined.

Lemma group_by_minutes_validation_witness :
  ((exists msg, fst (group_by_minutes sample_mixed 0 "sum") = Raise (ValueError msg))
   <-> (0 <= 0 \/ ~ ("sum" = "sum" \/ "sum" = "avg")))
  /\ (forall e, fst (group_by_minutes sample_mixed 0 "sum") = Raise e ->
        snd (group_by_minutes sample_mixed 0 "sum") = sample_mixed).
Proof.
  apply (group_by_minutes_validation sample_mixed 0 "sum").
  exact sample_mixed_valid.
Defined.

(** The mixed series combined with the boolean one. *)
Lemma combine_sorted_distinct_witness :
  combine_safe sample_mixed sample_flags "sum" = true
  /\ (exists r, combine first_occurrence_order sample_mixed sample_flags "sum" = Ok r)
  /\ (forall r, combine first_occurrence_order sample_mixed sample_flags "sum" = Ok r ->
        StronglySorted dt_lt (timestamps r) /\ NoDup (timestamps r)).
Proof.
  destruct (combine_sorted_distinct first_occurrence_order sample_mixed
              sample_flags "sum") as [Hreturns Hafter].
  - exact first_occurrence_order_iteration.
  - left; reflexivity.
  - split; [vm_compute; reflexivity|].
    split; [apply Hreturns; vm_compute; reflexivity | exact Hafter].
Defined.

Lemma combine_union_witness :
  combine_safe sample_mixed sample_flags "avg" = true
  /\ (exists r, combine first_occurrence_order sample_mixed sample_flags "avg" = Ok r)
  /\ (forall r, combine first_occurrence_order sample_mixed sample_flags "avg" = Ok r ->
        (forall t, In t (timestamps r)
                   <-> In t (timestamps sample_mixed) \/ In t (timestamps sample_flags))
        /\ NoDup (timestamps r)
        /\ List.length (timestamps r)
           = List.length (nodup dt_eq_dec
                            (timestamps sample_mixed ++ timestamps sample_flags))
        /\ (forall t v, In (t, v) (values r) -> ~ In t (timestamps sample_flags) ->
              In (t, v) (values sample_mixed))
        /\ (forall t v, In (t, v) (values r) -> ~ In t (timestamps sample_mixed) ->
              In (t, v) (values sample_flags))
        /\ (forall u, unit sample_mixed = Some u -> u <> "" -> unit r = Some u)
        /\ (unit sample_mixed = None \/ unit sample_mixed = Some "" ->
            unit r = unit sample_flags)).
Proof.
  destruct (combine_union first_occurrence_order sample_mixed sample_flags "avg")
    as [Hreturns Hafter].
  - exact first_occurrence_order_iteration.
  - right; reflexivity.
  - split; [vm_compute; reflexivity|].
    split; [apply Hreturns; vm_compute; reflexivity | exact Hafter].
Defined.

(** The claim on units as first stated, "[A]'s unit when it is non-null",
    fails: an empty unit of [A] gives way to [B]'s. *)
Lemma combine_unit_counterexample :
  ~ (forall A B mode r,
       mode = "sum" \/ mode = "avg" ->
       combine first_occurrence_order A B mode = Ok r ->
       unit r = match unit A with Some u => Some u | None => unit B end).
Proof.
  intros H.
  specialize (H empty_unit bytes_unit "sum" (mk_TimeSeries [] (Some "bytes"))
                (or_introl eq_refl) eq_refl).
  discriminate H.
Qed.

(** The sample collector, whose disk-quota task fails, with the tasks
    completing in the reverse of their registration order. *)
Lemma generate_cloudsql_metrics_fail_fast_witness :
  In ("disk_quota", Raise (BackendError "quota exceeded")) (fetch_map sample_collector)
  /\ (exists attr' e',
        In (attr', Raise e') (fetch_map sample_collector)
        /\ generate_cloudsql_metrics (@rev _) sample_collector = Raise e')
  /\ (forall snapshot,
        generate_cloudsql_metrics (@rev _) sample_collector <> Ok snapshot)
  /\ ((forall attr' e', In (attr', Raise e') (fetch_map sample_collector) ->
         e' = BackendError "quota exceeded") ->
      generate_cloudsql_metrics (@rev _) sample_collector
      = Raise (BackendError "quota exceeded")).
Proof.
  assert (Hin : In ("disk_quota", Raise (BackendError "quota exceeded"))
                   (fetch_map sample_collector))
    by (do 8 right; left; reflexivity).
  split; [exact Hin|].
  apply (generate_cloudsql_metrics_fail_fast (@rev _) sample_collector
           "disk_quota" (BackendError "quota exceeded")
           reverse_completion_order Hin).
Defined.

(* ================================================================== *)
(** * Further facts about the order and the stable sort *)
(* ================================================================== *)

Lemma dt_le_iff (a b : datetime) : dt_le a b <-> dt_lt a b \/ a = b.
Proof.
  unfold dt_le, dt_lt, dt_leb, dt_ltb.
  destruct (dt_compare a b) eqn:E; split; intros H; auto; try discriminate.
  - right; apply dt_compare_eq, E.
  - destruct H as [H|H]; [discriminate|].
    apply dt_compare_eq in H; congruence.
Qed.

Lemma dt_le_trans (a b c : datetime) : dt_le a b -> dt_le b c -> dt_le a c.
Proof.
  rewrite !dt_le_iff; intros [H1| ->] [H2| ->]; auto.
  left; eapply dt_lt_trans; eauto.
Qed.

Lemma dt_leb_false_le (a b : datetime) : dt_leb a b = false -> dt_le b a.
Proof. intros H; apply dt_ltb_leb, dt_leb_total, H. Qed.

Lemma dt_lt_asym (a b : datetime) : dt_lt a b -> dt_lt b a -> False.
Proof. intros H1 H2; exact (dt_lt_irrefl a (dt_lt_trans a b a H1 H2)). Qed.

Section SortOrder.
Context {A : Type}.
Variable key : A -> datetime.

Let le_key (a b : A) : Prop := dt_le (key a) (key b).
Let lt_key (a b : A) : Prop := dt_lt (key a) (key b).

Lemma insert_by_strongly_sorted (x : A) (l : list A) :
  StronglySorted le_key l -> StronglySorted le_key (insert_by key x l).
Proof.
  induction 1 as [|y l Hs IH Hall]; simpl.
  - repeat constructor.
  - destruct (dt_leb (key x) (key y)) eqn:E.
    + constructor; [constructor; auto|].
      constructor; [exact E|].
      eapply Forall_impl; [|exact Hall].
      intros z Hz; eapply dt_le_trans; [exact E | exact Hz].
    + constructor; auto.
      rewrite Forall_forall; intros z Hz.
      apply (Permutation_in _ (insert_by_perm key x l)) in Hz.
      destruct Hz as [<-|Hz].
      * apply dt_leb_false_le, E.
      * rewrite Forall_forall in Hall; auto.
Qed.

Lemma sort_by_strongly_sorted (l : list A) :
  StronglySorted le_key (sort_by key l).
Proof.
  induction l as [|x l IH]; simpl; [constructor|].
  apply insert_by_strongly_sorted, IH.
Qed.

(** The sort is stable: the elements of one key keep their order. *)
Lemma insert_by_filter (t : datetime) (x : A) (l : list A) :
  filter (fun a => dt_eqb (key a) t) (insert_by key x l)
  = filter (fun a => dt_eqb (key a) t) (x :: l).
Proof.
  induction l as [|y l IH]; simpl; auto.
  destruct (dt_leb (key x) (key y)) eqn:E; simpl; auto.
  rewrite IH; simpl.
  destruct (dt_eqb (key x) t) eqn:Ex, (dt_eqb (key y) t) eqn:Ey; auto.
  apply dt_eqb_eq in Ex, Ey.
  rewrite Ex, Ey, dt_leb_refl in E; discriminate.
Qed.

Lemma sort_by_filter (t : datetime) (l : list A) :
  filter (fun a => dt_eqb (key a) t) (sort_by key l)
  = filter (fun a => dt_eqb (key a) t) l.
Proof.
  induction l as [|x l IH]; simpl; auto.
  rewrite insert_by_filter; simpl; rewrite IH; reflexivity.
Qed.

(** Two strictly ascending lists with the same elements are equal. *)
Lemma strictly_sorted_unique (l1 l2 : list A) :
  StronglySorted lt_key l1 -> StronglySorted lt_key l2 ->
  Permutation l1 l2 -> l1 = l2.
Proof.
  revert l2; induction l1 as [|x l1 IH]; intros l2 H1 H2 Hp.
  - apply Permutation_nil in Hp; auto.
  - destruct l2 as [|y l2]; [apply Permutation_sym, Permutation_nil in Hp; discriminate|].
    inversion H1 as [|? ? H1' Hx]; inversion H2 as [|? ? H2' Hy]; subst.
    rewrite Forall_forall in Hx, Hy.
    assert (Exy : x = y).
    { assert (Hin1 : In x (y :: l2))
        by (apply (Permutation_in _ Hp); simpl; auto).
      assert (Hin2 : In y (x :: l1))
        by (apply (Permutation_in _ (Permutation_sym Hp)); simpl; auto).
      destruct Hin1 as [E|Hin1]; auto.
      destruct Hin2 as [E|Hin2]; auto.
      exfalso; exact (dt_lt_asym _ _ (Hx _ Hin2) (Hy _ Hin1)). }
    subst y; f_equal; apply IH; auto.
    eapply Permutation_cons_inv; eauto.
Qed.

Lemma strongly_sorted_map (R : datetime -> datetime -> Prop) (l : list A) :
  StronglySorted (fun a b => R (key a) (key b)) l <-> StronglySorted R (map key l).
Proof.
  induction l as [|x l IH]; simpl; split; intros H; try constructor;
    inversion H as [|? ? Hs Hall]; subst.
  - apply IH, Hs.
  - rewrite Forall_forall in *; intros k Hk; apply in_map_iff in Hk.
    destruct Hk as [a [<- Ha]]; auto.
  - apply IH, Hs.
  - rewrite Forall_forall in *; intros a Ha; apply Hall, in_map, Ha.
Qed.

(** Sorting distinct keys gives a strictly ascending list. *)
Lemma sort_by_strictly_sorted (l : list A) :
  NoDup (map key l) -> StronglySorted lt_key (sort_by key l).
Proof.
  intros Hnd; apply (strongly_sorted_map dt_lt).
  rewrite map_sort_by; apply sort_strongly_sorted, Hnd.
Qed.

(** The sorted list depends on the elements only, when the keys are
    distinct. *)
Lemma sort_by_permutation (l1 l2 : list A) :
  NoDup (map key l1) -> Permutation l1 l2 -> sort_by key l1 = sort_by key l2.
Proof.
  intros Hnd Hp; apply strictly_sorted_unique.
  - apply sort_by_strictly_sorted, Hnd.
  - apply sort_by_strictly_sorted.
    apply (Permutation_NoDup (Permutation_map key Hp) Hnd).
  - rewrite !sort_by_perm; exact Hp.
Qed.
End SortOrder.

Lemma strongly_sorted_snoc {A : Type} (R : A -> A -> Prop) (l : list A) (x : A) :
  StronglySorted R l -> Forall (fun y => R y x) l -> StronglySorted R (l ++ [x]).
Proof.
  induction 1 as [|y l Hs IH Hall]; intros Hx; simpl.
  - repeat constructor.
  - inversion Hx; subst; constructor; auto.
    apply Forall_app; split; auto.
Qed.

Lemma strongly_sorted_rev {A : Type} (R : A -> A -> Prop) (l : list A) :
  StronglySorted R l -> StronglySorted (fun a b => R b a) (rev l).
Proof.
  induction 1 as [|x l Hs IH Hall]; simpl; [constructor|].
  apply strongly_sorted_snoc; auto.
  rewrite Forall_forall in *; intros y Hy; apply Hall, in_rev, Hy.
Qed.

Lemma filter_rev {A : Type} (f : A -> bool) (l : list A) :
  filter f (rev l) = rev (filter f l).
Proof.
  induction l as [|x l IH]; simpl; auto.
  rewrite filter_app, IH; simpl.
  destruct (f x); simpl; auto using app_nil_r.
Qed.

(* ================================================================== *)
(** * Further properties of [TimeSeries] *)
(* ================================================================== *)

(** X1. [sort()] (ascending) keeps exactly the stored pairs, leaves the
    timestamps in ascending order, keeps the pairs of one timestamp in
    their stored order (the sort is stable), and sorting again changes
    nothing. *)
Theorem sort_ascending (s : TimeSeries) :
  Permutation (values (sort_with s true)) (values s)
  /\ StronglySorted dt_le (timestamps (sort_with s true))
  /\ (forall t, filter (fun tv => dt_eqb (fst tv) t) (values (sort_with s true))
                = filter (fun tv => dt_eqb (fst tv) t) (values s))
  /\ sort_with (sort_with s true) true = sort_with s true
  /\ unit (sort_with s true) = unit s.
Proof.
  simpl; unfold sort; simpl.
  assert (Hs : StronglySorted dt_le (map fst (sort_by fst (values s)))).
  { apply (strongly_sorted_map fst dt_le), sort_by_strongly_sorted. }
  repeat split; auto.
  - apply sort_by_perm.
  - intros t; apply sort_by_filter.
  - f_equal; apply sort_by_sorted_id, StronglySorted_Sorted, Hs.
Qed.

(** X2. [sort(ascending=False)] keeps exactly the stored pairs, leaves the
    timestamps in descending order, and still keeps the pairs of one
    timestamp in their stored order. *)
Theorem sort_descending (s : TimeSeries) :
  Permutation (values (sort_with s false)) (values s)
  /\ StronglySorted (fun a b => dt_le b a) (timestamps (sort_with s false))
  /\ (forall t, filter (fun tv => dt_eqb (fst tv) t) (values (sort_with s false))
                = filter (fun tv => dt_eqb (fst tv) t) (values s))
  /\ unit (sort_with s false) = unit s.
Proof.
  unfold sort_with, timestamps; simpl; repeat split.
  - rewrite <- Permutation_rev, sort_by_perm, <- Permutation_rev; reflexivity.
  - rewrite map_rev; apply strongly_sorted_rev.
    apply (strongly_sorted_map fst dt_le), sort_by_strongly_sorted.
  - intros t; rewrite filter_rev, sort_by_filter, filter_rev, rev_involutive.
    reflexivity.
Qed.

Lemma get_by_ts_loop_app (l1 l2 : list (datetime * scalar)) (t : datetime) :
  (In t (map fst l1) -> get_by_ts_loop (l1 ++ l2) t = get_by_ts_loop l1 t)
  /\ (~ In t (map fst l1) -> get_by_ts_loop (l1 ++ l2) t = get_by_ts_loop l2 t).
Proof.
  induction l1 as [|[t0 v0] l1 [IH1 IH2]]; simpl; split; intros H; try tauto.
  - destruct (dt_eqb t0 t) eqn:E; auto.
    apply dt_eqb_neq in E; destruct H as [H|H]; [contradiction|auto].
  - destruct (dt_eqb t0 t) eqn:E; auto.
    apply dt_eqb_eq in E; exfalso; auto.
Qed.

(** X3. [get_by_ts] returns the first value stored at the timestamp, also
    when later pairs carry the same timestamp. *)
Theorem get_by_ts_first (s : TimeSeries) (t : datetime) (v : scalar)
    (before after : list (datetime * scalar)) :
  values s = before ++ (t, v) :: after ->
  ~ In t (map fst before) ->
  get_by_ts s t = v.
Proof.
  intros Hv Hn; unfold get_by_ts; rewrite Hv.
  rewrite (proj2 (get_by_ts_loop_app before ((t, v) :: after) t) Hn); simpl.
  rewrite dt_eqb_refl; reflexivity.
Qed.

(** X4. [add] appends and never overwrites: after [add(ts, value)],
    [get_by_ts(ts)] is [value] when the timestamp was new, and still the
    older value when it was already stored; no other timestamp is
    affected. *)
Theorem add_get_by_ts (s : TimeSeries) (t : datetime) (v : scalar) :
  (~ In t (timestamps s) -> get_by_ts (add s t v) t = v)
  /\ (In t (timestamps s) -> get_by_ts (add s t v) t = get_by_ts s t)
  /\ (forall t', t' <> t -> get_by_ts (add s t v) t' = get_by_ts s t').
Proof.
  unfold get_by_ts, add, timestamps; simpl; repeat split.
  - intros H; rewrite (proj2 (get_by_ts_loop_app _ [(t, v)] t) H); simpl.
    rewrite dt_eqb_refl; reflexivity.
  - intros H; apply (proj1 (get_by_ts_loop_app _ [(t, v)] t) H).
  - intros t' Hne.
    destruct (in_dec dt_eq_dec t' (map fst (values s))) as [H|H].
    + apply (proj1 (get_by_ts_loop_app _ [(t, v)] t') H).
    + rewrite (proj2 (get_by_ts_loop_app _ [(t, v)] t') H); simpl.
      replace (dt_eqb t t') with false by (symmetry; apply dt_eqb_neq; auto).
      symmetry; revert H; clear.
      induction (values s) as [|[t0 v0] l IH]; simpl; intros H; auto.
      destruct (dt_eqb t0 t') eqn:E; [apply dt_eqb_eq in E; exfalso; auto|].
      apply IH; auto.
Qed.

(** X5. [extend] concatenates without sorting, so the series' own pairs
    shadow the extension's in [get_by_ts]: a timestamp the series already
    stores keeps its value, any other one reads from the extension. *)
Theorem extend_get_by_ts (a b : TimeSeries) (t : datetime) :
  timestamps (extend a b) = timestamps a ++ timestamps b
  /\ unit (extend a b) = unit a
  /\ (In t (timestamps a) -> get_by_ts (extend a b) t = get_by_ts a t)
  /\ (~ In t (timestamps a) -> get_by_ts (extend a b) t = get_by_ts b t).
Proof.
  unfold extend, timestamps, get_by_ts; simpl; repeat split.
  - apply map_app.
  - apply (proj1 (get_by_ts_loop_app (values a) (values b) t)).
  - apply (proj2 (get_by_ts_loop_app (values a) (values b) t)).
Qed.

(** ** More on dictionaries: the last value wins *)

Section DictLast.
Context {K V : Type}.
Variable eqb : K -> K -> bool.
Hypothesis eqb_eq : forall a b, eqb a b = true <-> a = b.

Lemma dict_get_app (d1 d2 : list (K * V)) (k : K) :
  dict_get eqb (d1 ++ d2) k
  = match dict_get eqb d1 k with
    | Some v => Some v
    | None => dict_get eqb d2 k
    end.
Proof.
  induction d1 as [|[k0 v0] d1 IH]; simpl; auto.
  destruct (eqb k0 k); auto.
Qed.

Lemma fold_dict_set_get (items d : list (K * V)) (k : K) :
  dict_get eqb (fold_left (fun d kv => dict_set eqb d (fst kv) (snd kv)) items d) k
  = match dict_get eqb (rev items) k with
    | Some v => Some v
    | None => dict_get eqb d k
    end.
Proof.
  revert d; induction items as [|[k0 v0] items IH]; intros d; simpl; auto.
  rewrite IH, dict_get_app, (dict_get_set eqb eqb_eq); simpl.
  destruct (dict_get eqb (rev items) k); auto.
  destruct (eqb k0 k); auto.
Qed.

Lemma dict_of_items_get (items : list (K * V)) (k : K) :
  dict_get eqb (dict_of_items eqb items) k = dict_get eqb (rev items) k.
Proof.
  unfold dict_of_items; rewrite fold_dict_set_get; simpl.
  destruct (dict_get eqb (rev items) k); reflexivity.
Qed.

(** With distinct keys, lookup and membership agree. *)
Lemma dict_get_NoDup (d : list (K * V)) (k : K) (v : V) :
  NoDup (dict_keys d) -> (dict_get eqb d k = Some v <-> In (k, v) d).
Proof.
  intros Hnd; split; [apply (dict_get_In eqb eqb_eq)|].
  induction d as [|[k0 v0] d IH]; simpl; [tauto|].
  inversion Hnd as [|? ? Hn Hnd']; subst.
  intros [H|H].
  - inversion H; subst; rewrite (eqb_refl' eqb eqb_eq); reflexivity.
  - destruct (eqb k0 k) eqn:E; auto.
    apply eqb_eq in E; subst; exfalso; apply Hn.
    apply (in_map fst _ _ H).
Qed.
End DictLast.

Lemma last_value_at_NoDup (s : TimeSeries) (t : datetime) (v : scalar) :
  NoDup (timestamps s) -> (last_value_at s t = Some v <-> In (t, v) (values s)).
Proof.
  intros Hnd; unfold last_value_at.
  rewrite (dict_get_NoDup dt_eqb dt_eqb_eq), <- in_rev; [reflexivity|].
  unfold dict_keys; rewrite map_rev; apply NoDup_rev, Hnd.
Qed.

Lemma last_value_at_None (s : TimeSeries) (t : datetime) :
  last_value_at s t = None <-> ~ In t (timestamps s).
Proof.
  unfold last_value_at; rewrite (dict_get_None dt_eqb dt_eqb_eq).
  unfold dict_keys, timestamps; rewrite map_rev, <- in_rev; reflexivity.
Qed.

(** ** More on [combine] *)

Lemma int_truediv_2_raise (z : Z) e : int_truediv_2 z = Raise e -> e = OverflowError.
Proof.
  unfold int_truediv_2; destruct (_ <? _); intros H; inversion H; reflexivity.
Qed.

Lemma py_add_raise (a b : scalar) e : py_add a b = Raise e -> e = OverflowError.
Proof.
  destruct a, b; simpl; try discriminate;
    repeat match goal with
           | |- context [int_to_float ?z] =>
               destruct (int_to_float z) eqn:?; simpl
           end;
    intros H; inversion H; subst;
    eauto using int_to_float_raise.
Qed.

Lemma py_truediv_2_raise (a : scalar) e : py_truediv_2 a = Raise e -> e = OverflowError.
Proof.
  destruct a; simpl; try discriminate;
    match goal with
    | |- context [int_truediv_2 ?z] => destruct (int_truediv_2 z) eqn:E; simpl
    end;
    intros H; inversion H; subst; eauto using int_truediv_2_raise.
Qed.

Lemma combine_value_raise (mode : string) (v1 v2 : option scalar) e :
  combine_value mode v1 v2 = Raise e ->
  (v1 = None /\ v2 = None) \/ e = OverflowError.
Proof.
  destruct v1 as [a|], v2 as [b|]; simpl; try discriminate; auto.
  destruct (String.eqb mode "sum"); intros H; right.
  - eapply py_add_raise; eauto.
  - destruct (py_add a b) eqn:E; simpl in H.
    + eapply py_truediv_2_raise; eauto.
    + inversion H; subst; eapply py_add_raise; eauto.
Qed.

(** X10. [combine] raises a [ValueError] exactly when the mode is neither
    "sum" nor "avg"; the only other way it can fail is an [OverflowError]
    from adding or halving the values at a shared timestamp. *)
Theorem combine_mode_validation
    (set_iter : list datetime -> list datetime) (A B : TimeSeries) (mode : string) :
  set_iteration set_iter ->
  ((exists msg, combine set_iter A B mode = Raise (ValueError msg))
   <-> ~ (mode = "sum" \/ mode = "avg"))
  /\ (forall e, combine set_iter A B mode = Raise e ->
        (exists msg, e = ValueError msg) \/ e = OverflowError).
Proof.
  intros Hiter.
  destruct (mode_supported mode) eqn:Hmode.
  - assert (Hof : forall e, combine set_iter A B mode = Raise e -> e = OverflowError).
    { intros e H; rewrite (combine_unfold set_iter A B mode Hmode) in H.
      destruct (for_each _ _ _) as [r|e'] eqn:E; simpl in H; [discriminate|].
      inversion H; subst e'; clear H.
      destruct (for_each_raise _ _ _ _ E) as [r0 [t [Hin Hb]]].
      destruct (combine_value mode _ _) as [v|e'] eqn:Ev; simpl in Hb;
        [discriminate|].
      inversion Hb; subst e'.
      destruct (combine_value_raise _ _ _ _ Ev) as [[H1 H2]|H]; auto.
      destruct (combine_value_defined set_iter Hiter A B t Hin); contradiction. }
    split.
    + split.
      * intros [msg H]; apply Hof in H; discriminate.
      * intros Hn; exfalso; apply Hn, mode_supported_iff, Hmode.
    + intros e H; right; apply Hof, H.
  - unfold combine; rewrite Hmode; simpl; split.
    + split; [|eauto].
      intros _ Hs; apply mode_supported_iff in Hs; congruence.
    + intros e H; inversion H; eauto.
Qed.

Lemma combine_map_lookup (s : TimeSeries) (t : datetime) :
  dict_get dt_eqb (dict_of_items dt_eqb (values s)) t = last_value_at s t.
Proof. apply (dict_of_items_get dt_eqb dt_eqb_eq). Qed.

(** X11. The values of the series [combine] returns: at each timestamp of
    the union, the combination of what the two inputs store there LAST
    (the sum, or the sum halved, when both store a value; the one stored
    value otherwise). In particular two integers add up exactly in "sum"
    mode. *)
Theorem combine_values_spec
    (set_iter : list datetime -> list datetime) (A B r : TimeSeries) (mode : string) :
  set_iteration set_iter ->
  combine set_iter A B mode = Ok r ->
  (forall t v,
     In (t, v) (values r)
     <-> (In t (timestamps A) \/ In t (timestamps B))
         /\ combine_value mode (last_value_at A t) (last_value_at B t) = Ok v)
  /\ (forall t a b,
        mode = "sum" ->
        last_value_at A t = Some (VInt a) ->
        last_value_at B t = Some (VInt b) ->
        In (t, VInt (a + b)) (values r)).
Proof.
  intros Hiter H.
  assert (Hfwd : forall t v, In (t, v) (values r) ->
            combine_value mode (last_value_at A t) (last_value_at B t) = Ok v).
  { intros t v Hin; rewrite <- !combine_map_lookup.
    apply (combine_values set_iter A B mode r t v H Hin). }
  assert (Hchar : forall t v,
     In (t, v) (values r)
     <-> (In t (timestamps A) \/ In t (timestamps B))
         /\ combine_value mode (last_value_at A t) (last_value_at B t) = Ok v).
  { intros t v; split.
    - intros Hin; split; auto.
      apply (combine_In_timestamps set_iter Hiter A B mode r t H).
      apply (in_map fst _ _ Hin).
    - intros [Hu Hc].
      apply (combine_In_timestamps set_iter Hiter A B mode r t H) in Hu.
      apply in_map_iff in Hu; destruct Hu as [[t' v'] [Ht Hin]].
      simpl in Ht; subst t'.
      pose proof (Hfwd _ _ Hin) as Hc'.
      rewrite Hc in Hc'; inversion Hc'; subst; exact Hin. }
  split; auto.
  intros t a b Hmode Ha Hb; apply Hchar; split.
  - left; destruct (in_dec dt_eq_dec t (timestamps A)) as [Hin|Hn]; auto.
    apply last_value_at_None in Hn; congruence.
  - rewrite Ha, Hb, Hmode; reflexivity.
Qed.

Lemma combine_safe_empty (A : TimeSeries) (u : option string) (mode : string) :
  combine_safe A (mk_TimeSeries [] u) mode = true.
Proof.
  unfold combine_safe; apply forallb_forall; intros tv _; reflexivity.
Qed.

(** X12. Combining a series whose timestamps strictly ascend with an empty
    series gives the series back, value for value; only the unit follows
    the rule of [combine]. *)
Theorem combine_empty_right
    (set_iter : list datetime -> list datetime) (A : TimeSeries)
    (u : option string) (mode : string) :
  set_iteration set_iter ->
  mode = "sum" \/ mode = "avg" ->
  StronglySorted dt_lt (timestamps A) ->
  combine set_iter A (mk_TimeSeries [] u) mode
  = Ok (mk_TimeSeries (values A) (unit_or (unit A) u)).
Proof.
  intros Hiter Hmode Hs.
  apply mode_supported_iff in Hmode.
  destruct (combine_returns set_iter Hiter A (mk_TimeSeries [] u) mode Hmode
              (combine_safe_empty A u mode)) as [r Hr].
  rewrite Hr; f_equal.
  destruct (combine_timestamps set_iter A (mk_TimeSeries [] u) mode r Hr) as [_ Hu].
  pose proof (combine_strongly_sorted set_iter Hiter A _ mode r Hr) as Hsr.
  pose proof (strongly_sorted_NoDup _ Hs) as HndA.
  assert (Hin : forall tv, In tv (values r) <-> In tv (values A)).
  { intros [t v]; split; intros H.
    - apply (combine_copies_left set_iter A _ r mode t v Hr H); simpl; tauto.
    - pose proof (in_map fst _ _ H) as Ht; simpl in Ht.
      assert (Htr : In t (timestamps r))
        by (apply (combine_In_timestamps set_iter Hiter A _ mode r t Hr); auto).
      apply in_map_iff in Htr; destruct Htr as [[t' v'] [Heq Hin']].
      simpl in Heq; subst t'.
      pose proof (combine_copies_left set_iter A _ r mode t v' Hr Hin') as HA.
      simpl in HA; specialize (HA (fun F => F)).
      apply (last_value_at_NoDup A t v' HndA) in HA.
      apply (last_value_at_NoDup A t v HndA) in H.
      rewrite H in HA; inversion HA; subst; exact Hin'. }
  destruct r as [vr ur]; simpl in *; subst ur; f_equal.
  apply (strictly_sorted_unique fst).
  - apply (strongly_sorted_map fst dt_lt), Hsr.
  - apply (strongly_sorted_map fst dt_lt), Hs.
  - apply NoDup_Permutation; auto.
    + apply (NoDup_map_inv fst), strongly_sorted_NoDup, Hsr.
    + apply (NoDup_map_inv fst), HndA.
Qed.

(** X13. The timestamps of [combine(A, B)] and of [combine(B, A)] are the
    same list, whatever the modes and the iteration orders. *)
Theorem combine_timestamps_symmetric
    (iter1 iter2 : list datetime -> list datetime) (A B r1 r2 : TimeSeries)
    (mode1 mode2 : string) :
  set_iteration iter1 -> set_iteration iter2 ->
  combine iter1 A B mode1 = Ok r1 ->
  combine iter2 B A mode2 = Ok r2 ->
  timestamps r1 = timestamps r2.
Proof.
  intros Hi1 Hi2 H1 H2.
  pose proof (combine_strongly_sorted iter1 Hi1 A B mode1 r1 H1) as Hs1.
  pose proof (combine_strongly_sorted iter2 Hi2 B A mode2 r2 H2) as Hs2.
  apply (strictly_sorted_unique (fun t => t)); auto.
  apply NoDup_Permutation; try (apply strongly_sorted_NoDup; assumption).
  intros t.
  rewrite (combine_In_timestamps iter1 Hi1 A B mode1 r1 t H1).
  rewrite (combine_In_timestamps iter2 Hi2 B A mode2 r2 t H2).
  tauto.
Qed.

(** ** More on [group_by_minutes] *)

Lemma bucket_boundary_idempotent (m : Z) (t : datetime) :
  0 < m -> bucket_boundary m (bucket_boundary m t) = bucket_boundary m t.
Proof.
  intros Hm; unfold bucket_boundary; simpl.
  rewrite Z.div_mul by lia; reflexivity.
Qed.

Lemma bucket_boundary_valid (m : Z) (t : datetime) :
  0 < m -> valid_datetime t -> valid_datetime (bucket_boundary m t).
Proof.
  intros Hm [Hy [Hmo [Hd [Hh [Hmi [Hs Hu]]]]]].
  unfold valid_datetime, bucket_boundary; simpl.
  assert (H1 : 0 <= minute t / m) by (apply Z.div_pos; lia).
  assert (H2 : m * (minute t / m) <= minute t) by (apply Z.mul_div_le; lia).
  repeat split; try lia; nia.
Qed.

Lemma group_by_minutes_positive (s s' : TimeSeries) (m : Z) (mode : string) :
  group_by_minutes s m mode = (Ok tt, s') -> 0 < m /\ mode_supported mode = true.
Proof.
  unfold group_by_minutes.
  destruct (Z.leb_spec m 0); [discriminate|].
  destruct (mode_supported mode); [auto|discriminate].
Qed.

(** X6. Resampling twice with the same bucket size leaves the timestamps
    of the first resampling as they are (whatever the two modes). *)
Theorem group_by_minutes_twice
    (s s1 s2 : TimeSeries) (m : Z) (mode1 mode2 : string) :
  Forall valid_datetime (timestamps s) ->
  group_by_minutes s m mode1 = (Ok tt, s1) ->
  group_by_minutes s1 m mode2 = (Ok tt, s2) ->
  timestamps s2 = timestamps s1.
Proof.
  intros Hv H1 H2.
  destruct (group_by_minutes_positive _ _ _ _ H1) as [Hm _].
  destruct (group_by_minutes_timestamps s s1 m mode1 Hm Hv H1) as [Hs1 Hin1].
  assert (Hv1 : Forall valid_datetime (timestamps s1)).
  { rewrite Forall_forall in *; intros t Ht.
    apply Hin1 in Ht; destruct Ht as [t0 [Ht0 ->]].
    apply bucket_boundary_valid; auto. }
  destruct (group_by_minutes_timestamps s1 s2 m mode2 Hm Hv1 H2) as [Hs2 Hin2].
  apply (strictly_sorted_unique (fun t => t)); auto.
  apply NoDup_Permutation; try (apply strongly_sorted_NoDup; assumption).
  intros t; rewrite Hin2; split.
  - intros [t1 [Ht1 ->]].
    pose proof Ht1 as Ht1'; apply Hin1 in Ht1'; destruct Ht1' as [t0 [Ht0 E]].
    rewrite E, bucket_boundary_idempotent by assumption.
    rewrite <- E; exact Ht1.
  - intros Ht; exists t; split; auto.
    apply Hin1 in Ht; destruct Ht as [t0 [Ht0 ->]].
    rewrite bucket_boundary_idempotent by assumption; reflexivity.
Qed.

Lemma accumulate_loop_keys_incl (m : Z) (vs : list (datetime * scalar)) :
  forall acc acc' k,
    for_each (accumulate m) vs acc = Ok acc' ->
    In k (dict_keys (fst acc)) -> In k (dict_keys (fst acc')).
Proof.
  induction vs as [|tv vs IH]; intros acc acc' k H Hin.
  - simpl in H; inversion H; subst; exact Hin.
  - rewrite for_each_cons in H; inv_bind H.
    apply (IH _ _ _ H), (accumulate_keys m acc tv a k Ha); auto.
Qed.

Lemma accumulate_loop_length (m : Z) (vs : list (datetime * scalar)) :
  forall acc acc',
    for_each (accumulate m) vs acc = Ok acc' ->
    (List.length (dict_keys (fst acc'))
     <= List.length (dict_keys (fst acc)) + List.length vs)%nat.
Proof.
  induction vs as [|[t v] vs IH]; intros [sums counts] acc' H.
  - simpl in H; inversion H; subst; simpl; lia.
  - rewrite for_each_cons in H; inv_bind H.
    pose proof (IH _ _ H) as Hlen.
    simpl in Ha; inv_bind Ha; inv_bind Ha; inversion Ha; subst a; clear Ha.
    simpl in *; rewrite (dict_keys_set dt_eqb) in Hlen.
    destruct (existsb _ _); [lia|].
    rewrite length_app in Hlen; simpl in Hlen; lia.
Qed.

Lemma accumulate_loop_nonempty (m : Z) (vs : list (datetime * scalar)) acc acc' :
  vs <> [] ->
  for_each (accumulate m) vs acc = Ok acc' ->
  dict_keys (fst acc') <> [].
Proof.
  destruct vs as [|tv vs]; [congruence|]; intros _ H.
  rewrite for_each_cons in H; inv_bind H.
  pose proof Ha as Hstep.
  destruct acc as [sums counts], tv as [t v]; simpl in Ha.
  inv_bind Ha; inv_bind Ha; clear Ha.
  assert (Hin : In a0 (dict_keys (fst a)))
    by (apply (accumulate_keys m _ _ a a0 Hstep); auto).
  apply (accumulate_loop_keys_incl m vs _ _ _ H) in Hin.
  intros Hnil; rewrite Hnil in Hin; destruct Hin.
Qed.

Lemma emit_loop_floats (mode : string) sums counts (ks : list datetime) :
  forall nv nv',
    Forall (fun v => exists f, v = VFloat f) (map snd nv) ->
    for_each (emit mode sums counts) ks nv = Ok nv' ->
    Forall (fun v => exists f, v = VFloat f) (map snd nv').
Proof.
  induction ks as [|k ks IH]; intros nv nv' Hnv H.
  - simpl in H; inversion H; subst; exact Hnv.
  - rewrite for_each_cons in H; inv_bind H.
    refine (IH _ _ _ H).
    unfold emit in Ha; inv_bind Ha; inversion Ha; subst a.
    rewrite map_app; apply Forall_app; split; auto.
    simpl; constructor; [eexists; reflexivity | constructor].
Qed.

Lemma group_by_minutes_ok_loops (s s' : TimeSeries) (m : Z) (mode : string) :
  group_by_minutes s m mode = (Ok tt, s') ->
  exists sums counts,
    for_each (accumulate m) (values s) ([], []) = Ok (sums, counts)
    /\ for_each (emit mode sums counts)
         (sort_by (fun t => t) (dict_keys sums)) [] = Ok (values s')
    /\ unit s' = unit s.
Proof.
  unfold group_by_minutes.
  destruct (m <=? 0); [discriminate|].
  destruct (negb (mode_supported mode)); [discriminate|].
  destruct (for_each (accumulate m) (values s) ([], [])) as [[sums counts]|e] eqn:E;
    simpl; [|discriminate].
  destruct (for_each (emit mode sums counts) _ []) as [nv|e] eqn:E2; [|discriminate].
  intros H; inversion H; subst s'; clear H.
  exists sums, counts; auto.
Qed.

(** X7. A completed [group_by_minutes] never yields more pairs than it
    found, yields none exactly when the series was empty, keeps the unit,
    and stores floats only, whatever the types of the values were. *)
Theorem group_by_minutes_size (s s' : TimeSeries) (m : Z) (mode : string) :
  group_by_minutes s m mode = (Ok tt, s') ->
  (List.length (values s') <= List.length (values s))%nat
  /\ (values s' = [] <-> values s = [])
  /\ unit s' = unit s
  /\ Forall (fun v => exists f, v = VFloat f) (data s').
Proof.
  intros H.
  destruct (group_by_minutes_ok_loops _ _ _ _ H) as [sums [counts [Hacc [Hemit Hu]]]].
  pose proof (emit_loop _ _ _ _ _ _ Hemit) as Hts; simpl in Hts.
  assert (Hlen : List.length (values s') = List.length (dict_keys sums)).
  { rewrite <- (length_map fst (values s')), Hts.
    apply Permutation_length, sort_by_perm. }
  pose proof (accumulate_loop_length m (values s) _ _ Hacc) as Hle; simpl in Hle.
  repeat split; auto.
  - lia.
  - intros Hnil; rewrite Hnil in Hlen; simpl in Hlen.
    destruct (values s) as [|tv vs] eqn:Ev; auto.
    exfalso; apply (accumulate_loop_nonempty m (tv :: vs) _ _ ltac:(discriminate) Hacc).
    simpl; destruct (dict_keys sums); [reflexivity|discriminate].
  - intros Hnil; rewrite Hnil in Hle; simpl in Hle.
    destruct (values s'); [reflexivity|simpl in Hlen; lia].
  - eapply emit_loop_floats; [|exact Hemit]; constructor.
Qed.

Lemma get_or_set {V : Type} (d : list (datetime * V)) (a k : datetime) (v default : V) :
  get_or (dict_set dt_eqb d a v) k default
  = if dt_eqb a k then v else get_or d k default.
Proof.
  unfold get_or; rewrite (dict_get_set dt_eqb dt_eqb_eq).
  destruct (dt_eqb a k); reflexivity.
Qed.

(** What the first loop leaves in [sums] and [counts] for a bucket. *)
Lemma accumulate_sums (m : Z) (k : datetime) (vs : list (datetime * scalar)) :
  forall sums counts sums' counts',
    for_each (accumulate m) vs (sums, counts) = Ok (sums', counts') ->
    bucket_sum m k vs (get_or sums k 0%float) = Ok (get_or sums' k 0%float)
    /\ get_or counts' k 0 = get_or counts k 0 + bucket_count m k vs.
Proof.
  induction vs as [|[t v] vs IH]; intros sums counts sums' counts' H.
  - simpl in H; inversion H; subst; unfold bucket_count; simpl; split; auto; lia.
  - rewrite for_each_cons in H; inv_bind H.
    simpl in Ha; inv_bind Ha; inv_bind Ha; inversion Ha; subst a; clear Ha.
    apply bucket_of_inv in Ha0; subst a0.
    destruct (IH _ _ _ _ H) as [Hs Hc]; clear IH H.
    rewrite get_or_set in Hs; rewrite get_or_set in Hc.
    unfold bucket_count in *; simpl.
    destruct (dt_eqb (bucket_boundary m t) k) eqn:E.
    + apply dt_eqb_eq in E; rewrite E in *.
      rewrite Ha1; simpl; split; [exact Hs|].
      rewrite Hc; simpl List.length; lia.
    + split; [exact Hs | exact Hc].
Qed.

Lemma emit_loop_values (mode : string) sums counts (ks : list datetime) :
  forall nv nv' k v,
    for_each (emit mode sums counts) ks nv = Ok nv' ->
    In (k, v) nv' ->
    In (k, v) nv
    \/ exists agg,
         v = VFloat agg
         /\ (if String.eqb mode "sum" then dict_item dt_eqb sums k
             else s <- dict_item dt_eqb sums k ;;
                  c <- dict_item dt_eqb counts k ;;
                  float_div_int s c) = Ok agg.
Proof.
  induction ks as [|k0 ks IH]; intros nv nv' k v H Hin.
  - simpl in H; inversion H; subst; auto.
  - rewrite for_each_cons in H; inv_bind H.
    destruct (IH _ _ _ _ H Hin) as [Hin'|Hagg]; auto.
    unfold emit in Ha; inv_bind Ha; inversion Ha; subst a.
    apply in_app_or in Hin'; destruct Hin' as [Hin'|[Heq|[]]]; auto.
    inversion Heq; subst; right; eauto.
Qed.

Lemma dict_item_get_or {V : Type} (d : list (datetime * V)) (k : datetime) (x default : V) :
  dict_item dt_eqb d k = Ok x -> get_or d k default = x.
Proof.
  unfold dict_item, get_or; destruct (dict_get dt_eqb d k); intros H;
    inversion H; reflexivity.
Qed.

(** X8. In "sum" mode the value a completed [group_by_minutes] stores for
    a bucket is the float sum, taken in storage order from 0.0, of
    [float(value)] over the values whose timestamp falls in the bucket. *)
Theorem group_by_minutes_sum (s s' : TimeSeries) (m : Z) (k : datetime) (v : scalar) :
  group_by_minutes s m "sum" = (Ok tt, s') ->
  In (k, v) (values s') ->
  exists total,
    bucket_sum m k (values s) 0%float = Ok total /\ v = VFloat total.
Proof.
  intros H Hin.
  destruct (group_by_minutes_ok_loops _ _ _ _ H) as [sums [counts [Hacc [Hemit _]]]].
  destruct (emit_loop_values _ _ _ _ _ _ _ _ Hemit Hin) as [[]|[agg [-> Hagg]]].
  simpl in Hagg.
  destruct (accumulate_sums m k (values s) _ _ _ _ Hacc) as [Hs _].
  unfold get_or at 1 in Hs; cbn [dict_get] in Hs.
  exists agg; split; auto.
  rewrite Hs; f_equal; apply dict_item_get_or, Hagg.
Qed.

(** X9. In "avg" mode the stored value is that float sum divided by the
    number of values in the bucket, a number that is at least 1. *)
Theorem group_by_minutes_avg (s s' : TimeSeries) (m : Z) (k : datetime) (v : scalar) :
  group_by_minutes s m "avg" = (Ok tt, s') ->
  In (k, v) (values s') ->
  exists total average,
    bucket_sum m k (values s) 0%float = Ok total
    /\ 1 <= bucket_count m k (values s)
    /\ float_div_int total (bucket_count m k (values s)) = Ok average
    /\ v = VFloat average.
Proof.
  intros H Hin.
  destruct (group_by_minutes_ok_loops _ _ _ _ H) as [sums [counts [Hacc [Hemit _]]]].
  destruct (emit_loop_values _ _ _ _ _ _ _ _ Hemit Hin) as [[]|[agg [-> Hagg]]].
  simpl in Hagg; inv_bind Hagg; inv_bind Hagg.
  destruct (accumulate_sums m k (values s) _ _ _ _ Hacc) as [Hs Hc].
  unfold get_or at 1 in Hs; cbn [dict_get] in Hs.
  destruct (accumulate_loop m (values s) 0 _ _ accumulated_empty Hacc)
    as [[_ [_ [_ Hbound]]] _].
  pose proof (dict_item_get_or _ _ _ 0 Ha0) as Hget; rewrite Hget in Hc.
  simpl in Hc; subst a0.
  assert (Hone : 1 <= bucket_count m k (values s)).
  { unfold dict_item in Ha0; simpl in Ha0.
    destruct (dict_get dt_eqb counts k) as [c|] eqn:E; [|discriminate].
    inversion Ha0; subst; apply (Hbound _ _ E). }
  exists a, agg; repeat split; auto.
  rewrite Hs; f_equal; apply dict_item_get_or, Ha.
Qed.

(* ================================================================== *)
(** * Further facts about the decoders *)
(* ================================================================== *)

Lemma key_eqb_eq (a b : list string) : key_eqb a b = true <-> a = b.
Proof.
  revert b; induction a as [|x a IH]; intros [|y b]; simpl; split;
    try discriminate; auto.
  - intros H; apply andb_true_iff in H; destruct H as [H1 H2].
    apply String.eqb_eq in H1; apply IH in H2; congruence.
  - intros H; inversion H; subst.
    rewrite String.eqb_refl; apply IH; reflexivity.
Qed.

Section PointOrder.
(** The time of a point that has one. *)
Let point_key (p : Point) : datetime :=
  match interval_time p with
  | Some t => t
  | None => mk_datetime 1 1 1 0 0 0 0
  end.

Lemma insert_point_timed (x : Point) (l : list Point) :
  interval_time x <> None ->
  Forall (fun p => interval_time p <> None) l ->
  insert_point x l = insert_by point_key x l.
Proof.
  intros Hx Hl; induction Hl as [|y l Hy Hl IH]; simpl; auto.
  unfold point_leb, point_key.
  destruct (interval_time x) as [tx|]; [|congruence].
  destruct (interval_time y) as [ty|]; [|congruence].
  destruct (dt_leb tx ty); auto.
  f_equal; apply IH.
Qed.

Lemma sort_points_timed (ps : list Point) :
  Forall (fun p => interval_time p <> None) ps ->
  fold_right insert_point [] ps = sort_by point_key ps.
Proof.
  induction 1 as [|p ps Hp Hps IH]; simpl; auto.
  rewrite IH; apply insert_point_timed; auto.
  rewrite Forall_forall in *; intros q Hq; apply Hps.
  apply (sort_by_In point_key ps q), Hq.
Qed.

Lemma sorted_points_timed (ps : list Point) :
  Forall (fun p => interval_time p <> None) ps ->
  sorted_points ps = Ok (sort_by point_key ps).
Proof.
  intros H; unfold sorted_points.
  replace (existsb (fun p => is_none (interval_time p)) ps) with false.
  - rewrite andb_false_r, sort_points_timed; auto.
  - symmetry; induction H as [|p ps Hp Hps IH]; simpl; auto.
    destruct (interval_time p); [exact IH | congruence].
Qed.

(** With distinct times, [sorted] forgets the order the points came in. *)
Lemma sorted_points_permutation (ps ps' : list Point) :
  Permutation ps ps' ->
  Forall (fun p => interval_time p <> None) ps ->
  NoDup (map interval_time ps) ->
  sorted_points ps = sorted_points ps'.
Proof.
  intros Hp Ht Hnd.
  assert (Ht' : Forall (fun p => interval_time p <> None) ps').
  { rewrite Forall_forall in *; intros p Hin; apply Ht.
    apply (Permutation_in _ (Permutation_sym Hp) Hin). }
  rewrite !sorted_points_timed by assumption; f_equal.
  apply sort_by_permutation; auto.
  clear Hp Ht'; induction Ht as [|p ps Hpt Ht IH]; simpl; [constructor|].
  simpl in Hnd; inversion Hnd as [|? ? Hn Hnd']; subst.
  constructor; auto.
  intros Hin; apply Hn; apply in_map_iff in Hin.
  destruct Hin as [q [Hq Hin]]; apply in_map_iff; exists q; split; auto.
  rewrite Forall_forall in Ht; specialize (Ht q Hin).
  unfold point_key in Hq.
  destruct (interval_time q), (interval_time p); congruence.
Qed.
End PointOrder.

Lemma lock_time_series_point_order (grouped : list (list string * PerqueryLockTimeMetric.t))
    (ts ts' : RawSeries) :
  same_up_to_point_order ts ts' -> distinct_times ts ->
  lock_time_series grouped ts = lock_time_series grouped ts'.
Proof.
  intros [Hm [Hr Hp]] [Ht Hnd]; unfold lock_time_series.
  rewrite <- Hm, <- Hr, (sorted_points_permutation _ _ Hp Ht Hnd); reflexivity.
Qed.

(** X14. The lock-time decoder does not depend on the order in which the
    backend lists the points of a series (newest first or oldest first),
    as long as the points of each series have distinct times. *)
Theorem lock_time_point_order_irrelevant
    (client client' : MetricServiceClient) (listing listing' : list RawSeries) :
  client lock_time_metric_type = Ok listing ->
  client' lock_time_metric_type = Ok listing' ->
  Forall2 same_up_to_point_order listing listing' ->
  Forall distinct_times listing ->
  load_perquery_lock_time client = load_perquery_lock_time client'.
Proof.
  intros Hc Hc' Hsame Hdist; unfold load_perquery_lock_time; rewrite Hc, Hc'.
  cbn [bind].
  assert (E : forall grouped,
             for_each lock_time_series listing grouped
             = for_each lock_time_series listing' grouped).
  { clear Hc Hc'; revert Hdist.
    induction Hsame as [|ts ts' l l' Hts Hl IH]; intros Hdist grouped; auto.
    inversion Hdist as [|? ? Hd Hdl]; subst.
    rewrite !for_each_cons, (lock_time_series_point_order grouped ts ts' Hts Hd).
    destruct (lock_time_series grouped ts'); simpl; auto. }
  rewrite E; reflexivity.
Qed.

(** One time-ordered listing, processed from any state of [grouped]: the
    bundle of its identity (the stored one, or a fresh one) gets the delta
    pairs appended. *)
Lemma lock_time_series_sorted
    (grouped : list (list string * PerqueryLockTimeMetric.t))
    (ts : RawSeries) (times : list datetime) :
  map interval_time (points ts) = map Some times ->
  Sorted dt_le times ->
  exists obj,
    lock_time_series grouped ts
    = Ok (dict_set key_eqb grouped (series_identity ts) obj)
    /\ lock_time_identity obj
       = match dict_get key_eqb grouped (series_identity ts) with
         | Some old => lock_time_identity old
         | None => series_identity ts
         end
    /\ PerqueryLockTimeMetric.perquery_lock_time obj
       = match dict_get key_eqb grouped (series_identity ts) with
         | Some old =>
             mk_TimeSeries
               (values (PerqueryLockTimeMetric.perquery_lock_time old)
                ++ delta_pairs times (raw_readings ts))
               (unit (PerqueryLockTimeMetric.perquery_lock_time old))
         | None =>
             mk_TimeSeries (delta_pairs times (raw_readings ts))
               (Some "us = microseconds (1,000,000 µs = 1 second)")
         end.
Proof.
  intros Htimes Hsorted; unfold lock_time_series.
  rewrite (sorted_points_sorted (points ts) times Htimes Hsorted).
  cbn [bind]; fold (series_identity ts).
  destruct (dict_get key_eqb grouped (series_identity ts)) as [old|] eqn:E.
  - edestruct (lock_time_loop (points ts) times) as [last' Hl]; [exact Htimes|].
    rewrite Hl; cbn [bind fst].
    eexists; split; [reflexivity|]; split; reflexivity.
  - edestruct (lock_time_loop (points ts) times) as [last' Hl]; [exact Htimes|].
    cbn [PerqueryLockTimeMetric.perquery_lock_time]; rewrite Hl; cbn [bind fst].
    eexists; split; [reflexivity|]; split; reflexivity.
Qed.

Lemma delta_pairs_timestamps (times : list datetime) (raw : list Z) :
  List.length times = List.length raw ->
  map fst (delta_pairs times raw) = map replace_second_microsecond_0 times
  /\ map snd (delta_pairs times raw) = map VInt (spec_deltas raw).
Proof.
  intros H; unfold delta_pairs.
  assert (Hlen : List.length (map replace_second_microsecond_0 times)
                 = List.length (map VInt (spec_deltas raw)))
    by (rewrite !length_map, spec_deltas_length; exact H).
  split; [apply map_fst_combine | apply map_snd_combine]; exact Hlen.
Qed.

Lemma times_readings_length (ts : RawSeries) (times : list datetime) :
  map interval_time (points ts) = map Some times ->
  List.length times = List.length (raw_readings ts).
Proof.
  intros H; unfold raw_readings.
  rewrite length_map, <- (length_map interval_time), H, length_map; reflexivity.
Qed.

Lemma delta_pairs_sorted (times : list datetime) (raw : list Z) :
  List.length times = List.length raw ->
  Sorted dt_le times ->
  sort_by fst (delta_pairs times raw) = delta_pairs times raw.
Proof.
  intros Hlen Hs; apply sort_by_sorted_id.
  rewrite (proj1 (delta_pairs_timestamps times raw Hlen)).
  apply sorted_truncated, Hs.
Qed.

(** The decoder on one time-ordered listing. *)
Lemma lock_time_single_listing
    (client : MetricServiceClient) (ts : RawSeries) (times : list datetime) :
  client lock_time_metric_type = Ok [ts] ->
  map interval_time (points ts) = map Some times ->
  Sorted dt_le times ->
  exists bundle,
    load_perquery_lock_time client = Ok [bundle]
    /\ lock_time_identity bundle = series_identity ts
    /\ values (PerqueryLockTimeMetric.perquery_lock_time bundle)
       = delta_pairs times (raw_readings ts).
Proof.
  intros Hclient Htimes Hsorted.
  destruct (lock_time_series_sorted [] ts times Htimes Hsorted)
    as [obj [Hstep [Hid Hseries]]].
  simpl in Hid, Hseries.
  unfold load_perquery_lock_time; rewrite Hclient.
  cbn [bind for_each]; rewrite Hstep; cbn [bind dict_set dict_values map snd].
  eexists; split; [reflexivity|]; split; [exact Hid|].
  cbn [PerqueryLockTimeMetric.perquery_lock_time]; rewrite Hseries.
  unfold sort; simpl.
  apply delta_pairs_sorted; auto using times_readings_length.
Qed.

Lemma deltas_after_nonnegative (last : Z) (raw : list Z) :
  Forall (fun d => 0 <= d) (deltas_after last raw).
Proof.
  revert last; induction raw as [|r raw IH]; intros last; cbn [deltas_after];
    constructor; [apply Z.le_max_l | apply IH].
Qed.

Lemma last_default {A : Type} (l : list A) (a d d' : A) :
  List.last (a :: l) d = List.last (a :: l) d'.
Proof.
  revert a; induction l as [|b l IH]; intros a; [reflexivity|].
  change (List.last (b :: l) d = List.last (b :: l) d'); apply IH.
Qed.

Lemma deltas_after_total (last : Z) (raw : list Z) :
  Sorted Z.le (last :: raw) ->
  total (deltas_after last raw) = List.last raw last - last.
Proof.
  revert last; induction raw as [|r raw IH]; intros last Hs.
  - unfold total; simpl; lia.
  - inversion Hs as [|? ? Hs' Hhd]; subst; inversion Hhd; subst.
    cbn [deltas_after]; unfold total in *; cbn [fold_right]; rewrite (IH r Hs').
    rewrite Z.max_r by lia.
    destruct raw as [|z raw]; [cbn [List.last]; lia|].
    change (List.last (r :: z :: raw) last) with (List.last (z :: raw) last).
    rewrite (last_default raw z last r); lia.
Qed.

(** X15. For one time-ordered listing the lock-time deltas after the first
    are never negative; and when the readings never decrease (no counter
    reset), the deltas add up to the last reading. *)
Theorem lock_time_deltas_total
    (client : MetricServiceClient) (ts : RawSeries) (times : list datetime) :
  client lock_time_metric_type = Ok [ts] ->
  map interval_time (points ts) = map Some times ->
  Sorted dt_le times ->
  exists bundle deltas,
    load_perquery_lock_time client = Ok [bundle]
    /\ data (PerqueryLockTimeMetric.perquery_lock_time bundle) = map VInt deltas
    /\ Forall (fun d => 0 <= d) (tl deltas)
    /\ (Sorted Z.le (raw_readings ts) ->
        total deltas = List.last (raw_readings ts) 0).
Proof.
  intros Hclient Htimes Hsorted.
  destruct (lock_time_single_listing client ts times Hclient Htimes Hsorted)
    as [bundle [Hload [_ Hvalues]]].
  exists bundle, (spec_deltas (raw_readings ts)); split; auto.
  split; [|split].
  - unfold data; rewrite Hvalues.
    apply delta_pairs_timestamps, times_readings_length, Htimes.
  - destruct (raw_readings ts); simpl; [constructor|apply deltas_after_nonnegative].
  - intros Hmono; destruct (raw_readings ts) as [|r raw]; [reflexivity|].
    unfold total; cbn [spec_deltas fold_right]; fold (total (deltas_after r raw)).
    rewrite (deltas_after_total r raw Hmono).
    destruct raw as [|z raw]; [cbn [List.last]; lia|].
    change (List.last (r :: z :: raw) 0) with (List.last (z :: raw) 0).
    rewrite (last_default raw z 0 r); lia.
Qed.

Lemma dict_set_pairs {K V : Type} (eqb : K -> K -> bool)
    (eqb_eq : forall a b, eqb a b = true <-> a = b)
    (d : list (K * V)) (k k' : K) (v v' : V) :
  In (k', v') (dict_set eqb d k v) -> (k', v') = (k, v) \/ In (k', v') d.
Proof.
  induction d as [|[k0 v0] d IH]; simpl.
  - intros [H|[]]; auto.
  - destruct (eqb k0 k) eqn:E; simpl.
    + apply eqb_eq in E; subst k0; intros [H|H]; auto.
    + intros [H|H]; auto. destruct (IH H); auto.
Qed.

(** The state of [grouped] in the lock-time decoder: distinct keys, each
    the identity of its bundle. *)
Lemma lock_time_series_grouped
    (grouped grouped' : list (list string * PerqueryLockTimeMetric.t))
    (ts : RawSeries) :
  lock_time_series grouped ts = Ok grouped' ->
  NoDup (dict_keys grouped)
  /\ Forall (fun kv => lock_time_identity (snd kv) = fst kv) grouped ->
  (NoDup (dict_keys grouped')
   /\ Forall (fun kv => lock_time_identity (snd kv) = fst kv) grouped')
  /\ (forall k, In k (dict_keys grouped') ->
        k = series_identity ts \/ In k (dict_keys grouped)).
Proof.
  intros H [Hnd Hid]; unfold lock_time_series in H.
  inv_bind H. inv_bind H. inversion H; subst grouped'; clear H.
  fold (series_identity ts) in *.
  split; [split|].
  - apply (dict_keys_set_NoDup key_eqb key_eqb_eq), Hnd.
  - rewrite Forall_forall in *; intros [k b] Hin.
    apply (dict_set_pairs key_eqb key_eqb_eq) in Hin.
    destruct Hin as [Heq|Hin]; [|apply (Hid _ Hin)].
    inversion Heq; subst; simpl.
    destruct (dict_get key_eqb grouped (series_identity ts)) as [old|] eqn:E.
    + apply (dict_get_In key_eqb key_eqb_eq) in E.
      apply (Hid _ E).
    + reflexivity.
  - intros k Hk; apply (dict_keys_set_In key_eqb key_eqb_eq) in Hk; exact Hk.
Qed.

(** X16. The lock-time decoder returns at most one bundle per identity:
    the identity keys of the returned bundles are pairwise distinct, each
    is the key of a listed series, and there are no more bundles than
    listed series. *)
Theorem lock_time_one_bundle_per_identity
    (client : MetricServiceClient) (listing : list RawSeries)
    (bundles : list PerqueryLockTimeMetric.t) :
  client lock_time_metric_type = Ok listing ->
  load_perquery_lock_time client = Ok bundles ->
  NoDup (map lock_time_identity bundles)
  /\ (forall b, In b bundles ->
        exists ts, In ts listing /\ lock_time_identity b = series_identity ts)
  /\ (List.length bundles <= List.length listing)%nat.
Proof.
  intros Hclient H; unfold load_perquery_lock_time in H; rewrite Hclient in H.
  cbn [bind] in H; inv_bind H; inversion H; subst bundles; clear H.
  assert (Hinv : (NoDup (dict_keys a)
                  /\ Forall (fun kv => lock_time_identity (snd kv) = fst kv) a)
                 /\ (forall k, In k (dict_keys a) ->
                       exists ts, In ts listing /\ k = series_identity ts)).
  { clear Hclient; revert Ha.
    assert (Hinit : (NoDup (dict_keys (@nil (list string * PerqueryLockTimeMetric.t)))
                     /\ Forall (fun kv => lock_time_identity (snd kv) = fst kv)
                          (@nil (list string * PerqueryLockTimeMetric.t)))
                    /\ (forall k, In k (dict_keys (@nil (list string * PerqueryLockTimeMetric.t))) ->
                          exists ts, In ts (@nil RawSeries) /\ k = series_identity ts)).
    { repeat split; try constructor. intros k []. }
    revert Hinit.
    generalize (@nil (list string * PerqueryLockTimeMetric.t)) as g.
    intros g Hg Ha.
    assert (Hgen : forall seen rest g,
               (NoDup (dict_keys g)
                /\ Forall (fun kv => lock_time_identity (snd kv) = fst kv) g)
               /\ (forall k, In k (dict_keys g) ->
                     exists ts, In ts seen /\ k = series_identity ts) ->
               for_each lock_time_series rest g = Ok a ->
               (NoDup (dict_keys a)
                /\ Forall (fun kv => lock_time_identity (snd kv) = fst kv) a)
               /\ (forall k, In k (dict_keys a) ->
                     exists ts, In ts (seen ++ rest) /\ k = series_identity ts)).
    { intros seen rest; revert seen.
      induction rest as [|ts rest IH]; intros seen g0 [Hg0 Hk0] H0.
      - simpl in H0; inversion H0; subst; rewrite app_nil_r; auto.
      - rewrite for_each_cons in H0; inv_bind H0.
        destruct (lock_time_series_grouped _ _ _ Ha0 Hg0) as [Hg1 Hk1].
        replace (seen ++ ts :: rest) with ((seen ++ [ts]) ++ rest)
          by (rewrite <- app_assoc; reflexivity).
        apply (IH (seen ++ [ts]) a0); auto.
        split; auto.
        intros k Hk; destruct (Hk1 k Hk) as [->|Hin].
        + exists ts; split; auto; apply in_or_app; simpl; auto.
        + destruct (Hk0 k Hin) as [ts0 [Hts0 ->]].
          exists ts0; split; auto; apply in_or_app; auto. }
    apply (Hgen [] listing g Hg Ha). }
  destruct Hinv as [[Hnd Hid] Hkeys].
  assert (Hmap : map lock_time_identity
                   (map (fun obj =>
                           PerqueryLockTimeMetric.mk
                             (PerqueryLockTimeMetric.querystring obj)
                             (PerqueryLockTimeMetric.query_hash obj)
                             (PerqueryLockTimeMetric.user obj)
                             (PerqueryLockTimeMetric.location obj)
                             (PerqueryLockTimeMetric.database obj)
                             (PerqueryLockTimeMetric.total_wait obj)
                             (sort (PerqueryLockTimeMetric.perquery_lock_time obj)))
                        (dict_values a))
                 = dict_keys a).
  { unfold dict_values, dict_keys; rewrite !map_map.
    apply map_ext_in; intros kv Hin.
    rewrite Forall_forall in Hid; apply (Hid kv Hin). }
  split; [rewrite Hmap; exact Hnd|split].
  - intros b Hb.
    apply (in_map lock_time_identity) in Hb; rewrite Hmap in Hb.
    destruct (Hkeys _ Hb) as [ts [Hts E]]; eauto.
  - rewrite length_map; unfold dict_values; rewrite length_map.
    rewrite <- (length_map fst a); fold (dict_keys a).
    assert (Hincl : incl (dict_keys a) (map series_identity listing)).
    { intros k Hk; destruct (Hkeys k Hk) as [ts [Hts ->]].
      apply in_map, Hts. }
    rewrite <- (length_map series_identity listing).
    apply (NoDup_incl_length Hnd Hincl).
Qed.

(** X17. Two time-ordered listings of one identity end up in one bundle,
    and the delta computation starts afresh for each listing: the bundle
    holds the deltas of the first listing and those of the second (whose
    first delta is again its raw reading), merged by a stable sort on the
    truncated timestamps. *)
Theorem lock_time_two_listings
    (client : MetricServiceClient) (ts1 ts2 : RawSeries)
    (times1 times2 : list datetime) :
  client lock_time_metric_type = Ok [ts1; ts2] ->
  series_identity ts1 = series_identity ts2 ->
  map interval_time (points ts1) = map Some times1 ->
  map interval_time (points ts2) = map Some times2 ->
  Sorted dt_le times1 ->
  Sorted dt_le times2 ->
  exists bundle,
    load_perquery_lock_time client = Ok [bundle]
    /\ lock_time_identity bundle = series_identity ts1
    /\ values (PerqueryLockTimeMetric.perquery_lock_time bundle)
       = sort_by fst (delta_pairs times1 (raw_readings ts1)
                      ++ delta_pairs times2 (raw_readings ts2)).
Proof.
  intros Hclient Hid Ht1 Ht2 Hs1 Hs2.
  destruct (lock_time_series_sorted [] ts1 times1 Ht1 Hs1)
    as [obj1 [Hstep1 [Hid1 Hseries1]]].
  cbn [dict_get dict_set] in Hstep1, Hid1, Hseries1.
  destruct (lock_time_series_sorted [(series_identity ts1, obj1)] ts2 times2 Ht2 Hs2)
    as [obj2 [Hstep2 [Hid2 Hseries2]]].
  cbn [dict_get dict_set] in Hstep2, Hid2, Hseries2.
  rewrite <- Hid in Hstep2, Hid2, Hseries2.
  rewrite (proj2 (key_eqb_eq _ _) eq_refl) in Hstep2, Hid2, Hseries2.
  unfold load_perquery_lock_time; rewrite Hclient.
  cbn [bind for_each]; rewrite Hstep1; cbn [bind]; rewrite Hstep2.
  cbn [bind dict_values map snd].
  eexists; split; [reflexivity|]; split.
  - unfold lock_time_identity in *; simpl; rewrite <- Hid1; exact Hid2.
  - cbn [PerqueryLockTimeMetric.perquery_lock_time].
    rewrite Hseries2, Hseries1; reflexivity.
Qed.

(** ** The IO-time and latency decoders *)

Lemma io_time_loop (ps : list Point) : forall times series,
  map interval_time ps = map Some times ->
  for_each io_time_point ps series
  = Ok (mk_TimeSeries
          (values series
           ++ raw_pairs times (map (fun p => int64_value (value p)) ps))
          (unit series)).
Proof.
  induction ps as [|p ps IH]; intros times series Hm.
  - destruct times; [|discriminate]; simpl.
    destruct series; unfold raw_pairs; simpl; rewrite app_nil_r; reflexivity.
  - destruct times as [|t times]; [discriminate|].
    simpl in Hm; injection Hm as Hp Hps.
    rewrite for_each_cons; unfold io_time_point at 1, point_minute; rewrite Hp.
    cbn [bind]; rewrite (IH times _ Hps).
    unfold add, raw_pairs; simpl; rewrite <- app_assoc; reflexivity.
Qed.

(** X18. For one time-ordered listing the IO-time decoder returns one
    bundle that stores each raw reading as it is, at the timestamp
    truncated to the minute; no difference of consecutive readings is
    taken. *)
Theorem io_time_stores_raw_readings
    (client : MetricServiceClient) (ts : RawSeries) (times : list datetime) :
  client io_time_metric_type = Ok [ts] ->
  map interval_time (points ts) = map Some times ->
  Sorted dt_le times ->
  exists bundle,
    load_perquery_IO_time client = Ok [bundle]
    /\ data (PerqueryIOTimeMetric.perquery_IO_time bundle)
       = map VInt (raw_readings ts)
    /\ timestamps (PerqueryIOTimeMetric.perquery_IO_time bundle)
       = map replace_second_microsecond_0 times.
Proof.
  intros Hclient Htimes Hsorted.
  assert (Hlen : List.length (map replace_second_microsecond_0 times)
                 = List.length (map VInt (raw_readings ts)))
    by (rewrite !length_map; apply times_readings_length, Htimes).
  unfold load_perquery_IO_time; rewrite Hclient.
  cbn [bind for_each]; unfold io_time_series.
  rewrite (sorted_points_sorted (points ts) times Htimes Hsorted).
  cbn [bind dict_get PerqueryIOTimeMetric.perquery_IO_time].
  rewrite (io_time_loop (points ts) times _ Htimes).
  cbn [bind dict_set dict_values map snd values unit app
       PerqueryIOTimeMetric.perquery_IO_time].
  eexists; split; [reflexivity|].
  fold (raw_readings ts).
  cbn [PerqueryIOTimeMetric.perquery_IO_time]; unfold sort, data, timestamps.
  cbn [values]; unfold raw_pairs.
  rewrite sort_by_sorted_id.
  - rewrite (map_fst_combine _ _ Hlen), (map_snd_combine _ _ Hlen); auto.
  - rewrite (map_fst_combine _ _ Hlen); apply sorted_truncated, Hsorted.
Qed.

Lemma point_deltas_count (last : LastPoint) (cur_count : Z) (cur_sum_us : float)
    (buckets : list Z) (bounds : list float) :
  fst (fst (fst (point_deltas last cur_count cur_sum_us buckets bounds)))
  = match last_count last with
    | None => cur_count
    | Some l => Z.max 0 (cur_count - l)
    end.
Proof.
  unfold point_deltas; destruct (last_count last) as [l|]; [|reflexivity].
  rewrite <- clamp_is_max.
  match goal with |- context [if ?c then (_, _, _, _) else _] => destruct c end;
    reflexivity.
Qed.

Lemma latency_point_count st p st' (t : datetime) :
  latency_point st p = Ok st' ->
  interval_time p = Some t ->
  PerqueryLatencyMetric.perquery_count (fst st')
  = add (PerqueryLatencyMetric.perquery_count (fst st))
      (replace_second_microsecond_0 t)
      (VInt match last_count (snd st) with
            | None => count (distribution_value (value p))
            | Some l => Z.max 0 (count (distribution_value (value p)) - l)
            end)
  /\ last_count (snd st') = Some (count (distribution_value (value p))).
Proof.
  destruct st as [obj last]; intros H Ht; unfold latency_point in H.
  unfold point_minute in H; rewrite Ht in H; cbn [bind] in H.
  inv_bind H.
  pose proof (point_deltas_count last (count (distribution_value (value p))) a
                (bucket_counts (distribution_value (value p)))
                (explicit_bounds (distribution_value (value p)))) as Hc.
  destruct (point_deltas _ _ _ _ _)
    as [[[delta_count delta_sum_us] delta_buckets] delta_bounds].
  simpl in Hc; subst delta_count.
  inv_bind H. inv_bind H. inversion H; subst st'; clear H.
  split; reflexivity.
Qed.

Lemma latency_loop_counts (ps : list Point) : forall times st st',
  map interval_time ps = map Some times ->
  for_each latency_point ps st = Ok st' ->
  values (PerqueryLatencyMetric.perquery_count (fst st'))
  = values (PerqueryLatencyMetric.perquery_count (fst st))
    ++ List.combine (map replace_second_microsecond_0 times)
         (map VInt (loop_deltas (last_count (snd st))
                      (map (fun p => count (distribution_value (value p))) ps))).
Proof.
  induction ps as [|p ps IH]; intros times st st' Hm H.
  - destruct times; [|discriminate]; simpl in H; inversion H; subst.
    destruct (last_count (snd st')); simpl; rewrite app_nil_r; reflexivity.
  - destruct times as [|t times]; [discriminate|].
    simpl in Hm; injection Hm as Hp Hps.
    rewrite for_each_cons in H; inv_bind H.
    destruct (latency_point_count _ _ _ t Ha Hp) as [Hc Hl].
    rewrite (IH times a st' Hps H), Hc, Hl.
    unfold add; simpl; rewrite <- app_assoc; simpl.
    destruct (last_count (snd st)); reflexivity.
Qed.

(** X19. When the latency decoder returns for one time-ordered listing, it
    returns one bundle whose count series follows the same convention as
    the lock-time deltas: the first count as it is, then
    [max(0, count - previous count)], at the minute-truncated timestamps. *)
Theorem latency_count_deltas
    (client : MetricServiceClient) (ts : RawSeries) (times : list datetime)
    (bundles : list PerqueryLatencyMetric.t) :
  client latency_metric_type = Ok [ts] ->
  map interval_time (points ts) = map Some times ->
  Sorted dt_le times ->
  load_perquery_latency client = Ok bundles ->
  exists bundle,
    bundles = [bundle]
    /\ data (PerqueryLatencyMetric.perquery_count bundle)
       = map VInt (spec_deltas (raw_counts ts))
    /\ timestamps (PerqueryLatencyMetric.perquery_count bundle)
       = map replace_second_microsecond_0 times.
Proof.
  intros Hclient Htimes Hsorted H.
  unfold load_perquery_latency in H; rewrite Hclient in H.
  cbn [bind for_each] in H; inv_bind H; inv_bind Ha.
  inversion Ha; subst a; clear Ha; inversion H; subst bundles; clear H.
  unfold latency_series in Ha0.
  rewrite (sorted_points_sorted (points ts) times Htimes Hsorted) in Ha0.
  cbn [bind dict_get] in Ha0; inv_bind Ha0.
  inversion Ha0; subst a0; clear Ha0.
  pose proof (latency_loop_counts (points ts) times _ _ Htimes Ha) as Hv.
  cbn [fst snd last_count PerqueryLatencyMetric.perquery_count values app
       loop_deltas] in Hv.
  fold (raw_counts ts) in Hv.
  cbn [dict_set dict_values map snd].
  eexists; split; [reflexivity|].
  cbn [PerqueryLatencyMetric.perquery_count].
  assert (Hlen : List.length (map replace_second_microsecond_0 times)
                 = List.length (map VInt (spec_deltas (raw_counts ts)))).
  { rewrite !length_map, spec_deltas_length; unfold raw_counts.
    rewrite length_map, <- (length_map interval_time), Htimes, length_map.
    reflexivity. }
  unfold sort, data, timestamps; cbn [values]; rewrite Hv.
  rewrite sort_by_sorted_id.
  - rewrite (map_fst_combine _ _ Hlen), (map_snd_combine _ _ Hlen); auto.
  - rewrite (map_fst_combine _ _ Hlen); apply sorted_truncated, Hsorted.
Qed.

(** ** The percentile estimator *)

Lemma float_add_int_raise (x : float) (n : Z) e :
  float_add_int x n = Raise e ->
  e = OverflowError /\ float_int_limit <= Z.abs n.
Proof.
  unfold float_add_int, int_to_float.
  destruct (Z.ltb_spec (Z.abs n) float_int_limit) as [Hlt|Hge]; simpl;
    intros Hr; inversion Hr; auto.
Qed.

Lemma float_div_int_positive_raise (x : float) (n : Z) e :
  0 < n -> float_div_int x n = Raise e ->
  e = OverflowError /\ float_int_limit <= Z.abs n.
Proof.
  intros Hn; unfold float_div_int, int_to_float.
  replace (n =? 0) with false by (symmetry; apply Z.eqb_neq; lia).
  destruct (Z.ltb_spec (Z.abs n) float_int_limit) as [Hlt|Hge]; simpl;
    intros Hr; inversion Hr; auto.
Qed.

Lemma percentile_walk_raise (bounds : list float) (target : float) (cs : list Z) :
  forall i cum e,
    percentile_walk bounds target i cum cs = Raise e ->
    e = OverflowError /\ exists c, In c cs /\ float_int_limit <= Z.abs c.
Proof.
  induction cs as [|c cs IH]; intros i cum e H; simpl in H; [discriminate|].
  destruct (Z.leb_spec c 0) as [Hc|Hc].
  - destruct (float_add_int cum c) as [cum'|e'] eqn:E; simpl in H.
    + destruct (IH _ _ _ H) as [He [c' [Hin Hb]]]; split; auto.
      exists c'; simpl; auto.
    + inversion H; subst e'.
      destruct (float_add_int_raise _ _ _ E); split; auto.
      exists c; simpl; auto.
  - destruct (float_add_int cum c) as [next_cum|e'] eqn:E; simpl in H.
    2:{ inversion H; subst e'.
        destruct (float_add_int_raise _ _ _ E); split; auto.
        exists c; simpl; auto. }
    destruct (target <=? next_cum)%float.
    2:{ destruct (IH _ _ _ H) as [He [c' [Hin Hb]]]; split; auto.
        exists c'; simpl; auto. }
    replace (c =? 0) with false in H by (symmetry; apply Z.eqb_neq; lia).
    destruct (float_div_int (target - cum) c) as [within|e'] eqn:Ed; simpl in H.
    2:{ inversion H; subst e'.
        destruct (float_div_int_positive_raise _ _ _ Hc Ed); split; auto.
        exists c; simpl; auto. }
    destruct (Nat.eqb i 0) eqn:Ei; [discriminate|].
    destruct (Nat.leb_spec (List.length bounds) i) as [Hn|Hn]; [discriminate|].
    apply Nat.eqb_neq in Ei.
    unfold bound_at in H.
    destruct (nth_error bounds (i - 1)) eqn:E1;
      [|apply nth_error_None in E1; lia].
    destruct (nth_error bounds i) eqn:E2;
      [|apply nth_error_None in E2; lia].
    simpl in H; discriminate.
Qed.

(** X20. The percentile estimator never indexes the bounds out of range
    and never divides by zero: if it fails at all, it is with an
    [OverflowError], caused by a bucket count or a total too large for a
    float. So it returns an estimate whenever the counts and their sum are
    below that limit; and the estimate is 0.0 when the total is not
    positive. *)
Theorem percentile_failure_modes
    (bounds : list float) (bucket_counts : list Z) (q : float) :
  (forall e, _percentile_from_explicit_buckets bounds bucket_counts q = Raise e ->
     e = OverflowError)
  /\ (Forall (fun c => Z.abs c < float_int_limit) bucket_counts ->
      Z.abs (sum_counts bucket_counts) < float_int_limit ->
      exists estimate,
        _percentile_from_explicit_buckets bounds bucket_counts q = Ok estimate)
  /\ (sum_counts bucket_counts <= 0 ->
      _percentile_from_explicit_buckets bounds bucket_counts q = Ok 0%float).
Proof.
  unfold _percentile_from_explicit_buckets; repeat split.
  - intros e H.
    destruct (sum_counts bucket_counts <=? 0); [discriminate|].
    unfold float_mul_int in H.
    destruct (int_to_float (sum_counts bucket_counts)) as [d|e'] eqn:E;
      simpl in H.
    + apply percentile_walk_raise in H; tauto.
    + inversion H; subst; eapply int_to_float_raise; eauto.
  - intros Hsmall Hsum.
    destruct (sum_counts bucket_counts <=? 0); [eauto|].
    unfold float_mul_int.
    destruct (int_to_float_ok _ Hsum) as [d Hd]; rewrite Hd; simpl.
    destruct (percentile_walk bounds (clamp_q q * d) 0 0 bucket_counts)
      as [x|e] eqn:E; [eauto|].
    apply percentile_walk_raise in E; destruct E as [_ [c [Hin Hc]]].
    rewrite Forall_forall in Hsmall; specialize (Hsmall c Hin); lia.
  - intros Hle; apply Z.leb_le in Hle; rewrite Hle; reflexivity.
Qed.

(* ================================================================== *)
(** * Further properties of the snapshot assembly *)
(* ================================================================== *)

(** A fan-in loop that ends without raising has met successful futures
    only, and has stored their results by attribute. *)
Lemma collect_loop_ok (futures : list (result fetch_result * string)) :
  forall data data',
    for_each collect futures data = Ok data' ->
    exists items,
      futures = map (fun av => (Ok (snd av), fst av)) items
      /\ data' = fold_left (fun d av => dict_set String.eqb d (fst av) (snd av))
                   items data.
Proof.
  induction futures as [|[fut attr] futures IH]; intros data data' H.
  - simpl in H; inversion H; subst; exists []; auto.
  - rewrite for_each_cons in H; inv_bind H.
    unfold collect in Ha; inv_bind Ha; inversion Ha; subst a; clear Ha.
    destruct (IH _ _ H) as [items [Hf Hd]].
    exists ((attr, a0) :: items); simpl; subst; auto.
Qed.

Lemma collect_loop_total (items : list (string * fetch_result)) :
  forall data,
    for_each collect (map (fun av => (Ok (snd av), fst av)) items) data
    = Ok (fold_left (fun d av => dict_set String.eqb d (fst av) (snd av)) items data).
Proof.
  induction items as [|[attr v] items IH]; intros data; simpl; auto.
Qed.

Lemma all_ok_items (futures : list (result fetch_result * string)) :
  Forall (fun fa => exists v, fst fa = Ok v) futures ->
  exists items, futures = map (fun av => (Ok (snd av), fst av)) items.
Proof.
  induction 1 as [|[fut attr] futures [v Hv] _ [items IH]].
  - exists []; reflexivity.
  - simpl in Hv; subst; exists ((attr, v) :: items); reflexivity.
Qed.

Lemma fetch_map_names (self : GMonitoringCollector) :
  map fst (fetch_map self)
  = [ "perquery_lock_time_metrics"; "perquery_latency_metrics";
      "perquery_IO_time_metrics"; "wal_flushed_bytes_metrics";
      "wal_inserted_bytes_metrics"; "psql_num_backends_by_state_metrics";
      "cpu_usage_time"; "cpu_utilization"; "disk_quota"; "disk_utilization";
      "disk_read_bytes"; "disk_bytes_used_by_type"; "memory_quota";
      "memory_components" ].
Proof. reflexivity. Qed.

Lemma fetch_map_names_NoDup (self : GMonitoringCollector) :
  NoDup (map fst (fetch_map self)).
Proof.
  rewrite fetch_map_names.
  repeat (constructor; [simpl; intuition discriminate|]); constructor.
Qed.

Lemma fetch_map_names_fields (self : GMonitoringCollector) (k : string) :
  In k (map fst (fetch_map self)) ->
  existsb (String.eqb k) CloudSQLMetrics_fields = true.
Proof.
  rewrite fetch_map_names; simpl.
  intros H; repeat (destruct H as [<-|H]; [reflexivity|]); destruct H.
Qed.

(** The successful futures, as the loop met them, are the registry's
    successful entries. *)
Lemma completed_items
    (as_completed : list (result fetch_result * string)
                    -> list (result fetch_result * string))
    (self : GMonitoringCollector) (items : list (string * fetch_result)) :
  completion_order as_completed ->
  as_completed (map (fun af => (snd af, fst af)) (fetch_map self))
  = map (fun av => (Ok (snd av), fst av)) items ->
  NoDup (map fst items)
  /\ (forall attr, In attr (map fst items) <-> In attr (map fst (fetch_map self)))
  /\ (forall attr v, In (attr, v) items <-> In (attr, Ok v) (fetch_map self)).
Proof.
  intros Horder Hitems.
  pose proof (Horder (map (fun af => (snd af, fst af)) (fetch_map self))) as Hp.
  rewrite Hitems in Hp.
  assert (Hnames : Permutation (map fst items) (map fst (fetch_map self))).
  { apply (Permutation_map snd) in Hp; rewrite !map_map in Hp; simpl in Hp.
    exact Hp. }
  split; [|split].
  - apply (Permutation_NoDup (Permutation_sym Hnames)), fetch_map_names_NoDup.
  - intros attr; split; apply Permutation_in; auto using Permutation_sym.
  - intros attr v; split; intros Hin.
    + assert (H : In (Ok v, attr) (map (fun av => (Ok (snd av), fst av)) items))
        by (apply in_map_iff; exists (attr, v); auto).
      apply (Permutation_in _ Hp) in H; apply in_map_iff in H.
      destruct H as [[a r] [Heq H]]; simpl in Heq; inversion Heq; subst; auto.
    + assert (H : In (Ok v, attr) (map (fun af => (snd af, fst af)) (fetch_map self)))
        by (apply in_map_iff; exists (attr, Ok v); auto).
      apply (Permutation_in _ (Permutation_sym Hp)) in H; apply in_map_iff in H.
      destruct H as [[a r] [Heq H]]; simpl in Heq; inversion Heq; subst; auto.
Qed.

(** What a returned snapshot holds. *)
Lemma assemble_populated
    (as_completed : list (result fetch_result * string)
                    -> list (result fetch_result * string))
    (self : GMonitoringCollector) (snapshot : CloudSQLMetrics) :
  completion_order as_completed ->
  generate_cloudsql_metrics as_completed self = Ok snapshot ->
  NoDup (dict_keys (populated snapshot))
  /\ (forall attr v,
        dict_get String.eqb (populated snapshot) attr = Some v
        <-> In (attr, Ok v) (fetch_map self)).
Proof.
  intros Horder H; unfold generate_cloudsql_metrics, assemble in H.
  inv_bind H.
  destruct (collect_loop_ok _ _ _ Ha) as [items [Hitems Hdata]].
  destruct (completed_items as_completed self items Horder Hitems)
    as [Hnd [_ Hin]].
  unfold CloudSQLMetrics_init in H.
  destruct (forallb _ _); [|discriminate].
  inversion H; subst snapshot; clear H; simpl.
  subst a.
  change (fold_left (fun d av => dict_set String.eqb d (fst av) (snd av)) items [])
    with (dict_of_items String.eqb items).
  split; [apply (dict_of_items_NoDup String.eqb String.eqb_eq)|].
  intros attr v.
  assert (Hrev : NoDup (dict_keys (rev items)))
    by (unfold dict_keys; rewrite map_rev; apply NoDup_rev, Hnd).
  rewrite (dict_of_items_get String.eqb String.eqb_eq).
  rewrite (dict_get_NoDup String.eqb String.eqb_eq _ attr v Hrev).
  rewrite <- in_rev; apply Hin.
Qed.

(** X21. When every registered fetch task succeeds, the assembly returns a
    snapshot, in whatever order the tasks complete; and a returned
    snapshot holds, for each registered attribute and for nothing else,
    exactly the result of that attribute's task. *)
Theorem generate_cloudsql_metrics_success
    (as_completed : list (result fetch_result * string)
                    -> list (result fetch_result * string))
    (self : GMonitoringCollector) :
  completion_order as_completed ->
  ((forall attr r, In (attr, r) (fetch_map self) -> exists v, r = Ok v) ->
   exists snapshot, generate_cloudsql_metrics as_completed self = Ok snapshot)
  /\ (forall snapshot,
        generate_cloudsql_metrics as_completed self = Ok snapshot ->
        NoDup (dict_keys (populated snapshot))
        /\ List.length (populated snapshot) = 14%nat
        /\ (forall attr v,
              dict_get String.eqb (populated snapshot) attr = Some v
              <-> In (attr, Ok v) (fetch_map self))).
Proof.
  intros Horder; split.
  - intros Hall.
    destruct (all_ok_items
                (as_completed (map (fun af => (snd af, fst af)) (fetch_map self))))
      as [items Hitems].
    { rewrite Forall_forall; intros [fut attr] Hin.
      apply (Permutation_in _ (Horder _)) in Hin; apply in_map_iff in Hin.
      destruct Hin as [[a r] [Heq Hin]]; simpl in Heq; inversion Heq; subst.
      apply (Hall _ _ Hin). }
    destruct (completed_items as_completed self items Horder Hitems)
      as [_ [Hnames _]].
    unfold generate_cloudsql_metrics, assemble.
    rewrite Hitems, collect_loop_total; cbn [bind].
    unfold CloudSQLMetrics_init.
    replace (forallb _ _) with true; [eauto|].
    symmetry; apply forallb_forall; intros k Hk.
    apply (fetch_map_names_fields self), Hnames.
    apply (dict_of_items_keys String.eqb String.eqb_eq items k), Hk.
  - intros snapshot H.
    destruct (assemble_populated as_completed self snapshot Horder H) as [Hnd Hget].
    split; auto; split; auto.
    rewrite <- (length_map fst (populated snapshot)).
    change 14%nat with (List.length (map fst (fetch_map self))).
    apply Permutation_length, NoDup_Permutation; auto using fetch_map_names_NoDup.
    intros attr; split; intros Hin.
    + apply in_map_iff in Hin; destruct Hin as [[a v] [Heq Hin]].
      simpl in Heq; subst a.
      apply (dict_get_NoDup String.eqb String.eqb_eq _ _ _ Hnd), Hget in Hin.
      apply (in_map fst _ _ Hin).
    + apply in_map_iff in Hin; destruct Hin as [[a r] [Heq Hin]].
      simpl in Heq; subst a.
      assert (Hr : exists v, r = Ok v).
      { destruct r as [v|e]; eauto.
        exfalso.
        destruct (collect_loop_raises
                    (as_completed (map (fun af => (snd af, fst af)) (fetch_map self)))
                    []) as [attr' [e' [_ Hr]]].
        - exists attr, e.
          apply (Permutation_in _ (Permutation_sym (Horder _))).
          apply in_map_iff; exists (attr, Raise e); auto.
        - unfold generate_cloudsql_metrics, assemble in H.
          rewrite Hr in H; discriminate. }
      destruct Hr as [v ->].
      apply Hget, (dict_get_In String.eqb String.eqb_eq) in Hin.
      apply (in_map fst _ _ Hin).
Qed.

(** X22. In a returned snapshot the field [disk_read_bytes] holds what
    [load_disk_write_bytes] returned (the registry wires it so), and the
    fields [disk_write_bytes], [disk_read_ops], [disk_write_ops],
    [disk_bytes_used], [cpu_reserved_cores] and the two
    [pg_stat_statements] fields are never populated by the assembly. *)
Theorem generate_cloudsql_metrics_wiring
    (as_completed : list (result fetch_result * string)
                    -> list (result fetch_result * string))
    (self : GMonitoringCollector) (snapshot : CloudSQLMetrics) :
  completion_order as_completed ->
  generate_cloudsql_metrics as_completed self = Ok snapshot ->
  (exists v, load_disk_write_bytes self = Ok v
             /\ dict_get String.eqb (populated snapshot) "disk_read_bytes" = Some v)
  /\ Forall (fun field => dict_get String.eqb (populated snapshot) field = None)
       [ "disk_write_bytes"; "disk_read_ops"; "disk_write_ops";
         "disk_bytes_used"; "cpu_reserved_cores";
         "pg_stat_statements_top_queries"; "pg_stat_statements_heavy_wal" ].
Proof.
  intros Horder H.
  destruct (assemble_populated as_completed self snapshot Horder H) as [Hnd Hget].
  split.
  - destruct (dict_get String.eqb (populated snapshot) "disk_read_bytes")
      as [v|] eqn:E.
    + exists v; split; auto.
      apply Hget in E; apply (in_map fst) in E as Hname.
      unfold fetch_map in E; simpl in E.
      repeat (destruct E as [E|E]; [inversion E; subst; try reflexivity|]);
        try destruct E.
    + exfalso.
      destruct (load_disk_write_bytes self) as [v|e] eqn:El.
      * assert (Hin : In ("disk_read_bytes", Ok v) (fetch_map self))
          by (unfold fetch_map; rewrite El; do 10 right; left; reflexivity).
        apply Hget in Hin; congruence.
      * destruct (collect_loop_raises
                    (as_completed (map (fun af => (snd af, fst af)) (fetch_map self)))
                    []) as [attr' [e' [_ Hr]]].
        -- exists "disk_read_bytes", e.
           apply (Permutation_in _ (Permutation_sym (Horder _))).
           apply in_map_iff; exists ("disk_read_bytes", Raise e); split; auto.
           unfold fetch_map; rewrite El; do 10 right; left; reflexivity.
        -- unfold generate_cloudsql_metrics, assemble in H.
           rewrite Hr in H; discriminate.
  - rewrite Forall_forall; intros field Hfield.
    destruct (dict_get String.eqb (populated snapshot) field) as [v|] eqn:E; auto.
    exfalso; apply Hget, (in_map fst) in E; rewrite fetch_map_names in E.
    simpl in E, Hfield.
    repeat (destruct Hfield as [<-|Hfield];
            [repeat (destruct E as [E|E]; [discriminate|]); destruct E|]).
    destruct Hfield.
Qed.

(* ================================================================== *)
(** * Properties of the other loaders *)
(* ================================================================== *)

Lemma insert_point_perm (x : Point) (l : list Point) :
  Permutation (insert_point x l) (x :: l).
Proof.
  induction l as [|y l IH]; simpl; auto.
  destruct (point_leb x y); auto.
  rewrite IH; apply perm_swap.
Qed.

Lemma sorted_points_perm (ps ps' : list Point) :
  sorted_points ps = Ok ps' -> Permutation ps' ps.
Proof.
  unfold sorted_points; destruct (_ && _); [discriminate|].
  intros H; inversion H; subst; clear H.
  induction ps as [|p ps IH]; simpl; auto.
  rewrite insert_point_perm; auto.
Qed.

(** ** The points of a listed series in time order *)

Lemma sorted_points_returns (ps ps' : list Point) :
  sorted_points ps = Ok ps' -> ps' = fold_right insert_point [] ps.
Proof.
  unfold sorted_points; destruct (_ && _); [discriminate|].
  intros H; inversion H; reflexivity.
Qed.

Lemma sorted_points_of_timed (ps : list Point) :
  Forall (fun p => interval_time p <> None) ps ->
  sorted_points ps = Ok (fold_right insert_point [] ps).
Proof.
  intros H; unfold sorted_points.
  replace (existsb (fun p => is_none (interval_time p)) ps) with false.
  - rewrite andb_false_r; reflexivity.
  - symmetry; induction H as [|p ps Hp Hps IH]; simpl; auto.
    destruct (interval_time p); [exact IH | congruence].
Qed.

Lemma time_ordered_points_perm (ps : list Point) :
  Permutation (fold_right insert_point [] ps) ps.
Proof.
  induction ps as [|p ps IH]; simpl; auto.
  rewrite insert_point_perm; auto.
Qed.

Lemma times_of_timed (ps : list Point) :
  Forall (fun p => interval_time p <> None) ps ->
  map interval_time ps = map Some (times_of ps).
Proof.
  induction 1 as [|p ps Hp Hps IH]; simpl; auto.
  destruct (interval_time p) as [t|]; [|congruence].
  simpl; f_equal; exact IH.
Qed.

Lemma times_of_listed (ps : list Point) (times : list datetime) :
  map interval_time ps = map Some times -> times_of ps = times.
Proof.
  revert times; induction ps as [|p ps IH]; intros [|t times] H;
    simpl in *; try discriminate; auto.
  injection H as Hp Hps; rewrite Hp; simpl; f_equal; auto.
Qed.

Lemma times_of_cons (p : Point) (t : datetime) (l : list Point) :
  interval_time p = Some t -> times_of (p :: l) = t :: times_of l.
Proof. intros H; simpl; rewrite H; reflexivity. Qed.

Lemma insert_point_times (x : Point) (l : list Point) :
  Forall (fun p => interval_time p <> None) (x :: l) ->
  StronglySorted dt_le (times_of l) ->
  StronglySorted dt_le (times_of (insert_point x l))
  /\ Permutation (times_of (insert_point x l)) (times_of (x :: l)).
Proof.
  intros Ht; inversion Ht as [|? ? Hx Hl]; subst; clear Ht.
  destruct (interval_time x) as [tx|] eqn:Ex; [clear Hx|congruence].
  induction Hl as [|y l Hy Hl IH]; intros Hs.
  - simpl; rewrite Ex; simpl; split; auto. repeat constructor.
  - destruct (interval_time y) as [ty|] eqn:Ey; [clear Hy|congruence].
    cbn [insert_point]; unfold point_leb; rewrite Ex, Ey.
    rewrite (times_of_cons y ty l Ey) in Hs.
    inversion Hs as [|? ? Hs' Hall]; subst.
    destruct (dt_leb tx ty) eqn:E.
    + split; [|reflexivity].
      rewrite (times_of_cons x tx _ Ex), (times_of_cons y ty _ Ey).
      constructor; [constructor; auto|].
      constructor; [exact E|].
      eapply Forall_impl; [|exact Hall].
      intros t Ht; apply (dt_le_trans tx ty t); auto.
    + destruct (IH Hs') as [Hsorted Hperm].
      rewrite (times_of_cons x tx _ Ex) in Hperm.
      rewrite (times_of_cons x tx _ Ex).
      rewrite !(times_of_cons y ty _ Ey).
      split.
      * constructor; auto.
        rewrite Forall_forall; intros t Hin.
        apply (Permutation_in _ Hperm) in Hin.
        destruct Hin as [<-|Hin].
        -- apply dt_leb_false_le, E.
        -- rewrite Forall_forall in Hall; auto.
      * rewrite Hperm; apply perm_swap.
Qed.

Lemma time_ordered_timed (ps : list Point) :
  Forall (fun p => interval_time p <> None) ps ->
  Forall (fun p => interval_time p <> None) (fold_right insert_point [] ps).
Proof.
  intros H; apply (Permutation_Forall (Permutation_sym (time_ordered_points_perm ps)) H).
Qed.

Lemma time_ordered_strongly_sorted (ps : list Point) :
  Forall (fun p => interval_time p <> None) ps ->
  StronglySorted dt_le (times_of (fold_right insert_point [] ps)).
Proof.
  induction 1 as [|p ps Hp Hps IH]; simpl; [constructor|].
  apply insert_point_times; auto.
  constructor; auto using time_ordered_timed.
Qed.

Lemma time_ordered_sorted (ps : list Point) :
  Forall (fun p => interval_time p <> None) ps ->
  Sorted dt_le (times_of (fold_right insert_point [] ps)).
Proof. intros H; apply StronglySorted_Sorted, time_ordered_strongly_sorted, H. Qed.

(** ** The lock-time decoder on an arbitrary listing *)

(** One listed series whose points all have a time, processed from any
    state of [grouped]: the bundle of its identity (the stored one, or a
    fresh one) gets the delta pairs of the series appended. *)
Lemma lock_time_series_timed
    (grouped : list (list string * PerqueryLockTimeMetric.t)) (ts : RawSeries) :
  Forall (fun p => interval_time p <> None) (points ts) ->
  exists obj,
    lock_time_series grouped ts
    = Ok (dict_set key_eqb grouped (series_identity ts) obj)
    /\ lock_time_identity obj
       = match dict_get key_eqb grouped (series_identity ts) with
         | Some old => lock_time_identity old
         | None => series_identity ts
         end
    /\ values (PerqueryLockTimeMetric.perquery_lock_time obj)
       = match dict_get key_eqb grouped (series_identity ts) with
         | Some old => values (PerqueryLockTimeMetric.perquery_lock_time old)
         | None => []
         end ++ series_delta_pairs ts.
Proof.
  intros Ht; unfold lock_time_series.
  rewrite (sorted_points_of_timed _ Ht).
  cbn [bind]; fold (series_identity ts).
  pose proof (times_of_timed _ (time_ordered_timed _ Ht)) as Htimes.
  destruct (dict_get key_eqb grouped (series_identity ts)) as [old|] eqn:E.
  - edestruct (lock_time_loop (fold_right insert_point [] (points ts))) as [last' Hl];
      [exact Htimes|].
    rewrite Hl; cbn [bind fst].
    eexists; split; [reflexivity|]; split; reflexivity.
  - edestruct (lock_time_loop (fold_right insert_point [] (points ts))) as [last' Hl];
      [exact Htimes|].
    cbn [PerqueryLockTimeMetric.perquery_lock_time]; rewrite Hl; cbn [bind fst].
    eexists; split; [reflexivity|]; split; reflexivity.
Qed.

Lemma dict_set_pairs_neq {K V : Type} (eqb : K -> K -> bool)
    (eqb_eq : forall a b, eqb a b = true <-> a = b)
    (d : list (K * V)) (k k' : K) (v v' : V) :
  NoDup (dict_keys d) ->
  In (k', v') (dict_set eqb d k v) ->
  (k' = k /\ v' = v) \/ (k' <> k /\ In (k', v') d).
Proof.
  induction d as [|[k0 v0] d IH]; simpl; intros Hnd.
  - intros [H|[]]; inversion H; auto.
  - inversion Hnd as [|? ? Hn Hnd']; subst.
    destruct (eqb k0 k) eqn:E; simpl.
    + apply eqb_eq in E; subst k0; intros [H|H].
      * inversion H; auto.
      * right; split; auto.
        intros ->; apply Hn, (in_map fst _ _ H).
    + intros [H|H].
      * inversion H; subst; right; split; auto.
        intros ->; rewrite (proj2 (eqb_eq k k) eq_refl) in E; discriminate.
      * destruct (IH Hnd' H) as [?|[? ?]]; auto.
Qed.

Lemma listed_as_snoc (k : list string) (seen : list RawSeries) (ts : RawSeries) :
  listed_as k (seen ++ [ts])
  = listed_as k seen ++ (if key_eqb (series_identity ts) k then [ts] else []).
Proof. unfold listed_as; rewrite filter_app; reflexivity. Qed.

Lemma listed_as_In (k : list string) (listing : list RawSeries) (ts : RawSeries) :
  In ts (listed_as k listing) <-> In ts listing /\ series_identity ts = k.
Proof. unfold listed_as; rewrite filter_In, key_eqb_eq; reflexivity. Qed.

Lemma listed_as_none (k : list string) (listing : list RawSeries) :
  (forall ts, In ts listing -> series_identity ts <> k) -> listed_as k listing = [].
Proof.
  intros H; destruct (listed_as k listing) as [|ts l] eqn:E; auto.
  assert (Hin : In ts (listed_as k listing)) by (rewrite E; left; reflexivity).
  apply listed_as_In in Hin; destruct Hin as [Hin Hk]; destruct (H ts Hin Hk).
Qed.

Lemma lock_time_invariant_step (seen : list RawSeries)
    (grouped : list (list string * PerqueryLockTimeMetric.t)) (ts : RawSeries) :
  lock_time_invariant seen grouped ->
  Forall (fun p => interval_time p <> None) (points ts) ->
  exists grouped',
    lock_time_series grouped ts = Ok grouped'
    /\ lock_time_invariant (seen ++ [ts]) grouped'.
Proof.
  intros [Hnd [Hkeys Hobj]] Ht.
  destruct (lock_time_series_timed grouped ts Ht) as [obj [Hstep [Hid Hval]]].
  eexists; split; [exact Hstep|].
  split; [apply (dict_keys_set_NoDup key_eqb key_eqb_eq), Hnd|split].
  - intros k; rewrite (dict_keys_set_In key_eqb key_eqb_eq), Hkeys; split.
    + intros [->|[ts0 [Hin E]]].
      * exists ts; split; auto; apply in_or_app; right; left; reflexivity.
      * exists ts0; split; auto; apply in_or_app; auto.
    + intros [ts0 [Hin E]]; apply in_app_or in Hin.
      destruct Hin as [Hin|[<-|[]]]; [right; eauto | left; auto].
  - intros k o Hin.
    apply (dict_set_pairs_neq key_eqb key_eqb_eq) in Hin; auto.
    rewrite listed_as_snoc, map_app, concat_app.
    destruct Hin as [[-> ->]|[Hne Hin]].
    + rewrite (proj2 (key_eqb_eq _ _) eq_refl); simpl; rewrite app_nil_r.
      destruct (dict_get key_eqb grouped (series_identity ts)) as [old|] eqn:E.
      * apply (dict_get_In key_eqb key_eqb_eq) in E.
        destruct (Hobj _ _ E) as [Hi Hv].
        split; [rewrite Hid; exact Hi | rewrite Hval, Hv; reflexivity].
      * split; [exact Hid|].
        rewrite Hval, listed_as_none; [reflexivity|].
        intros ts0 Hin0 Hk.
        apply (dict_get_None key_eqb key_eqb_eq) in E; apply E, Hkeys; eauto.
    + destruct (key_eqb (series_identity ts) k) eqn:E;
        [apply key_eqb_eq in E; congruence|].
      simpl; rewrite app_nil_r; apply Hobj, Hin.
Qed.

Lemma lock_time_invariant_loop (rest : list RawSeries) :
  forall seen grouped,
    lock_time_invariant seen grouped ->
    every_point_timed rest ->
    exists grouped',
      for_each lock_time_series rest grouped = Ok grouped'
      /\ lock_time_invariant (seen ++ rest) grouped'.
Proof.
  induction rest as [|ts rest IH]; intros seen grouped Hinv Ht.
  - exists grouped; rewrite app_nil_r; split; [reflexivity | exact Hinv].
  - inversion Ht as [|? ? Hts Hrest]; subst.
    destruct (lock_time_invariant_step seen grouped ts Hinv Hts) as [g1 [Hstep Hinv1]].
    destruct (IH _ _ Hinv1 Hrest) as [g' [Hloop Hinv']].
    exists g'; rewrite for_each_cons, Hstep; cbn [bind].
    rewrite <- app_assoc in Hinv'; auto.
Qed.

Lemma series_delta_pairs_fst (ts : RawSeries) :
  Forall (fun p => interval_time p <> None) (points ts) ->
  map fst (series_delta_pairs ts)
  = map replace_second_microsecond_0 (times_of (time_ordered_points ts))
  /\ map snd (series_delta_pairs ts)
     = map VInt (spec_deltas (readings_of (time_ordered_points ts))).
Proof.
  intros Ht; apply delta_pairs_timestamps.
  unfold readings_of, time_ordered_points.
  rewrite length_map, <- (length_map interval_time),
    (times_of_timed _ (time_ordered_timed _ Ht)), length_map.
  reflexivity.
Qed.

(** C1. For every listing of cumulative lock-time series whose points
    have a time, in whatever order the backend lists series and points,
    the decoder returns one bundle per listed identity. Each listed series
    is read in time order (a stable sort of its points; a listing already
    in time order is left as it is) and gives for its first sample the raw
    value and for every later one [max(0, current - previous)], at the
    time of the sample truncated to the minute. The bundle of an identity
    holds these delta pairs of all the series listed under it, merged by a
    stable sort on the truncated timestamps; so for an identity listed as
    one series the bundle holds exactly the deltas of its time-ordered
    readings, and the readings [0, 100, 250, 200] give the deltas
    [0, 100, 150, 0]. Every emitted timestamp has seconds and
    microseconds zero. *)
Theorem lock_time_delta_decoding
    (client : MetricServiceClient) (listing : list RawSeries) :
  client lock_time_metric_type = Ok listing ->
  every_point_timed listing ->
  exists bundles,
    load_perquery_lock_time client = Ok bundles
    /\ NoDup (map lock_time_identity bundles)
    /\ (forall ts, In ts listing ->
          Permutation (time_ordered_points ts) (points ts)
          /\ Sorted dt_le (times_of (time_ordered_points ts))
          /\ (Sorted dt_le (times_of (points ts)) -> time_ordered_points ts = points ts)
          /\ exists b, In b bundles /\ lock_time_identity b = series_identity ts)
    /\ (forall b, In b bundles ->
          values (PerqueryLockTimeMetric.perquery_lock_time b)
          = sort_by fst
              (List.concat (map series_delta_pairs
                              (listed_as (lock_time_identity b) listing)))
          /\ Forall (fun t => second t = 0 /\ microsecond t = 0)
               (timestamps (PerqueryLockTimeMetric.perquery_lock_time b))
          /\ (forall ts,
                listed_as (lock_time_identity b) listing = [ts] ->
                data (PerqueryLockTimeMetric.perquery_lock_time b)
                = map VInt (spec_deltas (readings_of (time_ordered_points ts)))
                /\ timestamps (PerqueryLockTimeMetric.perquery_lock_time b)
                   = map replace_second_microsecond_0
                       (times_of (time_ordered_points ts))
                /\ (readings_of (time_ordered_points ts) = [0; 100; 250; 200] ->
                    data (PerqueryLockTimeMetric.perquery_lock_time b)
                    = [VInt 0; VInt 100; VInt 150; VInt 0]))).
Proof.
  intros Hclient Htimed.
  assert (Hinit : lock_time_invariant [] []).
  { split; [constructor|split].
    - intros k; split; [intros [] | intros [ts [[] _]]].
    - intros k obj []. }
  destruct (lock_time_invariant_loop listing [] [] Hinit Htimed)
    as [grouped [Hloop [Hnd [Hkeys Hobj]]]].
  simpl in Hkeys, Hobj.
  unfold load_perquery_lock_time; rewrite Hclient; cbn [bind]; rewrite Hloop.
  cbn [bind]; eexists; split; [reflexivity|].
  set (finish := fun obj =>
         PerqueryLockTimeMetric.mk
           (PerqueryLockTimeMetric.querystring obj)
           (PerqueryLockTimeMetric.query_hash obj)
           (PerqueryLockTimeMetric.user obj)
           (PerqueryLockTimeMetric.location obj)
           (PerqueryLockTimeMetric.database obj)
           (PerqueryLockTimeMetric.total_wait obj)
           (sort (PerqueryLockTimeMetric.perquery_lock_time obj))).
  assert (Hmap : map lock_time_identity (map finish (dict_values grouped))
                 = dict_keys grouped).
  { unfold dict_values, dict_keys; rewrite !map_map.
    apply map_ext_in; intros [k obj] Hin; apply (Hobj k obj Hin). }
  assert (Hbundle : forall b, In b (map finish (dict_values grouped)) ->
            exists obj, In (lock_time_identity b, obj) grouped
                        /\ PerqueryLockTimeMetric.perquery_lock_time b
                           = sort (PerqueryLockTimeMetric.perquery_lock_time obj)).
  { intros b Hb; apply in_map_iff in Hb; destruct Hb as [obj [<- Hin]].
    apply in_map_iff in Hin; destruct Hin as [[k o] [Ho Hin]]; simpl in Ho; subst o.
    exists obj; split; [|reflexivity].
    destruct (Hobj k obj Hin) as [Hid _].
    change (lock_time_identity (finish obj)) with (lock_time_identity obj).
    rewrite Hid; exact Hin. }
  assert (Hts : forall ts, In ts listing ->
            Forall (fun p => interval_time p <> None) (points ts)).
  { intros ts Hin; unfold every_point_timed in Htimed.
    rewrite Forall_forall in Htimed; auto. }
  split; [rewrite Hmap; exact Hnd|split].
  - intros ts Hin; pose proof (Hts ts Hin) as Ht.
    split; [apply time_ordered_points_perm|].
    split; [apply time_ordered_sorted, Ht|].
    split.
    + intros Hs; apply (insert_points_sorted _ (times_of (points ts)));
        auto using times_of_timed.
    + assert (Hk : In (series_identity ts) (dict_keys grouped))
        by (apply Hkeys; eauto).
      rewrite <- Hmap in Hk; apply in_map_iff in Hk.
      destruct Hk as [b [Hb Hin']]; eauto.
  - intros b Hb; destruct (Hbundle b Hb) as [obj [Hin Hseries]].
    destruct (Hobj _ _ Hin) as [_ Hval].
    assert (Hvalues : values (PerqueryLockTimeMetric.perquery_lock_time b)
              = sort_by fst
                  (List.concat (map series_delta_pairs
                                  (listed_as (lock_time_identity b) listing))))
      by (rewrite Hseries; unfold sort; simpl; rewrite Hval; reflexivity).
    split; [exact Hvalues|split].
    + unfold timestamps; rewrite Hvalues, Forall_forall; intros t Hin'.
      apply in_map_iff in Hin'; destruct Hin' as [[t' v] [E Hin']]; simpl in E; subst t'.
      apply (proj1 (sort_by_In fst _ _)) in Hin'; apply in_concat in Hin'.
      destruct Hin' as [pairs [Hp Hin']].
      apply in_map_iff in Hp; destruct Hp as [ts [<- Hl]].
      apply listed_as_In in Hl; destruct Hl as [Hl _].
      apply (in_map fst) in Hin'; simpl in Hin'.
      rewrite (proj1 (series_delta_pairs_fst ts (Hts ts Hl))) in Hin'.
      apply in_map_iff in Hin'; destruct Hin' as [t0 [<- _]].
      apply replace_second_microsecond_0_fields.
    + intros ts Hone.
      assert (Hl : In ts listing).
      { assert (H : In ts (listed_as (lock_time_identity b) listing))
          by (rewrite Hone; left; reflexivity).
        apply listed_as_In in H; tauto. }
      destruct (series_delta_pairs_fst ts (Hts ts Hl)) as [Hfst Hsnd].
      assert (Hv : values (PerqueryLockTimeMetric.perquery_lock_time b)
                   = series_delta_pairs ts).
      { rewrite Hvalues, Hone; simpl; rewrite app_nil_r.
        apply sort_by_sorted_id; rewrite Hfst.
        apply sorted_truncated, time_ordered_sorted, Hts, Hl. }
      assert (Hd : data (PerqueryLockTimeMetric.perquery_lock_time b)
                   = map VInt (spec_deltas (readings_of (time_ordered_points ts))))
        by (unfold data; rewrite Hv; exact Hsnd).
      split; [exact Hd|split].
      * unfold timestamps; rewrite Hv; exact Hfst.
      * intros E; rewrite Hd, E; reflexivity.
Qed.

(** ** The loaders of one series *)

Lemma append_loop (field : TypedValue -> scalar) (ps : list Point) :
  forall r r',
    for_each (Loader.append_point field) ps r = Ok r' ->
    exists new,
      values r' = values r ++ new
      /\ map snd new = map (fun p => field (value p)) ps
      /\ Forall (fun t => second t = 0 /\ microsecond t = 0) (map fst new)
      /\ Forall2 (fun p t => exists t0, interval_time p = Some t0
                                        /\ t = replace_second_microsecond_0 t0)
           ps (map fst new)
      /\ unit r' = unit r.
Proof.
  induction ps as [|p ps IH]; intros r r' H.
  - simpl in H; inversion H; subst; exists []; rewrite app_nil_r.
    repeat split; constructor.
  - rewrite for_each_cons in H; inv_bind H.
    unfold Loader.append_point, point_minute in Ha.
    destruct (interval_time p) as [t0|] eqn:Et; [|discriminate].
    cbn [bind] in Ha; inversion Ha; subst a; clear Ha.
    destruct (IH _ _ H) as [new [Hv [Hs [Ht [Hf Hu]]]]].
    exists ((replace_second_microsecond_0 t0, field (value p)) :: new).
    simpl in *; rewrite Hv, <- app_assoc, Hs; repeat split; auto.
    constructor; eauto.
Qed.

(** One listing appended to [results]. *)
Lemma append_series_spec (field : TypedValue -> scalar) (ts : RawSeries)
    (r r' : TimeSeries) :
  Loader.append_series field r ts = Ok r' ->
  exists new,
    values r' = values r ++ new
    /\ Permutation (map snd new) (map (fun p => field (value p)) (points ts))
    /\ Forall (fun t => second t = 0 /\ microsecond t = 0) (map fst new)
    /\ unit r' = unit r.
Proof.
  unfold Loader.append_series; intros H; inv_bind H.
  destruct (append_loop field _ _ _ H) as [new [Hv [Hs [Ht [_ Hu]]]]].
  exists new; repeat split; auto.
  rewrite Hs; apply Permutation_map, sorted_points_perm, Ha.
Qed.

Lemma append_listing_spec (field : TypedValue -> scalar) (listing : list RawSeries) :
  forall r r',
    for_each (Loader.append_series field) listing r = Ok r' ->
    exists new,
      values r' = values r ++ new
      /\ Permutation (map snd new)
           (map (fun p => field (value p)) (List.concat (map points listing)))
      /\ Forall (fun t => second t = 0 /\ microsecond t = 0) (map fst new)
      /\ unit r' = unit r.
Proof.
  induction listing as [|ts listing IH]; intros r r' H.
  - simpl in H; inversion H; subst; exists []; rewrite app_nil_r.
    repeat split; constructor.
  - rewrite for_each_cons in H; inv_bind H.
    destruct (append_series_spec _ _ _ _ Ha) as [new1 [Hv1 [Hp1 [Ht1 Hu1]]]].
    destruct (IH _ _ H) as [new2 [Hv2 [Hp2 [Ht2 Hu2]]]].
    exists (new1 ++ new2); rewrite Hv2, Hv1, <- app_assoc.
    repeat split; try congruence.
    + simpl; rewrite !map_app; apply Permutation_app; assumption.
    + rewrite map_app; apply Forall_app; auto.
Qed.

Lemma append_loop_stored (field : TypedValue -> scalar) (ps : list Point) :
  forall r r',
    for_each (Loader.append_point field) ps r = Ok r' ->
    exists new,
      values r' = values r ++ new /\ Forall2 (stored_for field) ps new.
Proof.
  induction ps as [|p ps IH]; intros r r' H.
  - simpl in H; inversion H; subst; exists []; rewrite app_nil_r.
    split; [reflexivity | constructor].
  - rewrite for_each_cons in H; inv_bind H.
    unfold Loader.append_point, point_minute in Ha.
    destruct (interval_time p) as [t0|] eqn:Et; [|discriminate].
    cbn [bind] in Ha; inversion Ha; subst a; clear Ha.
    destruct (IH _ _ H) as [new [Hv Hf]].
    exists ((replace_second_microsecond_0 t0, field (value p)) :: new).
    simpl in *; rewrite Hv, <- app_assoc; split; [reflexivity|].
    constructor; [exists t0; auto | exact Hf].
Qed.

Lemma append_listing_stored (field : TypedValue -> scalar) (listing : list RawSeries) :
  forall r r',
    for_each (Loader.append_series field) listing r = Ok r' ->
    exists new,
      values r' = values r ++ new
      /\ Forall2 (stored_for field)
           (List.concat (map time_ordered_points listing)) new.
Proof.
  induction listing as [|ts listing IH]; intros r r' H.
  - simpl in H; inversion H; subst; exists []; rewrite app_nil_r.
    split; [reflexivity | constructor].
  - rewrite for_each_cons in H; inv_bind H.
    unfold Loader.append_series in Ha; inv_bind Ha.
    apply sorted_points_returns in Ha0; subst a0.
    destruct (append_loop_stored _ _ _ _ Ha) as [new1 [Hv1 Hf1]].
    destruct (IH _ _ H) as [new2 [Hv2 Hf2]].
    exists (new1 ++ new2); rewrite Hv2, Hv1, <- app_assoc.
    split; [reflexivity|].
    simpl; apply Forall2_app; assumption.
Qed.

Lemma stored_for_timed (field : TypedValue -> scalar) (ps : list Point)
    (new : list (datetime * scalar)) :
  Forall2 (stored_for field) ps new ->
  Forall (fun p => interval_time p <> None) ps.
Proof.
  induction 1 as [|p tv ps new [t [Hp _]] _ IH]; constructor; auto.
  congruence.
Qed.

(** X23. Each of the six single-series loaders (CPU usage time and
    utilization, disk quota, utilization and write bytes, memory quota),
    when it returns, returns one series with the loader's unit that
    holds, pair by pair, for every listed point the value read from that
    point at the time of that point truncated to the minute: the listed
    series one after the other, the points of each in time order (a
    stable sort of its points). So every point is stored exactly once,
    an empty listing gives the empty series, and the series is not sorted
    across listed series. *)
Theorem load_series_spec
    (client : MetricServiceClient) (metric_type unit_name : string)
    (field : TypedValue -> scalar) (listing : list RawSeries) (r : TimeSeries) :
  client metric_type = Ok listing ->
  Loader.load_series client metric_type unit_name field = Ok r ->
  Forall2 (stored_for field)
    (List.concat (map time_ordered_points listing)) (values r)
  /\ (forall ts, In ts listing ->
        Permutation (time_ordered_points ts) (points ts)
        /\ Sorted dt_le (times_of (time_ordered_points ts)))
  /\ Permutation (data r)
       (map (fun p => field (value p)) (List.concat (map points listing)))
  /\ List.length (values r) = point_count listing
  /\ Forall (fun t => second t = 0 /\ microsecond t = 0) (timestamps r)
  /\ unit r = Some unit_name.
Proof.
  intros Hclient H; unfold Loader.load_series in H; rewrite Hclient in H.
  cbn [bind] in H.
  assert (Hstored : Forall2 (stored_for field)
                      (List.concat (map time_ordered_points listing)) (values r)).
  { destruct listing as [|ts listing].
    - inversion H; subst; constructor.
    - destruct (append_listing_stored field (ts :: listing) _ _ H) as [new [Hv Hf]].
      simpl in Hv; rewrite Hv; exact Hf. }
  assert (Hspec : exists new,
             values r = [] ++ new
             /\ Permutation (map snd new)
                  (map (fun p => field (value p)) (List.concat (map points listing)))
             /\ Forall (fun t => second t = 0 /\ microsecond t = 0) (map fst new)
             /\ unit r = Some unit_name).
  { destruct listing as [|ts listing].
    - inversion H; subst; exists []; repeat split; constructor.
    - apply (append_listing_spec field (ts :: listing) _ _ H). }
  destruct Hspec as [new [Hv [Hp [Ht Hu]]]]; simpl in Hv.
  split; [exact Hstored|split].
  - intros ts Hin; split; [apply time_ordered_points_perm|].
    apply time_ordered_sorted.
    apply stored_for_timed in Hstored.
    apply (Permutation_Forall (time_ordered_points_perm (points ts))).
    rewrite Forall_forall in *; intros p Hp'; apply Hstored.
    apply in_concat; exists (time_ordered_points ts); split; auto.
    apply in_map, Hin.
  - unfold data, timestamps, point_count; rewrite Hv.
    repeat split; auto.
    rewrite <- (length_map snd new), (Permutation_length Hp), length_map.
    reflexivity.
Qed.

Lemma sorted_points_nil (ps ps' : list Point) :
  sorted_points ps = Ok ps' -> (ps' = [] <-> ps = []).
Proof.
  intros H; apply sorted_points_perm in H; split; intros ->.
  - apply Permutation_nil in H; exact H.
  - apply Permutation_sym, Permutation_nil in H; exact H.
Qed.

(** One listing in the by-label loaders: the label is there, and the
    keys grow by it exactly when the listing has a point. *)
Lemma by_label_series_keys (name : string) (field : TypedValue -> scalar)
    (results results' : list (string * TimeSeries)) (ts : RawSeries) :
  Loader.by_label_series name field results ts = Ok results' ->
  exists data_type,
    label (metric_labels ts) name = Some data_type
    /\ (NoDup (dict_keys results) -> NoDup (dict_keys results'))
    /\ (forall k, In k (dict_keys results')
          <-> (k = data_type /\ points ts <> []) \/ In k (dict_keys results)).
Proof.
  unfold Loader.by_label_series, dict_item, label; intros H.
  destruct (dict_get String.eqb (metric_labels ts) name) as [data_type|];
    [|discriminate].
  cbn [bind] in H; inv_bind H; inv_bind H; inversion H; subst results'; clear H.
  exists data_type; split; auto.
  pose proof (sorted_points_nil _ _ Ha) as Hnil.
  destruct a as [|p ps].
  - split; auto.
    intros k; split; auto.
    intros [[_ Hne]|Hin]; auto.
    exfalso; apply Hne, Hnil; reflexivity.
  - split; [apply (dict_keys_set_NoDup String.eqb String.eqb_eq)|].
    intros k; rewrite (dict_keys_set_In String.eqb String.eqb_eq).
    split; intros [Hk|Hin]; auto.
    + left; split; auto.
      intros Hps; apply Hnil in Hps; discriminate.
    + left; tauto.
Qed.

(** X24. The two loaders that return series by a label (disk bytes by
    data type, memory components): an empty listing gives the single
    placeholder entry "Not Available"; otherwise, when the loader returns,
    every listed series carries the label (a missing one raises
    [KeyError]), the keys are distinct, and they are exactly the labels
    of the listed series that have at least one point. A listing whose
    series have no points gives an empty dict. *)
Theorem load_by_label_keys
    (client : MetricServiceClient) (metric_type name : string)
    (field : TypedValue -> scalar) (listing : list RawSeries)
    (d : list (string * TimeSeries)) :
  client metric_type = Ok listing ->
  Loader.load_by_label client metric_type name field = Ok d ->
  (listing = [] -> d = [("Not Available", mk_TimeSeries [] (Some "bytes"))])
  /\ (listing <> [] ->
      Forall (fun ts => label (metric_labels ts) name <> None) listing
      /\ NoDup (dict_keys d)
      /\ (forall k, In k (dict_keys d)
            <-> exists ts, In ts listing
                  /\ label (metric_labels ts) name = Some k
                  /\ points ts <> [])).
Proof.
  intros Hclient H; unfold Loader.load_by_label in H; rewrite Hclient in H.
  cbn [bind] in H; split.
  - intros ->; inversion H; reflexivity.
  - intros Hne.
    assert (Hloop : for_each (Loader.by_label_series name field) listing [] = Ok d)
      by (destruct listing; [congruence | exact H]).
    clear H Hne Hclient.
    assert (Hgen : forall l results d',
               for_each (Loader.by_label_series name field) l results = Ok d' ->
               Forall (fun ts => label (metric_labels ts) name <> None) l
               /\ (NoDup (dict_keys results) -> NoDup (dict_keys d'))
               /\ (forall k, In k (dict_keys d')
                     <-> (exists ts, In ts l
                            /\ label (metric_labels ts) name = Some k
                            /\ points ts <> [])
                         \/ In k (dict_keys results))).
    { induction l as [|ts l IH]; intros results d' H.
      - simpl in H; inversion H; subst; repeat split; auto.
        intros [[ts [[] _]]|Hk]; auto.
      - rewrite for_each_cons in H; inv_bind H.
        destruct (by_label_series_keys _ _ _ _ _ Ha) as [dt [Hl [Hnd Hk]]].
        destruct (IH _ _ H) as [Hall [Hnd' Hk']].
        split; [constructor; [congruence | exact Hall]|].
        split; [auto|].
        intros k; rewrite Hk', Hk; split.
        + intros [[ts' [Hin Hts']]|[[-> Hp]|Hin]]; auto.
          * left; exists ts'; simpl; auto.
          * left; exists ts; simpl; auto.
        + intros [[ts' [[<-|Hin] [Hl' Hp]]]|Hin]; auto.
          * right; left; split; auto; congruence.
          * left; exists ts'; auto. }
    destruct (Hgen _ _ _ Hloop) as [Hall [Hnd Hk]].
    split; auto; split; [apply Hnd; constructor|].
    intros k; rewrite Hk; simpl; tauto.
Qed.

Lemma dict_set_length {K V : Type} (eqb : K -> K -> bool)
    (d : list (K * V)) (k : K) (v : V) :
  (List.length d <= List.length (dict_set eqb d k v) <= S (List.length d))%nat
  /\ dict_set eqb d k v <> [].
Proof.
  induction d as [|[k0 v0] d [IH _]]; simpl.
  - split; [lia|discriminate].
  - destruct (eqb k0 k); simpl; split; try discriminate; lia.
Qed.

Lemma backends_series_length
    (g g' : list (list string * PSQLNumBackendsByStateMetric.t)) (ts : RawSeries) :
  Loader.backends_series g ts = Ok g' ->
  (List.length g <= List.length g' <= S (List.length g))%nat /\ g' <> [].
Proof.
  unfold Loader.backends_series; intros H.
  inv_bind H; inv_bind H; inversion H; subst g'.
  apply dict_set_length.
Qed.

Lemma backends_loop_length (l : list RawSeries) :
  forall g g',
    for_each Loader.backends_series l g = Ok g' ->
    (List.length g <= List.length g' <= List.length g + List.length l)%nat
    /\ (l <> [] -> g' <> []).
Proof.
  induction l as [|ts l IH]; intros g g' H.
  - simpl in H; inversion H; subst; simpl; split; [lia|congruence].
  - rewrite for_each_cons in H; inv_bind H.
    destruct (backends_series_length _ _ _ Ha) as [Hstep Hne].
    destruct (IH _ _ H) as [Hlen _].
    split; [simpl; lia|].
    intros _ Hnil; subst g'; simpl in Hlen.
    destruct a; [congruence | simpl in Hlen; lia].
Qed.

(** X25. [load_psql_num_backends_by_state] never returns an empty list:
    an empty listing gives the single placeholder bundle "No Data" with
    no values, and a non-empty listing gives at least one bundle and at
    most one per listed series. *)
Theorem load_psql_num_backends_by_state_nonempty
    (client : MetricServiceClient) (listing : list RawSeries)
    (bundles : list PSQLNumBackendsByStateMetric.t) :
  client "cloudsql.googleapis.com/database/postgresql/num_backends_by_state"
    = Ok listing ->
  Loader.load_psql_num_backends_by_state client = Ok bundles ->
  bundles <> []
  /\ (listing = [] ->
      bundles = [PSQLNumBackendsByStateMetric.mk (Some "No Data") (Some "No Data")
                   (Some "No Data") (mk_TimeSeries [] (Some "counts"))])
  /\ (listing <> [] -> (List.length bundles <= List.length listing)%nat).
Proof.
  intros Hclient H; unfold Loader.load_psql_num_backends_by_state in H.
  rewrite Hclient in H; cbn [bind] in H.
  destruct listing as [|ts listing].
  - inversion H; subst; repeat split; congruence.
  - inv_bind H; inversion H; subst bundles; clear H.
    destruct (backends_loop_length _ _ _ Ha) as [Hlen Hne].
    unfold dict_values; repeat split.
    + intros Hnil; apply map_eq_nil in Hnil; revert Hnil; apply Hne; discriminate.
    + discriminate.
    + intros _; rewrite length_map; simpl in *; lia.
Qed.

(* ================================================================== *)
(** * Properties of the figures' data preparation *)
(* ================================================================== *)

Lemma floats_of_safe (vs : list scalar) :
  forallb (fun v => is_ok (py_float v)) vs = true ->
  exists fs, floats_of vs = Ok fs /\ map Ok fs = map py_float vs.
Proof.
  induction vs as [|v vs IH]; simpl; intros H.
  - exists []; auto.
  - apply andb_true_iff in H; destruct H as [Hv Hvs].
    destruct (IH Hvs) as [fs [Hfs Hmap]].
    destruct (py_float v) as [f|] eqn:E; [|discriminate].
    exists (f :: fs); rewrite Hfs; simpl; split; congruence.
Qed.

Lemma floats_of_unsafe (vs : list scalar) :
  forallb (fun v => is_ok (py_float v)) vs = false ->
  exists e, floats_of vs = Raise e.
Proof.
  induction vs as [|v vs IH]; simpl; intros H; [discriminate|].
  destruct (py_float v) as [f|e] eqn:E; simpl in *; [|eauto].
  destruct (IH H) as [e He]; rewrite He; simpl; eauto.
Qed.

Lemma forallb_permutation {A : Type} (f : A -> bool) (l l' : list A) :
  Permutation l l' -> forallb f l = forallb f l'.
Proof.
  induction 1; simpl; auto; try congruence.
  destruct (f x), (f y); reflexivity.
Qed.

(** X26. [_safe_xy] never raises and returns two lists of one length, the
    times ascending. It is all or nothing: when every value converts to
    [float], the lists are the timestamps and the float values of the
    series sorted by time; as soon as one value does not convert, both
    lists are empty. *)
Theorem safe_xy_spec (ts : TimeSeries) :
  List.length (fst (_safe_xy ts)) = List.length (snd (_safe_xy ts))
  /\ StronglySorted dt_le (fst (_safe_xy ts))
  /\ (forallb (fun v => is_ok (py_float v)) (data ts) = true ->
      fst (_safe_xy ts) = timestamps (sort ts)
      /\ map Ok (snd (_safe_xy ts)) = map py_float (data (sort ts)))
  /\ (forallb (fun v => is_ok (py_float v)) (data ts) = false ->
      _safe_xy ts = ([], [])).
Proof.
  assert (Hperm : forallb (fun v => is_ok (py_float v)) (map snd (sort_by fst (values ts)))
                  = forallb (fun v => is_ok (py_float v)) (data ts))
    by (apply forallb_permutation, Permutation_map, sort_by_perm).
  unfold _safe_xy, data, timestamps, sort in *; simpl.
  destruct (values ts) as [|tv vs] eqn:Ev.
  - simpl; repeat split; auto; try constructor; discriminate.
  - rewrite <- Ev in *; clear Ev tv vs.
    destruct (forallb (fun v => is_ok (py_float v)) (map snd (values ts))) eqn:Hsafe.
    + destruct (floats_of_safe _ Hperm) as [fs [Hfs Hmap]]; rewrite Hfs; simpl.
      repeat split; auto; try discriminate.
      * rewrite <- (length_map (@Ok float) fs), Hmap, !length_map; reflexivity.
      * apply (strongly_sorted_map fst dt_le), sort_by_strongly_sorted.
    + destruct (floats_of_unsafe _ Hperm) as [e He]; rewrite He; simpl.
      repeat split; auto; try constructor; discriminate.
Qed.

Lemma get_by_ts_loop_absent (vs : list (datetime * scalar)) (t : datetime) :
  existsb (dt_eqb t) (map fst vs) = false -> get_by_ts_loop vs t = VInt 0.
Proof.
  induction vs as [|[t0 v0] vs IH]; simpl; auto.
  intros H; apply orb_false_iff in H; destruct H as [H1 H2].
  replace (dt_eqb t0 t) with false; auto.
  symmetry; apply dt_eqb_neq; intros ->; rewrite dt_eqb_refl in H1; discriminate.
Qed.

Lemma on_axis_fold (item : TimeSeries) (x_ts : list datetime) : forall acc,
  fold_left
    (fun y_values ts =>
       if negb (existsb (dt_eqb ts) (timestamps item))
       then add y_values ts (VInt 0)
       else add y_values ts (get_by_ts item ts))
    x_ts acc
  = mk_TimeSeries (values acc ++ map (fun ts => (ts, get_by_ts item ts)) x_ts)
      (unit acc).
Proof.
  induction x_ts as [|t x_ts IH]; intros acc; simpl.
  - rewrite app_nil_r; destruct acc; reflexivity.
  - rewrite IH.
    assert (E : (if negb (existsb (dt_eqb t) (timestamps item))
                 then add acc t (VInt 0)
                 else add acc t (get_by_ts item t))
                = add acc t (get_by_ts item t)).
    { destruct (existsb (dt_eqb t) (timestamps item)) eqn:Ex; simpl; auto.
      unfold get_by_ts; rewrite (get_by_ts_loop_absent _ _ Ex); reflexivity. }
    rewrite E; unfold add; simpl; rewrite <- app_assoc; reflexivity.
Qed.

(** X27. The series [network_overview] lays out for an item on the common
    time axis has exactly the timestamps of the axis, in its order, and at
    each of them what [get_by_ts] returns for the item: the explicit test
    for a missing timestamp and the sentinel of [get_by_ts] give the same
    0. *)
Theorem on_axis_values (x_ts : list datetime) (item : TimeSeries) :
  values (on_axis x_ts item) = map (fun ts => (ts, get_by_ts item ts)) x_ts
  /\ timestamps (on_axis x_ts item) = x_ts
  /\ unit (on_axis x_ts item) = Some "counts".
Proof.
  unfold on_axis; rewrite on_axis_fold; simpl; repeat split.
  unfold timestamps; simpl; rewrite map_map; simpl; apply map_id.
Qed.

(** ** The series per connection state *)

Lemma state_eqb_eq (a b : option string) : state_eqb a b = true <-> a = b.
Proof.
  destruct a as [x|], b as [y|]; simpl; split; try discriminate; auto.
  - intros H; apply String.eqb_eq in H; congruence.
  - intros H; inversion H; apply String.eqb_refl.
Qed.

Lemma get_by_ts_NoDup (s : TimeSeries) (t : datetime) (v : scalar) :
  NoDup (timestamps s) -> In (t, v) (values s) -> get_by_ts s t = v.
Proof.
  unfold timestamps, get_by_ts; intros Hnd Hin.
  induction (values s) as [|[t0 v0] vs IH]; simpl in *; [destruct Hin|].
  inversion Hnd as [|? ? Hn Hnd']; subst.
  destruct Hin as [Heq|Hin].
  - inversion Heq; subst; rewrite dt_eqb_refl; reflexivity.
  - destruct (dt_eqb t0 t) eqn:E; auto.
    apply dt_eqb_eq in E; subst; exfalso; apply Hn, (in_map fst _ _ Hin).
Qed.

Lemma get_by_ts_integer (s : TimeSeries) (t : datetime) :
  integer_valued s -> get_by_ts s t = VInt (int_at s t).
Proof.
  unfold integer_valued, int_at, get_by_ts, data; intros H.
  induction (values s) as [|[t0 v0] vs IH]; simpl in *; auto.
  inversion H as [|? ? [z Hz] H']; subst.
  destruct (dt_eqb t0 t); auto.
Qed.

Lemma on_axis_pairs (x_ts : list datetime) (item : TimeSeries) :
  values (on_axis x_ts item) = map (fun ts => (ts, get_by_ts item ts)) x_ts.
Proof. unfold on_axis; rewrite on_axis_fold; reflexivity. Qed.

Lemma on_axis_timestamps (x_ts : list datetime) (item : TimeSeries) :
  timestamps (on_axis x_ts item) = x_ts.
Proof.
  unfold timestamps; rewrite on_axis_pairs, map_map; simpl; apply map_id.
Qed.

(** Two series on one strictly ascending axis, combined in "sum" mode. *)
Lemma combine_on_axis
    (set_iter : list datetime -> list datetime) (x_ts : list datetime)
    (stored y combined : TimeSeries) :
  set_iteration set_iter ->
  StronglySorted dt_lt x_ts ->
  timestamps stored = x_ts ->
  timestamps y = x_ts ->
  combine set_iter stored y "sum" = Ok combined ->
  timestamps combined = x_ts
  /\ (forall t a b,
        In (t, VInt a) (values stored) -> In (t, VInt b) (values y) ->
        In (t, VInt (a + b)) (values combined)).
Proof.
  intros Hiter Hs Hst Hy H.
  pose proof (combine_strongly_sorted set_iter Hiter stored y _ combined H) as Hsc.
  assert (Hin : forall t, In t (timestamps combined) <-> In t x_ts).
  { intros t; rewrite (combine_In_timestamps set_iter Hiter stored y _ combined t H).
    rewrite Hst, Hy; tauto. }
  assert (Hts : timestamps combined = x_ts).
  { apply (strictly_sorted_unique (fun t => t)); auto.
    apply NoDup_Permutation; auto using strongly_sorted_NoDup. }
  split; auto.
  intros t a b Ha Hb.
  assert (Ht : In t (timestamps combined))
    by (apply Hin; rewrite <- Hst; apply (in_map fst _ _ Ha)).
  apply in_map_iff in Ht; destruct Ht as [[t' v] [Heq Hv]]; simpl in Heq; subst t'.
  pose proof (combine_values set_iter stored y _ combined t v H Hv) as Hc.
  rewrite !combine_map_lookup in Hc.
  assert (Hnd : NoDup x_ts) by (apply strongly_sorted_NoDup, Hs).
  rewrite (proj2 (last_value_at_NoDup stored t (VInt a) ltac:(rewrite Hst; exact Hnd)) Ha) in Hc.
  rewrite (proj2 (last_value_at_NoDup y t (VInt b) ltac:(rewrite Hy; exact Hnd)) Hb) in Hc.
  simpl in Hc; inversion Hc; subst; exact Hv.
Qed.

Lemma state_total_snoc (items : list PSQLNumBackendsByStateMetric.t)
    (item : PSQLNumBackendsByStateMetric.t) (state : option string) (t : datetime) :
  state_total (items ++ [item]) state t
  = state_total items state t
    + (if state_eqb (PSQLNumBackendsByStateMetric.state item) state
       then int_at (PSQLNumBackendsByStateMetric.psql_num_backends_by_state item) t
       else 0).
Proof.
  unfold state_total, total; rewrite filter_app, map_app, fold_right_app; simpl.
  destruct (state_eqb (PSQLNumBackendsByStateMetric.state item) state); simpl.
  - generalize (int_at (PSQLNumBackendsByStateMetric.psql_num_backends_by_state item) t).
    intros z.
    induction (map _ (filter _ items)) as [|x l IH]; simpl; [lia|].
    rewrite IH; lia.
  - lia.
Qed.


Lemma dict_values_unique {K V : Type} (d : list (K * V)) (k : K) (v v' : V) :
  NoDup (dict_keys d) -> In (k, v) d -> In (k, v') d -> v = v'.
Proof.
  induction d as [|[k0 v0] d IH]; simpl; intros Hnd H1 H2; [destruct H1|].
  inversion Hnd as [|? ? Hn Hnd']; subst.
  destruct H1 as [H1|H1], H2 as [H2|H2]; try congruence; auto.
  - inversion H1; subst; exfalso; apply Hn, (in_map fst _ _ H2).
  - inversion H2; subst; exfalso; apply Hn, (in_map fst _ _ H1).
Qed.

Lemma dict_set_In {K V : Type} (eqb : K -> K -> bool)
    (eqb_eq : forall a b, eqb a b = true <-> a = b)
    (d : list (K * V)) (k : K) (v : V) :
  In (k, v) (dict_set eqb d k v).
Proof.
  apply (dict_get_In eqb eqb_eq).
  rewrite (dict_get_set eqb eqb_eq), (eqb_refl' eqb eqb_eq); reflexivity.
Qed.

Lemma state_total_absent (items : list PSQLNumBackendsByStateMetric.t)
    (state : option string) (t : datetime) :
  (forall item, In item items -> PSQLNumBackendsByStateMetric.state item <> state) ->
  state_total items state t = 0.
Proof.
  intros H; unfold state_total.
  replace (filter _ items) with (@nil PSQLNumBackendsByStateMetric.t); [reflexivity|].
  symmetry; induction items as [|item items IH]; simpl; auto.
  destruct (state_eqb (PSQLNumBackendsByStateMetric.state item) state) eqn:E.
  - apply state_eqb_eq in E; exfalso; apply (H item); simpl; auto.
  - apply IH; intros i Hi; apply H; simpl; auto.
Qed.

(** Storing a series that is on the axis and holds the new totals of the
    item's state keeps the invariant. *)
Lemma grouped_state_store (x_ts : list datetime)
    (seen : list PSQLNumBackendsByStateMetric.t)
    (g : list (option string * TimeSeries))
    (item : PSQLNumBackendsByStateMetric.t) (new : TimeSeries) :
  grouped_state_invariant x_ts seen g ->
  timestamps new = x_ts ->
  (forall t, In t x_ts ->
     In (t, VInt (state_total (seen ++ [item])
                    (PSQLNumBackendsByStateMetric.state item) t)) (values new)) ->
  grouped_state_invariant x_ts (seen ++ [item])
    (dict_set state_eqb g (PSQLNumBackendsByStateMetric.state item) new).
Proof.
  intros [Hnd [Hkeys Hent]] Hts Hnew.
  assert (Hnd' : NoDup (dict_keys (dict_set state_eqb g
                                     (PSQLNumBackendsByStateMetric.state item) new)))
    by (apply (dict_keys_set_NoDup state_eqb state_eqb_eq), Hnd).
  split; [exact Hnd'|split].
  - intros state; rewrite (dict_keys_set_In state_eqb state_eqb_eq), Hkeys.
    split.
    + intros [->|[i [Hi Hs]]].
      * exists item; split; auto; apply in_or_app; simpl; auto.
      * exists i; split; auto; apply in_or_app; auto.
    + intros [i [Hi Hs]]; apply in_app_or in Hi.
      destruct Hi as [Hi|[<-|[]]]; eauto.
  - intros state s Hin.
    destruct (state_eqb (PSQLNumBackendsByStateMetric.state item) state) eqn:E.
    + apply state_eqb_eq in E; subst state.
      assert (s = new).
      { apply (dict_values_unique _ _ _ _ Hnd' Hin).
        apply (dict_set_In state_eqb state_eqb_eq). }
      subst s; auto.
    + apply (dict_set_pairs state_eqb state_eqb_eq) in Hin.
      destruct Hin as [Heq|Hin].
      * inversion Heq; subst.
        rewrite (proj2 (state_eqb_eq _ _) eq_refl) in E; discriminate.
      * destruct (Hent _ _ Hin) as [Hs Hv]; split; auto.
        intros t Ht; rewrite state_total_snoc, E, Z.add_0_r; auto.
Qed.

Lemma values_on_axis_integer (x_ts : list datetime) (s : TimeSeries)
    (f : datetime -> Z) (tv : datetime * scalar) :
  NoDup x_ts -> timestamps s = x_ts ->
  (forall t, In t x_ts -> In (t, VInt (f t)) (values s)) ->
  In tv (values s) -> snd tv = VInt (f (fst tv)).
Proof.
  intros Hnd Hts Hv Hin; destruct tv as [t v]; simpl.
  assert (Ht : In t x_ts) by (rewrite <- Hts; apply (in_map fst _ _ Hin)).
  apply (dict_values_unique (values s) t); auto.
  unfold dict_keys; fold (timestamps s); rewrite Hts; exact Hnd.
Qed.

Section GroupedState.
Variable set_iter : list datetime -> list datetime.
Hypothesis Hiter : set_iteration set_iter.
Variable x_ts : list datetime.
Hypothesis Haxis : StronglySorted dt_lt x_ts.

Lemma grouped_state_item_invariant
    (seen : list PSQLNumBackendsByStateMetric.t)
    (g : list (option string * TimeSeries))
    (item : PSQLNumBackendsByStateMetric.t) :
  integer_valued (PSQLNumBackendsByStateMetric.psql_num_backends_by_state item) ->
  grouped_state_invariant x_ts seen g ->
  exists g',
    grouped_state_item set_iter x_ts g item = Ok g'
    /\ grouped_state_invariant x_ts (seen ++ [item]) g'.
Proof.
  intros Hint Hinv; pose proof Hinv as [Hnd [Hkeys Hent]].
  pose proof (strongly_sorted_NoDup _ Haxis) as Hndx.
  set (series := PSQLNumBackendsByStateMetric.psql_num_backends_by_state item) in *.
  set (state := PSQLNumBackendsByStateMetric.state item) in *.
  assert (Hy : forall t, In t x_ts ->
                 In (t, VInt (int_at series t)) (values (on_axis x_ts series))).
  { intros t Ht; rewrite on_axis_pairs, <- (get_by_ts_integer series t Hint).
    apply (in_map (fun ts => (ts, get_by_ts series ts))), Ht. }
  unfold grouped_state_item; fold series; fold state.
  destruct (dict_get state_eqb g state) as [stored|] eqn:E.
  - apply (dict_get_In state_eqb state_eqb_eq) in E.
    destruct (Hent _ _ E) as [Hst Hsv].
    destruct (combine_returns set_iter Hiter stored (on_axis x_ts series) "sum")
      as [combined Hc]; [reflexivity| |].
    { unfold combine_safe; apply forallb_forall; intros [t1 v1] Htv.
      apply (dict_of_items_In dt_eqb dt_eqb_eq) in Htv.
      pose proof (values_on_axis_integer x_ts stored _ _ Hndx Hst Hsv Htv) as Hv1.
      cbn [fst snd] in Hv1 |- *.
      destruct (dict_get dt_eqb _ t1) as [v2|] eqn:E2; auto.
      apply (dict_get_In dt_eqb dt_eqb_eq), (dict_of_items_In dt_eqb dt_eqb_eq) in E2.
      pose proof (values_on_axis_integer x_ts (on_axis x_ts series) _ _ Hndx
                    (on_axis_timestamps x_ts series) Hy E2) as Hv2.
      simpl in Hv2; rewrite Hv1, Hv2; reflexivity. }
    rewrite Hc; cbn [bind]; eexists; split; [reflexivity|].
    destruct (combine_on_axis set_iter x_ts stored (on_axis x_ts series) combined
                Hiter Haxis Hst (on_axis_timestamps x_ts series) Hc) as [Hts Hsum].
    apply grouped_state_store; auto.
    intros t Ht; fold state; fold series.
    rewrite state_total_snoc; fold state; fold series.
    rewrite (proj2 (state_eqb_eq _ _) eq_refl).
    apply Hsum; auto.
  - eexists; split; [reflexivity|].
    apply grouped_state_store; auto using on_axis_timestamps.
    intros t Ht; fold state; fold series.
    rewrite state_total_snoc; fold state; fold series.
    rewrite (proj2 (state_eqb_eq _ _) eq_refl), state_total_absent; auto.
    intros i Hi Hs.
    apply (dict_get_None state_eqb state_eqb_eq) in E; apply E, Hkeys; eauto.
Qed.

Lemma grouped_state_loop (rest : list PSQLNumBackendsByStateMetric.t) :
  forall seen g,
    Forall (fun item =>
              integer_valued (PSQLNumBackendsByStateMetric.psql_num_backends_by_state item))
           rest ->
    grouped_state_invariant x_ts seen g ->
    exists g',
      for_each (grouped_state_item set_iter x_ts) rest g = Ok g'
      /\ grouped_state_invariant x_ts (seen ++ rest) g'.
Proof.
  induction rest as [|item rest IH]; intros seen g Hint Hinv.
  - exists g; rewrite app_nil_r; auto.
  - inversion Hint as [|? ? Hi Hrest]; subst.
    destruct (grouped_state_item_invariant seen g item Hi Hinv) as [g1 [Hstep Hinv1]].
    destruct (IH _ _ Hrest Hinv1) as [g' [Hloop Hinv']].
    exists g'; rewrite for_each_cons, Hstep; cbn [bind].
    rewrite <- app_assoc in Hinv'; auto.
Qed.
End GroupedState.

(** X28. The per-state series that [network_overview] stacks: for items
    whose values are integers the grouping always succeeds, and it holds
    one series per connection state present; each of them has exactly the
    common time axis as its timestamps, and at every timestamp of the axis
    the sum, over the items of that state, of what [get_by_ts] returns
    for the item (0 where an item has no sample). *)
Theorem grouped_state_totals
    (set_iter : list datetime -> list datetime)
    (items : list PSQLNumBackendsByStateMetric.t) :
  set_iteration set_iter ->
  Forall (fun item =>
            integer_valued (PSQLNumBackendsByStateMetric.psql_num_backends_by_state item))
         items ->
  exists g,
    grouped_state_of set_iter items = Ok g
    /\ NoDup (dict_keys g)
    /\ (forall state, In state (dict_keys g)
          <-> exists item, In item items
                /\ PSQLNumBackendsByStateMetric.state item = state)
    /\ (forall state s, In (state, s) g ->
          timestamps s = common_axis set_iter items
          /\ forall t, In t (common_axis set_iter items) ->
               get_by_ts s t = VInt (state_total items state t)).
Proof.
  intros Hiter Hint.
  assert (Haxis : StronglySorted dt_lt (common_axis set_iter items))
    by (apply sort_strongly_sorted, (proj1 (Hiter _))).
  destruct (grouped_state_loop set_iter Hiter _ Haxis items [] [] Hint)
    as [g [Hloop [Hnd [Hkeys Hent]]]].
  { split; [constructor|split].
    - intros state; simpl; split; [tauto | intros [i [[] _]]].
    - intros state s []. }
  exists g; split; [exact Hloop|]; split; auto; split; auto.
  intros state s Hin; destruct (Hent _ _ Hin) as [Hts Hv]; split; auto.
  intros t Ht; apply get_by_ts_NoDup; auto.
  rewrite Hts; apply strongly_sorted_NoDup, Haxis.
Qed.

(* ================================================================== *)
(** * The further properties at sample inputs *)
(* ================================================================== *)

Lemma sample_axis_valid : Forall valid_datetime (timestamps sample_mixed).
Proof. repeat constructor; simpl; lia. Defined.

Lemma get_by_ts_first_witness :
  get_by_ts sample_repeated (sample_time 1 0 0) = VInt 1.
Proof.
  apply (get_by_ts_first sample_repeated (sample_time 1 0 0) (VInt 1)
           [] [(sample_time 2 0 0, VInt 2); (sample_time 1 0 0, VInt 3)]).
  - reflexivity.
  - simpl; tauto.
Defined.

Lemma group_by_minutes_twice_witness :
  exists s1 s2,
    group_by_minutes sample_mixed 5 "avg" = (Ok tt, s1)
    /\ group_by_minutes s1 5 "sum" = (Ok tt, s2)
    /\ timestamps s2 = timestamps s1.
Proof.
  eexists; eexists; split; [vm_compute; reflexivity|].
  split; [vm_compute; reflexivity|].
  apply (group_by_minutes_twice sample_mixed _ _ 5 "avg" "sum" sample_axis_valid);
    vm_compute; reflexivity.
Defined.

Lemma group_by_minutes_size_witness :
  exists s',
    group_by_minutes sample_mixed 5 "avg" = (Ok tt, s')
    /\ (List.length (values s') <= List.length (values sample_mixed))%nat
    /\ (values s' = [] <-> values sample_mixed = [])
    /\ unit s' = unit sample_mixed
    /\ Forall (fun v => exists f, v = VFloat f) (data s').
Proof.
  eexists; split; [vm_compute; reflexivity|].
  apply (group_by_minutes_size sample_mixed _ 5 "avg"); vm_compute; reflexivity.
Defined.

Lemma group_by_minutes_sum_witness :
  exists s' v,
    group_by_minutes sample_mixed 5 "sum" = (Ok tt, s')
    /\ In (sample_time 0 0 0, v) (values s')
    /\ exists total,
         bucket_sum 5 (sample_time 0 0 0) (values sample_mixed) 0%float = Ok total
         /\ v = VFloat total.
Proof.
  eexists; eexists; split; [vm_compute; reflexivity|].
  split; [left; reflexivity|].
  eapply (group_by_minutes_sum sample_mixed _ 5 (sample_time 0 0 0) _).
  - vm_compute; reflexivity.
  - left; reflexivity.
Defined.

Lemma group_by_minutes_avg_witness :
  exists s' v,
    group_by_minutes sample_mixed 5 "avg" = (Ok tt, s')
    /\ In (sample_time 0 0 0, v) (values s')
    /\ exists total average,
         bucket_sum 5 (sample_time 0 0 0) (values sample_mixed) 0%float = Ok total
         /\ 1 <= bucket_count 5 (sample_time 0 0 0) (values sample_mixed)
         /\ float_div_int total
              (bucket_count 5 (sample_time 0 0 0) (values sample_mixed))
            = Ok average
         /\ v = VFloat average.
Proof.
  eexists; eexists; split; [vm_compute; reflexivity|].
  split; [left; reflexivity|].
  eapply (group_by_minutes_avg sample_mixed _ 5 (sample_time 0 0 0) _).
  - vm_compute; reflexivity.
  - left; reflexivity.
Defined.

Lemma combine_mode_validation_witness :
  ((exists msg,
      combine first_occurrence_order sample_mixed sample_flags "max"
      = Raise (ValueError msg))
   <-> ~ ("max" = "sum" \/ "max" = "avg"))
  /\ (forall e,
        combine first_occurrence_order sample_mixed sample_flags "max" = Raise e ->
        (exists msg, e = ValueError msg) \/ e = OverflowError).
Proof.
  apply (combine_mode_validation first_occurrence_order sample_mixed sample_flags
           "max" first_occurrence_order_iteration).
Defined.

Lemma combine_values_spec_witness :
  exists r,
    combine first_occurrence_order sample_repeated sample_repeated "sum" = Ok r
    /\ (forall t v,
          In (t, v) (values r)
          <-> (In t (timestamps sample_repeated) \/ In t (timestamps sample_repeated))
              /\ combine_value "sum" (last_value_at sample_repeated t)
                   (last_value_at sample_repeated t) = Ok v)
    /\ (forall t a b,
          "sum" = "sum" ->
          last_value_at sample_repeated t = Some (VInt a) ->
          last_value_at sample_repeated t = Some (VInt b) ->
          In (t, VInt (a + b)) (values r)).
Proof.
  eexists; split; [vm_compute; reflexivity|].
  apply (combine_values_spec first_occurrence_order sample_repeated sample_repeated
           _ "sum" first_occurrence_order_iteration).
  vm_compute; reflexivity.
Defined.

Lemma sample_ascending_sorted : StronglySorted dt_lt (timestamps sample_ascending).
Proof. repeat constructor. Defined.

Lemma combine_empty_right_witness :
  combine first_occurrence_order sample_ascending (mk_TimeSeries [] (Some "bytes")) "avg"
  = Ok (mk_TimeSeries (values sample_ascending)
          (unit_or (unit sample_ascending) (Some "bytes"))).
Proof.
  apply (combine_empty_right first_occurrence_order sample_ascending (Some "bytes")
           "avg" first_occurrence_order_iteration).
  - right; reflexivity.
  - exact sample_ascending_sorted.
Defined.

Lemma combine_timestamps_symmetric_witness :
  exists r1 r2,
    combine first_occurrence_order sample_mixed sample_flags "sum" = Ok r1
    /\ combine first_occurrence_order sample_flags sample_mixed "avg" = Ok r2
    /\ timestamps r1 = timestamps r2.
Proof.
  eexists; eexists; split; [vm_compute; reflexivity|].
  split; [vm_compute; reflexivity|].
  apply (combine_timestamps_symmetric first_occurrence_order first_occurrence_order
           sample_mixed sample_flags _ _ "sum" "avg"
           first_occurrence_order_iteration first_occurrence_order_iteration);
    vm_compute; reflexivity.
Defined.

Lemma sample_distinct_times : Forall distinct_times [sample_cumulative_series].
Proof.
  constructor; [|constructor]; split.
  - repeat constructor; discriminate.
  - simpl; repeat (constructor; [simpl; intuition discriminate|]); constructor.
Defined.

Lemma lock_time_point_order_irrelevant_witness :
  load_perquery_lock_time sample_cumulative_client
  = load_perquery_lock_time sample_newest_first_client.
Proof.
  apply (lock_time_point_order_irrelevant sample_cumulative_client
           sample_newest_first_client
           [sample_cumulative_series] [sample_newest_first_series]).
  - reflexivity.
  - reflexivity.
  - constructor; [|constructor].
    split; [reflexivity|split; [reflexivity|apply Permutation_rev]].
  - exact sample_distinct_times.
Defined.

Lemma sample_times_sorted : Sorted dt_le sample_times.
Proof. repeat constructor. Defined.

Lemma lock_time_deltas_total_witness :
  exists bundle deltas,
    load_perquery_lock_time sample_cumulative_client = Ok [bundle]
    /\ data (PerqueryLockTimeMetric.perquery_lock_time bundle) = map VInt deltas
    /\ Forall (fun d => 0 <= d) (tl deltas)
    /\ (Sorted Z.le (raw_readings sample_cumulative_series) ->
        total deltas = List.last (raw_readings sample_cumulative_series) 0).
Proof.
  apply (lock_time_deltas_total sample_cumulative_client sample_cumulative_series
           sample_times).
  - reflexivity.
  - reflexivity.
  - exact sample_times_sorted.
Defined.

Lemma lock_time_one_bundle_per_identity_witness :
  exists bundles,
    load_perquery_lock_time sample_two_listings_client = Ok bundles
    /\ NoDup (map lock_time_identity bundles)
    /\ (forall b, In b bundles ->
          exists ts, In ts [sample_cumulative_series; sample_later_series]
                     /\ lock_time_identity b = series_identity ts)
    /\ (List.length bundles <= 2)%nat.
Proof.
  eexists; split; [vm_compute; reflexivity|].
  apply (lock_time_one_bundle_per_identity sample_two_listings_client
           [sample_cumulative_series; sample_later_series]).
  - reflexivity.
  - vm_compute; reflexivity.
Defined.

Lemma lock_time_two_listings_witness :
  exists bundle,
    load_perquery_lock_time sample_two_listings_client = Ok [bundle]
    /\ lock_time_identity bundle = series_identity sample_cumulative_series
    /\ values (PerqueryLockTimeMetric.perquery_lock_time bundle)
       = sort_by fst
           (delta_pairs sample_times (raw_readings sample_cumulative_series)
            ++ delta_pairs sample_later_times (raw_readings sample_later_series)).
Proof.
  apply (lock_time_two_listings sample_two_listings_client
           sample_cumulative_series sample_later_series
           sample_times sample_later_times).
  - reflexivity.
  - reflexivity.
  - reflexivity.
  - reflexivity.
  - exact sample_times_sorted.
  - repeat constructor.
Defined.

Lemma io_time_stores_raw_readings_witness :
  exists bundle,
    load_perquery_IO_time sample_cumulative_client = Ok [bundle]
    /\ data (PerqueryIOTimeMetric.perquery_IO_time bundle)
       = map VInt (raw_readings sample_cumulative_series)
    /\ timestamps (PerqueryIOTimeMetric.perquery_IO_time bundle)
       = map replace_second_microsecond_0 sample_times.
Proof.
  apply (io_time_stores_raw_readings sample_cumulative_client
           sample_cumulative_series sample_times).
  - reflexivity.
  - reflexivity.
  - exact sample_times_sorted.
Defined.

Lemma latency_count_deltas_witness :
  exists bundles bundle,
    load_perquery_latency sample_distribution_ordered_client = Ok bundles
    /\ bundles = [bundle]
    /\ data (PerqueryLatencyMetric.perquery_count bundle)
       = map VInt (spec_deltas (raw_counts sample_distribution_ordered))
    /\ timestamps (PerqueryLatencyMetric.perquery_count bundle)
       = map replace_second_microsecond_0 sample_distribution_times.
Proof.
  eexists.
  destruct (latency_count_deltas sample_distribution_ordered_client
              sample_distribution_ordered sample_distribution_times
              _ eq_refl eq_refl ltac:(repeat constructor)
              ltac:(vm_compute; reflexivity))
    as [bundle Hb].
  exists bundle; split; [vm_compute; reflexivity | exact Hb].
Defined.

Lemma generate_cloudsql_metrics_success_witness :
  ((forall attr r, In (attr, r) (fetch_map sample_healthy_collector) ->
                   exists v, r = Ok v) ->
   exists snapshot,
     generate_cloudsql_metrics (@rev _) sample_healthy_collector = Ok snapshot)
  /\ (forall snapshot,
        generate_cloudsql_metrics (@rev _) sample_healthy_collector = Ok snapshot ->
        NoDup (dict_keys (populated snapshot))
        /\ List.length (populated snapshot) = 14%nat
        /\ (forall attr v,
              dict_get String.eqb (populated snapshot) attr = Some v
              <-> In (attr, Ok v) (fetch_map sample_healthy_collector))).
Proof.
  apply (generate_cloudsql_metrics_success (@rev _) sample_healthy_collector
           reverse_completion_order).
Defined.

Lemma generate_cloudsql_metrics_wiring_witness :
  exists snapshot,
    generate_cloudsql_metrics (@rev _) sample_healthy_collector = Ok snapshot
    /\ (exists v, load_disk_write_bytes sample_healthy_collector = Ok v
                  /\ dict_get String.eqb (populated snapshot) "disk_read_bytes"
                     = Some v)
    /\ Forall (fun field => dict_get String.eqb (populated snapshot) field = None)
         [ "disk_write_bytes"; "disk_read_ops"; "disk_write_ops";
           "disk_bytes_used"; "cpu_reserved_cores";
           "pg_stat_statements_top_queries"; "pg_stat_statements_heavy_wal" ].
Proof.
  eexists; split; [vm_compute; reflexivity|].
  apply (generate_cloudsql_metrics_wiring (@rev _) sample_healthy_collector _
           reverse_completion_order).
  vm_compute; reflexivity.
Defined.

Lemma load_series_spec_witness :
  exists r,
    Loader.load_disk_quota sample_by_type_client = Ok r
    /\ Forall2 (stored_for Loader.int64_field)
         (List.concat (map time_ordered_points sample_by_type_listing)) (values r)
    /\ (forall ts, In ts sample_by_type_listing ->
          Permutation (time_ordered_points ts) (points ts)
          /\ Sorted dt_le (times_of (time_ordered_points ts)))
    /\ Permutation (data r)
         (map (fun p => Loader.int64_field (value p))
              (List.concat (map points sample_by_type_listing)))
    /\ List.length (values r) = point_count sample_by_type_listing
    /\ Forall (fun t => second t = 0 /\ microsecond t = 0) (timestamps r)
    /\ unit r = Some "bytes".
Proof.
  eexists; split; [vm_compute; reflexivity|].
  apply (load_series_spec sample_by_type_client
           "cloudsql.googleapis.com/database/disk/quota" "bytes" Loader.int64_field
           sample_by_type_listing).
  - reflexivity.
  - vm_compute; reflexivity.
Defined.

Lemma load_by_label_keys_witness :
  exists d,
    Loader.load_disk_bytes_used_by_type sample_by_type_client = Ok d
    /\ (sample_by_type_listing = [] ->
        d = [("Not Available", mk_TimeSeries [] (Some "bytes"))])
    /\ (sample_by_type_listing <> [] ->
        Forall (fun ts => label (metric_labels ts) "data_type" <> None)
               sample_by_type_listing
        /\ NoDup (dict_keys d)
        /\ (forall k, In k (dict_keys d)
              <-> exists ts, In ts sample_by_type_listing
                    /\ label (metric_labels ts) "data_type" = Some k
                    /\ points ts <> [])).
Proof.
  eexists; split; [vm_compute; reflexivity|].
  apply (load_by_label_keys sample_by_type_client
           "cloudsql.googleapis.com/database/disk/bytes_used_by_data_type"
           "data_type" Loader.int64_field sample_by_type_listing).
  - reflexivity.
  - vm_compute; reflexivity.
Defined.

Lemma load_psql_num_backends_by_state_nonempty_witness :
  exists bundles,
    Loader.load_psql_num_backends_by_state sample_by_type_client = Ok bundles
    /\ bundles <> []
    /\ (sample_by_type_listing = [] ->
        bundles = [PSQLNumBackendsByStateMetric.mk (Some "No Data") (Some "No Data")
                     (Some "No Data") (mk_TimeSeries [] (Some "counts"))])
    /\ (sample_by_type_listing <> [] ->
        (List.length bundles <= List.length sample_by_type_listing)%nat).
Proof.
  eexists; split; [vm_compute; reflexivity|].
  apply (load_psql_num_backends_by_state_nonempty sample_by_type_client
           sample_by_type_listing).
  - reflexivity.
  - vm_compute; reflexivity.
Defined.

Lemma sample_backends_integer :
  Forall (fun item =>
            integer_valued (PSQLNumBackendsByStateMetric.psql_num_backends_by_state item))
         sample_backends.
Proof.
  repeat constructor; eexists; reflexivity.
Defined.

Lemma grouped_state_totals_witness :
  exists g,
    grouped_state_of first_occurrence_order sample_backends = Ok g
    /\ NoDup (dict_keys g)
    /\ (forall state, In state (dict_keys g)
          <-> exists item, In item sample_backends
                /\ PSQLNumBackendsByStateMetric.state item = state)
    /\ (forall state s, In (state, s) g ->
          timestamps s = common_axis first_occurrence_order sample_backends
          /\ forall t, In t (common_axis first_occurrence_order sample_backends) ->
               get_by_ts s t = VInt (state_total sample_backends state t)).
Proof.
  apply (grouped_state_totals first_occurrence_order sample_backends
           first_occurrence_order_iteration sample_backends_integer).
Defined.

Lemma percentile_failure_modes_witness :
  (exists estimate,
     _percentile_from_explicit_buckets [10%float; 20%float; 40%float]
       [2; 3; 5; 0] 0.75%float = Ok estimate)
  /\ _percentile_from_explicit_buckets [10%float; 20%float; 40%float]
       [2; -3; 0; 1] 0.75%float = Ok 0%float.
Proof.
  destruct (percentile_failure_modes [10%float; 20%float; 40%float]
              [2; 3; 5; 0] 0.75%float) as [_ [Hreturns _]].
  destruct (percentile_failure_modes [10%float; 20%float; 40%float]
              [2; -3; 0; 1] 0.75%float) as [_ [_ Hzero]].
  split.
  - apply Hreturns; [repeat constructor | vm_compute; reflexivity].
  - apply Hzero; vm_compute; discriminate.
Defined.

Lemma safe_xy_spec_witness :
  (fst (_safe_xy sample_mixed) = timestamps (sort sample_mixed)
   /\ map Ok (snd (_safe_xy sample_mixed)) = map py_float (data (sort sample_mixed)))
  /\ _safe_xy (add sample_mixed (sample_time 9 0 0) (VInt (2 ^ 1024))) = ([], []).
Proof.
  destruct (safe_xy_spec sample_mixed) as [_ [_ [Hall _]]].
  destruct (safe_xy_spec (add sample_mixed (sample_time 9 0 0) (VInt (2 ^ 1024))))
    as [_ [_ [_ Hnone]]].
  split.
  - apply Hall; vm_compute; reflexivity.
  - apply Hnone; vm_compute; reflexivity.
Defined.

(** Two identities, each listed newest first: the first holds the four
    sample readings. *)
Lemma lock_time_delta_decoding_witness :
  exists b other,
    load_perquery_lock_time sample_two_identities_client = Ok [b; other]
    /\ lock_time_identity b <> lock_time_identity other
    /\ readings_of (time_ordered_points sample_newest_first_series)
       = [0; 100; 250; 200]
    /\ data (PerqueryLockTimeMetric.perquery_lock_time b)
       = [VInt 0; VInt 100; VInt 150; VInt 0]
    /\ timestamps (PerqueryLockTimeMetric.perquery_lock_time b)
       = map replace_second_microsecond_0 sample_times
    /\ data (PerqueryLockTimeMetric.perquery_lock_time other)
       = [VInt 7; VInt 5; VInt 0].
Proof.
  assert (Htimed : every_point_timed sample_two_identities)
    by (repeat constructor; discriminate).
  destruct (lock_time_delta_decoding sample_two_identities_client
              sample_two_identities eq_refl Htimed)
    as [bundles [Hload [Hnd [_ Hb]]]].
  eassert (E : load_perquery_lock_time sample_two_identities_client = Ok [_; _])
    by (vm_compute; reflexivity).
  rewrite E in Hload; injection Hload as <-.
  do 2 eexists; split; [reflexivity|].
  split; [inversion Hnd as [|? ? Hn _]; intros Heq; apply Hn; left; symmetry; exact Heq|].
  destruct (Hb _ (or_introl eq_refl)) as [_ [_ Hfirst]].
  destruct (Hfirst sample_newest_first_series eq_refl) as [_ [Ht Hex]].
  destruct (Hb _ (or_intror (or_introl eq_refl))) as [_ [_ Hsecond]].
  destruct (Hsecond sample_other_series eq_refl) as [Hd _].
  split; [reflexivity|].
  split; [exact (Hex eq_refl)|].
  split; [exact Ht | exact Hd].
Defined.

(** The claim as first stated, on the time-ordered readings of an
    identity, fails when the backend lists the identity as two series:
    the readings 0, 100, 250, 200 and then 40, 70, 75 would give the
    deltas 0, 100, 150, 0, 0, 30, 5; the decoder starts afresh for the
    second series and stores 0, 100, 150, 0, 40, 30, 5. *)
Lemma lock_time_identity_counterexample :
  ~ (forall client listing bundles b,
       client lock_time_metric_type = Ok listing ->
       load_perquery_lock_time client = Ok bundles ->
       In b bundles ->
       data (PerqueryLockTimeMetric.perquery_lock_time b)
       = map VInt (spec_deltas (identity_readings (lock_time_identity b) listing))).
Proof.
  intros H.
  eassert (E : load_perquery_lock_time sample_two_listings_client = Ok [_])
    by (vm_compute; reflexivity).
  specialize (H sample_two_listings_client _ _ _ eq_refl E (or_introl eq_refl)).
  vm_compute in H; discriminate H.
Qed.
